(** * Churn prediction service: schema inference and request validation

    A shallow embedding of [backend/main.py].  The service keeps a fitted
    scikit-learn pipeline and its schema metadata in module-level globals,
    persists them with joblib, and answers HTTP requests.  Handlers are
    modelled as state-passing functions over a [World] (globals, disk and a
    ghost log of the exceptions raised so far) that return either an
    exception or a response.  pandas, numpy, scikit-learn and joblib are
    external: the operations of theirs that the service calls are section
    variables, or are represented by the values they return. *)

From stdpp Require Import base strings list gmap pretty sorting.
From Stdlib Require Import ZArith Lia Ascii.

Local Open Scope Z_scope.
Local Open Scope string_scope.
Local Open Scope list_scope.

(** ** Values, columns and dataframes *)

(** A dataframe cell.  A [float64] is carried as its IEEE-754 bit pattern: the
    service never computes with floats itself.  [CNull] is a missing value
    (NaN or None); [CObj] is any other Python object (a nested JSON list or
    dict). *)
Inductive Cell :=
| CNull
| CInt (z : Z)
| CFloat (bits : Z)
| CBool (b : bool)
| CStr (s : string)
| CObj.

#[global] Instance Cell_eq_dec : EqDecision Cell.
Proof. solve_decision. Defined.

Inductive Dtype :=
| int64 | uint64 | float64 | complex128 | bool_
| object_ | datetime64 | timedelta64 | category.

#[global] Instance Dtype_eq_dec : EqDecision Dtype.
Proof. solve_decision. Defined.

Record Series := mkSeries { dtype : Dtype; values : list Cell }.

#[global] Instance Series_eq_dec : EqDecision Series.
Proof. solve_decision. Defined.

(** A dataframe: an index of [nrows] rows and named columns in order. *)
Record DataFrame := mkFrame { nrows : nat; cols : list (string * Series) }.

#[global] Instance DataFrame_eq_dec : EqDecision DataFrame.
Proof. solve_decision. Defined.

(** [df.columns] *)
Definition columns (df : DataFrame) : list string := (cols df).*1.

Fixpoint assoc {A : Type} (k : string) (l : list (string * A)) : option A :=
  match l with
  | [] => None
  | (k', v) :: rest => if decide (k = k') then Some v else assoc k rest
  end.

(** [df[col]] for a column label; [None] stands for pandas' KeyError. *)
Definition getitem (df : DataFrame) (col : string) : option Series :=
  assoc col (cols df).

(** [pd.api.types.is_numeric_dtype]: integer, floating, complex and boolean
    dtypes. *)
Definition is_numeric_dtype (s : Series) : bool :=
  match dtype s with
  | int64 | uint64 | float64 | complex128 | bool_ => true
  | object_ | datetime64 | timedelta64 | category => false
  end.

(** [pd.api.types.is_integer_dtype] *)
Definition is_integer_dtype (s : Series) : bool :=
  match dtype s with
  | int64 | uint64 => true
  | _ => false
  end.

Definition notnull (c : Cell) : bool :=
  match c with CNull => false | _ => true end.

(** [series.dropna()] *)
Definition dropna (l : list Cell) : list Cell := List.filter notnull l.

(** [series.unique()]: distinct values in order of first appearance. *)
Definition unique (l : list Cell) : list Cell :=
  reverse (remove_dups (reverse l)).

(** [series.nunique(dropna=True)] *)
Definition nunique (s : Series) : nat := length (unique (dropna (values s))).

(** ** Exceptions *)

(** An f-string is kept as its pieces, because [list(set)] has no fixed
    order in Python, so its text is not determined by the set. *)
Inductive Fragment :=
| Text (s : string)
| ReprList (l : list string)
| ReprSet (s : gset string)
| ReprCell (c : Cell).

Definition fstring := list Fragment.

#[global] Instance Fragment_eq_dec : EqDecision Fragment.
Proof. solve_decision. Defined.

(** The exception classes the handlers tell apart.  [ValueError] and
    [TypeError] stand for these classes and their subclasses raised by the
    numeric coercion; [OtherError] is any other subclass of [Exception]. *)
Inductive ErrorClass :=
| ValueError | TypeError | KeyError | IndexError | OSError
| OtherError (name : string).

#[global] Instance ErrorClass_eq_dec : EqDecision ErrorClass.
Proof. solve_decision. Defined.

Inductive exn :=
| HTTPException (status_code : Z) (detail : fstring)
| Error (cls : ErrorClass) (msg : fstring).

#[global] Instance exn_eq_dec : EqDecision exn.
Proof. solve_decision. Defined.

Definition is_http (e : exn) : bool :=
  match e with HTTPException _ _ => true | Error _ _ => false end.

(** [str(e)] *)
Definition str_exn (e : exn) : fstring :=
  match e with
  | HTTPException _ d => d
  | Error _ m => m
  end.

(** The outcome of a Python expression that may raise. *)
Definition result (A : Type) : Type := exn + A.

(** ** Schema detector *)

(** The body of the [for col in df.columns] loop of [detect_column_types],
    with the two result lists as accumulators. *)
Fixpoint detect_loop (df : DataFrame) (todo : list string)
    (numerical categorical : list string) : list string * list string :=
  match todo with
  | [] => (numerical, categorical)
  | col :: rest =>
    match getitem df col with
    | Some s =>
      if is_numeric_dtype s then
        (* treat low-cardinality integers as categorical *)
        if is_integer_dtype s && (nunique s <=? 10)%nat then
          detect_loop df rest numerical (categorical ++ [col])
        else
          detect_loop df rest (numerical ++ [col]) categorical
      else
        detect_loop df rest numerical (categorical ++ [col])
    | None => (* not reached: [col] is a label of [df] *)
      detect_loop df rest numerical categorical
    end
  end.

Definition detect_column_types (df : DataFrame) : list string * list string :=
  detect_loop df (columns df) [] [].

(** Truth value of an [Optional[str]]: [None] and the empty string are
    false. *)
Definition truthy (o : option string) : bool :=
  match o with
  | Some s => negb (String.eqb s EmptyString)
  | None => false
  end.

Definition target_candidates : list string :=
  ["Churn"; "Exited"; "churn"; "target"].

Fixpoint first_candidate (df : DataFrame) (candidates : list string)
    : result string :=
  match candidates with
  | [] => inl (Error ValueError
            [Text "No target column found. Please specify with ?target= parameter"])
  | candidate :: rest =>
    if bool_decide (candidate ∈ columns df) then inr candidate
    else first_candidate df rest
  end.

Definition detect_target_column (df : DataFrame) (target_param : option string)
    : result string :=
  if truthy target_param then
    let t := default EmptyString target_param in
    if bool_decide (t ∈ columns df) then inr t
    else inl (Error ValueError
           [Text "Target column '"; Text t; Text "' not found in dataset"])
  else first_candidate df target_candidates.

(** ** Strings *)

(** [str.lower] on the ASCII letters; the other bytes of a UTF-8 string are
    kept, which is enough to decide [endswith('id')]: no non-ASCII character
    lowers to a string ending in the letter i or d. *)
Definition lower_ascii (c : Ascii.ascii) : Ascii.ascii :=
  let n := nat_of_ascii c in
  if (65 <=? n)%nat && (n <=? 90)%nat then ascii_of_nat (n + 32) else c.

Fixpoint lower (s : string) : string :=
  match s with
  | EmptyString => EmptyString
  | String c rest => String (lower_ascii c) (lower rest)
  end.

(** [s.endswith(suffix)] *)
Definition endswith (s suffix : string) : bool :=
  let n := String.length s in
  let m := String.length suffix in
  (m <=? n)%nat && String.eqb (String.substring (n - m) m s) suffix.

(** ** Dataframe operations *)

(** [df[labels]] for a list of labels: a new frame on the same index. *)
Definition select (df : DataFrame) (labels : list string) : result DataFrame :=
  let missing := List.filter (fun c => negb (bool_decide (c ∈ columns df))) labels in
  match missing with
  | [] => inr (mkFrame (nrows df)
                 (omap (fun c => pair c <$> getitem df c) labels))
  | _ :: _ => inl (Error KeyError [ReprList missing; Text " not in index"])
  end.

Fixpoint replace_or_append (col : string) (s : Series)
    (l : list (string * Series)) : list (string * Series) :=
  match l with
  | [] => [(col, s)]
  | (c, old) :: rest =>
    if decide (col = c) then (c, s) :: rest
    else (c, old) :: replace_or_append col s rest
  end.

(** [df[col] = array]: overwrites the column in place when the label exists,
    appends it otherwise; the array must be as long as the index. *)
Definition setitem (df : DataFrame) (col : string) (s : Series)
    : result DataFrame :=
  if decide (length (values s) = nrows df) then
    inr (mkFrame (nrows df) (replace_or_append col s (cols df)))
  else
    inl (Error ValueError
           [Text "Length of values does not match length of index"]).

(** A decoded JSON value; arrays and objects are kept opaque. *)
Inductive Json :=
| JNull
| JBool (b : bool)
| JInt (z : Z)
| JFloat (bits : Z)
| JStr (s : string)
| JCompound.

(** The one-row column pandas infers for a JSON value. *)
Definition series_of_json (v : Json) : Series :=
  match v with
  | JNull => mkSeries object_ [CNull]
  | JBool b => mkSeries bool_ [CBool b]
  | JInt z =>
    if ((- 2 ^ 63 <=? z) && (z <? 2 ^ 63))%Z then mkSeries int64 [CInt z]
    else if ((0 <=? z) && (z <? 2 ^ 64))%Z then mkSeries uint64 [CInt z]
    else mkSeries object_ [CInt z]
  | JFloat f => mkSeries float64 [CFloat f]
  | JStr s => mkSeries object_ [CStr s]
  | JCompound => mkSeries object_ [CObj]
  end.

(** [pd.DataFrame([input_data])] for a dict given by its items. *)
Definition frame_of_record (input_data : list (string * Json)) : DataFrame :=
  mkFrame 1 (prod_map id series_of_json <$> input_data).

(** ** The fitted model *)

Inductive Transformer := OneHotEncoder | StandardScaler.

(** A scikit-learn [Pipeline]: the column transformer's steps, the class of
    the final estimator and, once fitted, the data it was fitted on (with
    [random_state=42] the fit is a function of that data). *)
Record Pipeline := mkPipeline {
  transformers : list (string * Transformer * list string);
  classifier : string;
  fitted_on : option (DataFrame * Series)
}.

Definition create_pipeline (categorical_cols numerical_cols : list string)
    : result Pipeline :=
  let preprocessors : list (string * Transformer * list string) := [] in
  let preprocessors :=
    match categorical_cols with
    | [] => preprocessors
    | _ => (preprocessors ++ [("cat", OneHotEncoder, categorical_cols)])%list
    end in
  let preprocessors :=
    match numerical_cols with
    | [] => preprocessors
    | _ => (preprocessors ++ [("num", StandardScaler, numerical_cols)])%list
    end in
  match preprocessors with
  | [] => inl (Error ValueError [Text "No features found for preprocessing"])
  | _ => inr (mkPipeline preprocessors "LogisticRegression" None)
  end.

(** ** Globals, disk and the handler monad *)

Record Globals := mkGlobals {
  model : option Pipeline;
  pipeline : option Pipeline;
  feature_columns : option (list string);
  target_column : option string;
  categorical_columns : option (list string);
  numerical_columns : option (list string);
  categorical_values : option (gmap string (list string))
}.

(** The dict stored in [model/model.joblib]; [.get] gives [None] for an
    absent key. *)
Record ModelData := mkModelData {
  md_pipeline : option Pipeline;
  md_feature_columns : option (list string);
  md_target_column : option string;
  md_categorical_columns : option (list string);
  md_numerical_columns : option (list string);
  md_categorical_values : option (gmap string (list string))
}.

(** A file is represented by what its reader returns on it. *)
Inductive File :=
| CsvFile (parsed : result DataFrame)
| JoblibFile (loaded : result ModelData).

(** [raised] is ghost state: every exception object raised so far, in
    order. *)
Record World := mkWorld {
  globals : Globals;
  disk : gmap string File;
  writable : bool;
  raised : list exn
}.

Definition M (A : Type) : Type := World -> World * result A.

Definition ret {A : Type} (a : A) : M A := fun w => (w, inr a).

Definition bind {A B : Type} (m : M A) (f : A -> M B) : M B :=
  fun w => match m w with
           | (w', inr a) => f a w'
           | (w', inl e) => (w', inl e)
           end.

#[global] Instance M_ret : MRet M := @ret.
#[global] Instance M_bind : MBind M := fun A B f m => bind m f.

Definition log_raise (e : exn) (w : World) : World :=
  mkWorld (globals w) (disk w) (writable w) (raised w ++ [e]).

(** [raise e] for a new exception object. *)
Definition raise {A : Type} (e : exn) : M A := fun w => (log_raise e w, inl e).

(** A bare [raise] in an [except] clause: the caught exception goes on. *)
Definition reraise {A : Type} (e : exn) : M A := fun w => (w, inl e).

(** An expression that may raise. *)
Definition lift {A : Type} (r : result A) : M A :=
  match r with inl e => raise e | inr a => ret a end.

(** [try: m except Exception as e: h e] *)
Definition try_except {A : Type} (m : M A) (h : exn -> M A) : M A :=
  fun w => match m w with
           | (w', inl e) => h e w'
           | (w', inr a) => (w', inr a)
           end.

Definition get_globals : M Globals := fun w => (w, inr (globals w)).

(** The two [except] clauses that close the three main handlers:
    [except HTTPException: raise] and
    [except Exception as e: raise HTTPException(500, f"{prefix}{str(e)}")]. *)
Definition http_errors {A : Type} (prefix : string) (body : M A) : M A :=
  try_except body (fun e =>
    if is_http e then reraise e
    else raise (HTTPException 500 (Text prefix :: str_exn e))).

(** Iterating over an [Optional[List[str]]] global: [None] is not
    iterable. *)
Definition iter (o : option (list string)) : result (list string) :=
  match o with
  | Some l => inr l
  | None => inl (Error TypeError [Text "'NoneType' object is not iterable"])
  end.

(** [os.path.exists] *)
Definition exists_path (path : string) (w : World) : bool :=
  bool_decide (is_Some (disk w !! path)).

Definition path_exists (path : string) : M bool :=
  fun w => (w, inr (exists_path path w)).

Definition unreadable : exn := Error (OtherError "Exception") [Text "unreadable file"].

(** [pd.read_csv(path)] of an existing file. *)
Definition read_csv (path : string) : M DataFrame :=
  fun w => match disk w !! path with
           | Some (CsvFile r) => lift r w
           | Some (JoblibFile _) => raise unreadable w
           | None => raise (Error OSError [Text "No such file or directory: "; Text path]) w
           end.

(** [joblib.load(path)] followed by the [.get] calls. *)
Definition joblib_load (path : string) : M ModelData :=
  fun w => match disk w !! path with
           | Some (JoblibFile r) => lift r w
           | Some (CsvFile _) => raise unreadable w
           | None => raise (Error OSError [Text "No such file or directory: "; Text path]) w
           end.

(** [os.makedirs(dir, exist_ok=True)] then [joblib.dump(data, path)]. *)
Definition joblib_dump (data : ModelData) (path : string) : M unit :=
  fun w => if writable w then
             (mkWorld (globals w) (<[path := JoblibFile (inr data)]> (disk w))
                      (writable w) (raised w), inr tt)
           else raise (Error OSError [Text "Permission denied: "; Text path]) w.

Definition modify_globals (f : Globals -> Globals) : M unit :=
  fun w => (mkWorld (f (globals w)) (disk w) (writable w) (raised w), inr tt).

Definition with_model (v : option Pipeline) (g : Globals) : Globals :=
  mkGlobals v (pipeline g) (feature_columns g) (target_column g)
    (categorical_columns g) (numerical_columns g) (categorical_values g).

Definition with_pipeline (v : option Pipeline) (g : Globals) : Globals :=
  mkGlobals (model g) v (feature_columns g) (target_column g)
    (categorical_columns g) (numerical_columns g) (categorical_values g).

Definition with_feature_columns (v : option (list string)) (g : Globals) : Globals :=
  mkGlobals (model g) (pipeline g) v (target_column g)
    (categorical_columns g) (numerical_columns g) (categorical_values g).

Definition with_target_column (v : option string) (g : Globals) : Globals :=
  mkGlobals (model g) (pipeline g) (feature_columns g) v
    (categorical_columns g) (numerical_columns g) (categorical_values g).

Definition with_categorical_columns (v : option (list string)) (g : Globals) : Globals :=
  mkGlobals (model g) (pipeline g) (feature_columns g) (target_column g)
    v (numerical_columns g) (categorical_values g).

Definition with_numerical_columns (v : option (list string)) (g : Globals) : Globals :=
  mkGlobals (model g) (pipeline g) (feature_columns g) (target_column g)
    (categorical_columns g) v (categorical_values g).

Definition with_categorical_values (v : option (gmap string (list string)))
    (g : Globals) : Globals :=
  mkGlobals (model g) (pipeline g) (feature_columns g) (target_column g)
    (categorical_columns g) (numerical_columns g) v.

Definition data_path : string := "../data/Churn_Modelling.csv".
Definition model_path : string := "model/model.joblib".

(** ** Requests and responses *)

Record PredictionResponse := mkPredictionResponse {
  prediction : Z;
  probability : Z   (* float *)
}.

Inductive Metric :=
| MFloat (bits : Z)
| MCounts (entries : list (string * Z)).

Record TrainingResponse := mkTrainingResponse {
  message : string;
  metrics : list (string * Metric);
  resp_target_column : string;
  resp_feature_columns : list string;
  resp_categorical_columns : list string;
  resp_numerical_columns : list string
}.

(** An uploaded file; [content] is what
    [pd.read_csv(io.StringIO(content.decode('utf-8')))] gives on its bytes. *)
Record UploadFile := mkUpload {
  filename : string;
  content : result DataFrame
}.

(** The CSV download; [body] is the frame whose [to_csv(index=False)] text is
    streamed. *)
Record StreamingResponse := mkStreaming {
  body : DataFrame;
  content_disposition : string
}.

Inductive SchemaField :=
| CategoricalField (name : string) (vals : list string)
| NumberField (name : string).

Record SchemaResponse := mkSchemaResponse {
  schema_target : option string;
  schema_fields : list SchemaField
}.

Inductive ModelInfo :=
| NotTrained
| Info (target : option string) (features categorical numerical : option (list string))
       (model_type : string).

Record Health := mkHealth { status : string; model_loaded : bool }.

(** The numeric dtypes [pd.to_numeric] gives a converted column. *)
Inductive NumericDtype :=
| to_int64 | to_uint64 | to_float64 | to_complex128 | to_bool.

Definition dtype_of (n : NumericDtype) : Dtype :=
  match n with
  | to_int64 => int64
  | to_uint64 => uint64
  | to_float64 => float64
  | to_complex128 => complex128
  | to_bool => bool_
  end.

(** What [pd.to_numeric(series, errors='raise')] does to a column whose dtype
    is not numeric, when it does not raise: it converts the values one by
    one and gives the column one numeric dtype, or it returns the column as
    it is (values that fit no single dtype: unsigned 64-bit integers next to
    negative or missing values). *)
Inductive Conversion :=
| Unchanged
| Converted (dt : NumericDtype) (cast : Cell -> Cell).

(** Entry [cm[i, j]] of a 2-D array given by its rows. *)
Definition cm_at (cm : list (list Z)) (i j : nat) : result Z :=
  match cm !! i ≫= (.!! j) with
  | Some v => inr v
  | None => inl (Error IndexError [Text "index is out of bounds"])
  end.

(** [arr[0]] *)
Definition first {A : Type} (l : list A) : result A :=
  match l with
  | x :: _ => inr x
  | [] => inl (Error IndexError [Text "index 0 is out of bounds for axis 0 with size 0"])
  end.

(** The set difference [set(a) - set(b)] of two label lists. *)
Definition set_diff (a b : list string) : gset string :=
  list_to_set a ∖ list_to_set b.

(** [Content-Disposition] of the batch download. *)
Definition attachment (name : string) : string :=
  "attachment; filename=predictions_" +:+ name.

(** ** Test doubles and sample data

    Stand-ins for the external libraries, used only by the closed examples
    at the end of the file: a conversion that reads unsigned decimal
    integers for [pd.to_numeric], and a classifier that predicts class 0
    with probability 0 for every row. *)

Fixpoint digits_value (s : string) (acc : Z) : option Z :=
  match s with
  | EmptyString => Some acc
  | String c rest =>
    let n := Z.of_nat (nat_of_ascii c) in
    if ((48 <=? n) && (n <=? 57))%Z
    then digits_value rest (10 * acc + (n - 48))
    else None
  end.

(** The IEEE-754 bit pattern of [float(z)] for a Python int, rounded to
    nearest, ties to even; [None] beyond the range of a double, where Python
    raises OverflowError. *)
Definition float64_of_int (z : Z) : option Z :=
  if (z =? 0)%Z then Some 0%Z
  else
    let a := Z.abs z in
    let e := Z.log2 a in
    let '(m, e) :=
      if (e <=? 52)%Z then (a * 2 ^ (52 - e), e)%Z
      else
        let shift := (e - 52)%Z in
        let q := (a / 2 ^ shift)%Z in
        let r := (a mod 2 ^ shift)%Z in
        let half := (2 ^ (shift - 1))%Z in
        let q := if (half <? r)%Z || ((r =? half)%Z && Z.odd q)
                 then (q + 1)%Z else q in
        if (q =? 2 ^ 53)%Z then (2 ^ 52, e + 1)%Z else (q, e) in
    if (1024 <=? e)%Z then None
    else Some ((if (z <? 0)%Z then 2 ^ 63 else 0)
               + (e + 1023) * 2 ^ 52 + (m - 2 ^ 52))%Z.

(** The number a cell denotes for the stand-in of [pd.to_numeric]: text is
    read as an unsigned decimal integer. *)
Definition demo_number (c : Cell) : result Cell :=
  match c with
  | CStr s =>
    match s, digits_value s 0 with
    | String _ _, Some z =>
      if (z <? 2 ^ 64)%Z then inr (CInt z)
      else inl (Error ValueError [Text "Integer out of range."])
    | _, _ => inl (Error ValueError [Text "Unable to parse string "; ReprCell c])
    end
  | CObj => inl (Error TypeError [Text "Invalid object type"])
  | CInt z =>
    match float64_of_int z with
    | Some _ => inr c
    | None => inl (Error (OtherError "OverflowError")
                     [Text "int too large to convert to float"])
    end
  | _ => inr c
  end.

Fixpoint demo_numbers (l : list Cell) : result (list Cell) :=
  match l with
  | [] => inr []
  | c :: rest =>
    match demo_number c with
    | inl e => inl e
    | inr c' =>
      match demo_numbers rest with
      | inl e => inl e
      | inr rest' => inr (c' :: rest')
      end
    end
  end.

Definition demo_as_float (c : Cell) : Cell :=
  match c with
  | CInt z => from_option CFloat CNull (float64_of_int z)
  | CBool b => CFloat (if b then 4607182418800017408 else 0)
  | _ => c
  end.

Definition demo_as_int (c : Cell) : Cell :=
  match c with
  | CBool b => CInt (if b then 1 else 0)
  | _ => c
  end.

(** The stand-in of [pd.to_numeric] on a column that is not numeric: the
    dtype follows pandas on integers (int64 when every value fits, uint64
    for values from 2^63 to 2^64-1, float64 beyond and next to floats or
    missing values); an integer beyond the range of a double raises
    OverflowError. *)
Definition demo_convert (s : Series) : result Conversion :=
  match demo_numbers (values s) with
  | inl e => inl e
  | inr l =>
    let number c := match demo_number c with inr c' => c' | inl _ => c end in
    let null := existsb (fun c => negb (notnull c)) l in
    let float := existsb (fun c => match c with CFloat _ => true | _ => false end) l in
    let int := existsb (fun c => match c with CInt _ => true | _ => false end) l in
    let sint := existsb (fun c => match c with CInt z => (z <? 0)%Z | _ => false end) l in
    let uint := existsb (fun c => match c with
                                   | CInt z => (2 ^ 63 <=? z)%Z && (z <? 2 ^ 64)%Z
                                   | _ => false
                                   end) l in
    let big := existsb (fun c => match c with
                                  | CInt z => (z <? - 2 ^ 63)%Z || (2 ^ 64 <=? z)%Z
                                  | _ => false
                                  end) l in
    if uint && (null || sint) then inr Unchanged
    else if float || null || big then
      inr (Converted to_float64 (fun c => demo_as_float (number c)))
    else if int then
      inr (Converted (if uint then to_uint64 else to_int64)
             (fun c => demo_as_int (number c)))
    else if negb (bool_decide (l = [])) then inr (Converted to_bool number)
    else inr (Converted to_int64 number)
  end.

Definition demo_str_other (c : Cell) : string := "nan".

Definition demo_int_of_float (f : Z) : result Z :=
  inl (Error ValueError [Text "cannot convert float NaN to integer"]).

Definition demo_int_of_str (s : string) : result Z :=
  match digits_value s 0 with
  | Some z => inr z
  | None => inl (Error ValueError [Text "invalid literal for int()"])
  end.

Definition demo_train_test_split (X : DataFrame) (y : Series)
    : result (DataFrame * DataFrame * Series * Series) :=
  inr (X, X, y, y).

Definition demo_fit (p : Pipeline) (X : DataFrame) (y : Series) : result unit :=
  inr tt.

Definition demo_predict (p : Pipeline) (X : DataFrame) : result Series :=
  inr (mkSeries int64 (replicate (nrows X) (CInt 0))).

Definition demo_predict_proba1 (p : Pipeline) (X : DataFrame) : result (list Z) :=
  inr (replicate (nrows X) 0).

Definition demo_score (y_true y_pred : Series) : result Z := inr 0.

Definition demo_roc_auc_score (y_true : Series) (y_score : list Z) : result Z :=
  inr 0.

Definition demo_confusion_matrix (y_true y_pred : Series)
    : result (list (list Z)) :=
  inr [[2; 0]; [2; 0]].

(** A four-row extract shaped like [Churn_Modelling.csv]. *)
Definition demo_dataset : DataFrame :=
  mkFrame 4
    [("CustomerId", mkSeries int64 [CInt 15634602; CInt 15647311; CInt 15619304; CInt 15701354]);
     ("Geography", mkSeries object_ [CStr "France"; CStr "Spain"; CStr "France"; CStr "Germany"]);
     ("Balance", mkSeries float64 [CFloat 0; CFloat 4680000000000000000; CFloat 4680000000000000001; CFloat 0]);
     ("HasCrCard", mkSeries int64 [CInt 1; CInt 0; CInt 1; CInt 1]);
     ("Exited", mkSeries int64 [CInt 1; CInt 0; CInt 1; CInt 0])].

Definition no_globals : Globals :=
  mkGlobals None None None None None None None.

(** A fresh process next to the dataset, before any training. *)
Definition demo_fresh : World :=
  mkWorld no_globals {[ data_path := CsvFile (inr demo_dataset) ]} true [].

Definition demo_pipeline : Pipeline :=
  mkPipeline [("cat", OneHotEncoder, ["Geography"]); ("num", StandardScaler, ["Age"])]
    "LogisticRegression"
    (Some (mkFrame 0 [], mkSeries int64 [])).

(** A process holding a model trained on the features Age and Geography. *)
Definition demo_trained : World :=
  mkWorld
    (mkGlobals (Some demo_pipeline) (Some demo_pipeline)
       (Some ["Age"; "Geography"]) (Some "Exited")
       (Some ["Geography"]) (Some ["Age"])
       (Some {[ "Geography" := ["France"; "Spain"] ]}))
    ∅ true [].

(** A process restarted without a loaded schema, with a saved model on
    disk. *)
Definition demo_restarted : World :=
  mkWorld no_globals
    {[ model_path := JoblibFile (inr (mkModelData (Some demo_pipeline)
         (Some ["Age"; "Geography"]) (Some "Exited")
         (Some ["Geography"]) (Some ["Age"])
         (Some {[ "Geography" := ["France"; "Spain"] ]}))) ]}
    true [].

(** An upload with one column outside the schema. *)
Definition demo_upload : UploadFile :=
  mkUpload "customers.csv"
    (inr (mkFrame 2
       [("Name", mkSeries object_ [CStr "Ada"; CStr "Grace"]);
        ("Age", mkSeries int64 [CInt 41; CInt 35]);
        ("Geography", mkSeries object_ [CStr "France"; CStr "Spain"])])).

(** A file downloaded from /predict-batch earlier and uploaded again. *)
Definition demo_scored_upload : UploadFile :=
  mkUpload "predictions_customers.csv"
    (inr (mkFrame 2
       [("Age", mkSeries int64 [CInt 41; CInt 35]);
        ("Geography", mkSeries object_ [CStr "France"; CStr "Spain"]);
        ("Prediction", mkSeries int64 [CInt 1; CInt 1]);
        ("Probability", mkSeries float64 [CFloat 4605380978949069210; CFloat 4605380978949069210])])).

(** An upload without the feature column Age. *)
Definition demo_incomplete_upload : UploadFile :=
  mkUpload "customers.csv"
    (inr (mkFrame 2
       [("Name", mkSeries object_ [CStr "Ada"; CStr "Grace"]);
        ("Geography", mkSeries object_ [CStr "France"; CStr "Spain"])])).


(** ** The service *)

Section Service.

Set Default Proof Using "Type".

(** *** External libraries *)

(** pandas: the conversion [pd.to_numeric] chooses for a column that is not
    of numeric dtype, or the exception it raises.  Python text conversions:
    [str] of a float or object cell, [int] of a float and of a string. *)
Variable convert : Series -> result Conversion.
Variable str_other : Cell -> string.
Variable int_of_float : Z -> result Z.
Variable int_of_str : string -> result Z.

(** scikit-learn.  [fit] succeeds or raises; [predict_proba1] is
    [predict_proba(X)[:, 1]]. *)
Variable train_test_split :
  DataFrame -> Series -> result (DataFrame * DataFrame * Series * Series).
Variable fit : Pipeline -> DataFrame -> Series -> result unit.
Variable predict : Pipeline -> DataFrame -> result Series.
Variable predict_proba1 : Pipeline -> DataFrame -> result (list Z).
Variable accuracy_score : Series -> Series -> result Z.
Variable precision_score : Series -> Series -> result Z.
Variable recall_score : Series -> Series -> result Z.
Variable f1_score : Series -> Series -> result Z.
Variable roc_auc_score : Series -> list Z -> result Z.
Variable confusion_matrix : Series -> Series -> result (list (list Z)).

(** *** Numeric coercion *)

(** [pd.to_numeric(series, errors='raise')]: a column of numeric dtype is
    returned as it is; any other column is converted as pandas chooses, and
    the result has one value for each value of the column. *)
Definition to_numeric (s : Series) : result Series :=
  if is_numeric_dtype s then inr s
  else
    match convert s with
    | inl e => inl e
    | inr Unchanged => inr s
    | inr (Converted dt cast) => inr (mkSeries (dtype_of dt) (cast <$> values s))
    end.

(** [except (ValueError, TypeError): raise HTTPException(400, detail)];
    any other exception is not caught here. *)
Definition validation_handler (detail : result fstring) (e : exn) : M DataFrame :=
  match e with
  | Error ValueError _ | Error TypeError _ =>
    d ← lift detail;
    raise (HTTPException 400 d)
  | _ => reraise e
  end.

(** The loop that validates the numerical columns, shared in shape by
    [predict_single] and [predict_batch]; [detail] builds the message of the
    HTTP 400 error. *)
Fixpoint coerce_loop (detail : string -> DataFrame -> result fstring)
    (todo : list string) (df : DataFrame) : M DataFrame :=
  match todo with
  | [] => ret df
  | col :: rest =>
    if bool_decide (col ∈ columns df) then
      df' ← try_except
              (match getitem df col with
               | Some s =>
                 converted ← lift (to_numeric s);
                 lift (setitem df col converted)
               | None => raise (Error KeyError [Text col])
               end)
              (validation_handler (detail col df));
      coerce_loop detail rest df'
    else coerce_loop detail rest df
  end.

(** [if numerical_columns: for col in numerical_columns: ...] *)
Definition coerce_numerical (detail : string -> DataFrame -> result fstring)
    (numerical : option (list string)) (df : DataFrame) : M DataFrame :=
  match numerical with
  | Some l => coerce_loop detail l df
  | None => ret df
  end.

(** [int(pred)] *)
Definition py_int (c : Cell) : result Z :=
  match c with
  | CInt z => inr z
  | CBool b => inr (if b then 1 else 0)
  | CFloat f => int_of_float f
  | CStr s => int_of_str s
  | CNull => inl (Error ValueError [Text "cannot convert float NaN to integer"])
  | CObj => inl (Error TypeError [Text "int() argument must be a string or a number"])
  end.

(** *** POST /predict *)

Definition single_detail (col : string) (df : DataFrame) : result fstring :=
  match getitem df col with
  | Some s =>
    match values s with
    | c :: _ => inr [Text "Column '"; Text col;
                     Text "' must be numeric. Received: "; ReprCell c]
    | [] => inl (Error IndexError [Text "single positional indexer is out-of-bounds"])
    end
  | None => inl (Error KeyError [Text col])
  end.

Definition predict_single (input_data : list (string * Json))
    : M PredictionResponse :=
  g ← get_globals;
  match pipeline g with
  | None =>
    raise (HTTPException 400
      [Text "Model not trained yet. Please train the model first using the /train endpoint."])
  | Some p =>
    http_errors "Prediction error: "
      (let df_input := frame_of_record input_data in
       (* Check for missing required columns *)
       fc ← lift (iter (feature_columns g));
       let missing := set_diff fc (columns df_input) in
       if bool_decide (missing ≠ ∅) then
         raise (HTTPException 400
           [Text "Missing required columns: "; ReprSet missing;
            Text ". Please ensure your input includes all required fields: ";
            ReprList fc])
       else
         (* Extra columns only print a warning *)
         df_input ← lift (select df_input fc);
         (* Validate data types for numerical columns *)
         df_input ← coerce_numerical single_detail (numerical_columns g) df_input;
         preds ← lift (predict p df_input);
         pred ← lift (first (values preds));
         probas ← lift (predict_proba1 p df_input);
         proba ← lift (first probas);
         prediction ← lift (py_int pred);
         ret (mkPredictionResponse prediction proba))
  end.

(** *** POST /predict-batch *)

Definition batch_detail (col : string) (df : DataFrame) : result fstring :=
  inr [Text "Column '"; Text col;
       Text "' must contain only numeric values. Found non-numeric values in your CSV."].

Definition predict_batch (file : UploadFile) : M StreamingResponse :=
  g ← get_globals;
  match pipeline g with
  | None =>
    raise (HTTPException 400
      [Text "Model not trained yet. Please train the model first using the /train endpoint."])
  | Some p =>
    if negb (endswith (filename file) ".csv") then
      raise (HTTPException 400
        [Text "File must be a CSV file. Please upload a .csv file."])
    else
      http_errors "Batch prediction error: "
        (df ← lift (content file);
         (* Check for missing required columns *)
         fc ← lift (iter (feature_columns g));
         let missing := set_diff fc (columns df) in
         if bool_decide (missing ≠ ∅) then
           raise (HTTPException 400
             [Text "CSV is missing required columns: "; ReprSet missing;
              Text ". Your CSV must include all required columns: ";
              ReprList fc])
         else
           (* Extra columns only print a warning *)
           df_features ← lift (select df fc);
           (* Validate data types for numerical columns *)
           df_features ← coerce_numerical batch_detail (numerical_columns g) df_features;
           preds ← lift (predict p df_features);
           probas ← lift (predict_proba1 p df_features);
           let df_out := df in
           df_out ← lift (setitem df_out "Prediction" preds);
           df_out ← lift (setitem df_out "Probability"
                            (mkSeries float64 (CFloat <$> probas)));
           ret (mkStreaming df_out (attachment (filename file))))
  end.

(** *** GET /schema *)

Definition load_schema (md : ModelData) (g : Globals) : Globals :=
  with_categorical_values (md_categorical_values md)
    (with_numerical_columns (md_numerical_columns md)
      (with_categorical_columns (md_categorical_columns md)
        (with_target_column (md_target_column md)
          (with_feature_columns (md_feature_columns md) g)))).

Definition schema_field (g : Globals) (col : string) : SchemaField :=
  match categorical_columns g with
  | Some (c :: cs) =>
    if bool_decide (col ∈ c :: cs) then
      CategoricalField col (default [] (categorical_values g ≫= (.!! col)))
    else NumberField col
  | _ => NumberField col
  end.

Definition get_schema : M SchemaResponse :=
  g ← get_globals;
  match feature_columns g with
  | None =>
    (* attempt to read from saved model *)
    present ← path_exists model_path;
    if (present : bool) then
      try_except
        (model_data ← joblib_load model_path;
         modify_globals (load_schema model_data))
        (fun e => raise (HTTPException 500 (Text "Unable to load schema: " :: str_exn e)))
    else
      raise (HTTPException 400 [Text "Schema not available. Train the model first."])
  | Some _ => ret tt
  end;;
  g ← get_globals;
  fc ← lift (iter (feature_columns g));
  ret (mkSchemaResponse (target_column g) (schema_field g <$> fc)).

(** *** POST /train *)

(** [str(v)] of a value of a categorical column. *)
Definition str_cell (c : Cell) : string :=
  match c with
  | CInt z => pretty z
  | CBool b => if b then "True" else "False"
  | CStr s => s
  | _ => str_other c
  end.

(** [sorted] on strings. *)
Definition sorted (l : list string) : list string :=
  merge_sort (fun a b => String.leb a b) l.

(** The dict comprehension that collects the values of each categorical
    column. *)
Fixpoint collect_values (df : DataFrame) (cats : list string)
    (acc : gmap string (list string)) : result (gmap string (list string)) :=
  match cats with
  | [] => inr acc
  | c :: rest =>
    match getitem df c with
    | Some s =>
      collect_values df rest
        (<[c := sorted (str_cell <$> unique (dropna (values s)))]> acc)
    | None => inl (Error KeyError [Text c])
    end
  end.

(** [df[target_column]] *)
Definition getitem_or_raise (df : DataFrame) (col : string) : result Series :=
  match getitem df col with
  | Some s => inr s
  | None => inl (Error KeyError [Text col])
  end.

(** The pipeline object after a successful [pipeline.fit(X, y)]. *)
Definition fitted (p : Pipeline) (X : DataFrame) (y : Series) : Pipeline :=
  mkPipeline (transformers p) (classifier p) (Some (X, y)).

Definition is_feature (target : string) (c : string) : bool :=
  negb (String.eqb c target) && negb (endswith (lower c) "id").

Definition saved_model (g : Globals) : ModelData :=
  mkModelData (pipeline g) (feature_columns g) (target_column g)
    (categorical_columns g) (numerical_columns g) (categorical_values g).

Definition train_model (target : option string) : M TrainingResponse :=
  http_errors "Training error: "
    (present ← path_exists data_path;
     if negb present then
       raise (HTTPException 404
         [Text "Data file not found. Please ensure data/Churn_Modelling.csv exists."])
     else
       df ← read_csv data_path;
       tc ← lift (detect_target_column df target);
       modify_globals (with_target_column (Some tc));;
       let fc := List.filter (is_feature tc) (columns df) in
       modify_globals (with_feature_columns (Some fc));;
       features ← lift (select df fc);
       let '(num, cat) := detect_column_types features in
       modify_globals (fun g =>
         with_categorical_columns (Some cat) (with_numerical_columns (Some num) g));;
       (* collect categorical values for schema *)
       cv ← lift (collect_values df cat ∅);
       modify_globals (with_categorical_values (Some cv));;
       X ← lift (select df fc);
       y ← lift (getitem_or_raise df tc);
       '(X_train, X_test, y_train, y_test) ← lift (train_test_split X y);
       p ← lift (create_pipeline cat num);
       modify_globals (with_pipeline (Some p));;
       lift (fit p X_train y_train);;
       let p := fitted p X_train y_train in
       modify_globals (with_pipeline (Some p));;
       y_pred ← lift (predict p X_test);
       y_proba ← lift (predict_proba1 p X_test);
       accuracy ← lift (accuracy_score y_test y_pred);
       precision ← lift (precision_score y_test y_pred);
       recall ← lift (recall_score y_test y_pred);
       f1 ← lift (f1_score y_test y_pred);
       roc_auc ← lift (roc_auc_score y_test y_proba);
       let metrics := [("accuracy", MFloat accuracy); ("precision", MFloat precision);
                       ("recall", MFloat recall); ("f1_score", MFloat f1);
                       ("roc_auc", MFloat roc_auc)] in
       cm ← lift (confusion_matrix y_test y_pred);
       tn ← lift (cm_at cm 0 0);
       fp ← lift (cm_at cm 0 1);
       fn ← lift (cm_at cm 1 0);
       tp ← lift (cm_at cm 1 1);
       let metrics := (metrics ++ [("confusion_matrix",
                         MCounts [("true_negatives", tn); ("false_positives", fp);
                                  ("false_negatives", fn); ("true_positives", tp)])])%list in
       g ← get_globals;
       joblib_dump (saved_model g) model_path;;
       modify_globals (with_model (Some p));;
       ret (mkTrainingResponse "Model trained successfully" metrics tc fc cat num)).

(** *** Startup, GET /, /health and /model-info *)

Definition load_model (md : ModelData) (g : Globals) : Globals :=
  load_schema md (with_pipeline (md_pipeline md) g).

(** The startup hook: a saved model is loaded when there is one; a failure
    to load it is only printed. *)
Definition startup_event : M unit :=
  present ← path_exists model_path;
  if (present : bool) then
    try_except
      (model_data ← joblib_load model_path;
       modify_globals (load_model model_data))
      (fun e => ret tt)
  else ret tt.


Definition health_check : M Health :=
  g ← get_globals;
  ret (mkHealth "healthy" (bool_decide (is_Some (pipeline g)))).

Definition get_model_info : M ModelInfo :=
  g ← get_globals;
  match pipeline g with
  | None => ret NotTrained
  | Some p =>
    ret (Info (target_column g) (feature_columns g) (categorical_columns g)
              (numerical_columns g) (classifier p))
  end.


(** *** Vocabulary of the statements *)

(** The class the detector gives a column: [true] for numerical. *)
Definition numerical_series (s : Series) : bool :=
  is_numeric_dtype s && negb (is_integer_dtype s && (nunique s <=? 10)%nat).

Definition numerical_label (df : DataFrame) (col : string) : bool :=
  from_option numerical_series false (getitem df col).


(** Globals and disk are as before. *)
Definition same_state : relation World :=
  fun w w' => globals w' = globals w ∧ disk w' = disk w.

(** [wp m Q w]: running [m] from [w] ends in a world and an outcome that
    satisfy [Q]. *)
Definition wp {A : Type} (m : M A) (Q : World → result A → Prop) (w : World) : Prop :=
  Q (m w).1 (m w).2.

(** The world after [modify_globals f]. *)
Definition update_globals (f : Globals → Globals) (w : World) : World :=
  mkWorld (f (globals w)) (disk w) (writable w) (raised w).

(** The world after a successful [joblib.dump]. *)
Definition write_file (path : string) (f : File) (w : World) : World :=
  mkWorld (globals w) (<[path := f]> (disk w)) (writable w) (raised w).

(** The exceptions caught by [except (ValueError, TypeError)]. *)
Definition is_coercion_error (e : exn) : bool :=
  match e with
  | Error ValueError _ | Error TypeError _ => true
  | _ => false
  end.

(** [df'] is [df] with the columns listed in [todo] replaced by their
    numeric conversion. *)
Definition coerced (todo : list string) (df df' : DataFrame) : Prop :=
  columns df' = columns df ∧ nrows df' = nrows df ∧
  ∀ col, col ∈ columns df →
    if bool_decide (col ∈ todo) then
      ∃ s s', getitem df col = Some s ∧ to_numeric s = inr s' ∧
              getitem df' col = Some s'
    else getitem df' col = getitem df col.

(** Every column is as long as the index. *)
Definition well_shaped (df : DataFrame) : Prop :=
  ∀ c s, (c, s) ∈ cols df → length (values s) = nrows df.

(** The frame of one JSON record. *)
Definition one_row (df : DataFrame) : Prop :=
  nrows df = 1%nat ∧ well_shaped df.

(** Final world and error of a run, without the value of a successful
    one. *)
Definition outcome_of {A : Type} (x : World * result A) : World * option exn :=
  (x.1, match x.2 with inl e => Some e | inr _ => None end).

(** The generic mapping of failures to HTTP errors, for a handler closed by
    [except HTTPException: raise] and [except Exception as e: raise
    HTTPException(500, prefix + str(e))].  [new] lists the exceptions raised
    during the request, in order, and [r] is the outcome: nothing is raised
    on success; a failure is one HTTPException raised and passed on as it is,
    or one other exception followed by its HTTP 500 form. *)
Definition generic_mapping {A : Type} (prefix : string) (new : list exn)
    (r : result A) : Prop :=
  match r with
  | inr _ => new = []
  | inl h =>
    (new = [h] ∧ is_http h = true) ∨
    ∃ e, new = [e; h] ∧ is_http e = false ∧
         h = HTTPException 500 (Text prefix :: str_exn e)
  end.

(** The mapping of the inner [except (ValueError, TypeError)] clause of the
    numeric validation: one ValueError or TypeError, of the given [cause],
    followed by an HTTP 400 error. *)
Definition validation_mapping {A : Type} (cause : exn → Prop) (new : list exn)
    (r : result A) : Prop :=
  ∃ e d, new = [e; HTTPException 400 d] ∧ is_coercion_error e = true ∧
         cause e ∧ r = inl (HTTPException 400 d).

(** A column that [pd.to_numeric] rejects with [e]. *)
Definition conversion_raises (df : DataFrame) (todo : list string) (e : exn) : Prop :=
  ∃ col s, col ∈ todo ∧ getitem df col = Some s ∧ to_numeric s = inl e.

(** A column that [pd.to_numeric] rejects with [e], or that cannot be
    assigned because it is not as long as the index (which pandas rules
    out). *)
Definition conversion_fails (df : DataFrame) (todo : list string) (e : exn) : Prop :=
  ∃ col s, col ∈ todo ∧ getitem df col = Some s ∧
           (to_numeric s = inl e ∨ length (values s) ≠ nrows df).

(** *** Vocabulary of the further properties *)

(** The label a schema field describes. *)
Definition field_name (f : SchemaField) : string :=
  match f with
  | CategoricalField name _ => name
  | NumberField name => name
  end.

(** The columns the preprocessing steps of a pipeline read, step by step. *)
Definition transformer_columns (p : Pipeline) : list string :=
  concat ((transformers p).*2).

(** A handler step whose outcome does not depend on the world it starts
    from. *)
Definition stateless {A : Type} (m : M A) : Prop :=
  ∀ w1 w2, (m w1).2 = (m w2).2.

(** A process that starts with the given disk and no globals. *)
Definition restarted (w : World) : World :=
  mkWorld no_globals (disk w) (writable w) [].

(** A fit that always fails, and a dataset whose only columns are an id and
    the target. *)
Definition demo_failing_fit (p : Pipeline) (X : DataFrame) (y : Series)
    : result unit :=
  inl (Error ValueError [Text "Input contains NaN"]).

Definition demo_ids_only : DataFrame :=
  mkFrame 2
    [("CustomerId", mkSeries int64 [CInt 15634602; CInt 15647311]);
     ("Exited", mkSeries int64 [CInt 1; CInt 0])].

Definition demo_model_data : ModelData :=
  mkModelData (Some demo_pipeline)
    (Some ["Age"; "Geography"]) (Some "Exited")
    (Some ["Geography"]) (Some ["Age"])
    (Some {[ "Geography" := ["France"; "Spain"] ]}).

(** A saved model that is not the dict the service writes. *)
Definition demo_corrupt : World :=
  mkWorld no_globals
    {[ model_path := JoblibFile (inl (Error (OtherError "UnpicklingError")
                                        [Text "invalid load key"])) ]}
    true [].

(** What a successful /train call from [w] has computed, returned and
    left behind in [w']. *)
Definition trained_from (target : option string) (w w' : World)
    (resp : TrainingResponse) : Prop :=
  ∃ df features cv y X_train X_test y_train y_test p0,
    let tc := resp_target_column resp in
    let fc := resp_feature_columns resp in
    let cat := resp_categorical_columns resp in
    let num := resp_numerical_columns resp in
    let p := fitted p0 X_train y_train in
    disk w !! data_path = Some (CsvFile (inr df)) ∧
    detect_target_column df target = inr tc ∧
    fc = List.filter (is_feature tc) (columns df) ∧
    select df fc = inr features ∧
    detect_column_types features = (num, cat) ∧
    collect_values df cat ∅ = inr cv ∧
    getitem df tc = Some y ∧
    train_test_split features y = inr (X_train, X_test, y_train, y_test) ∧
    create_pipeline cat num = inr p0 ∧
    fit p0 X_train y_train = inr tt ∧
    globals w' =
      mkGlobals (Some p) (Some p) (Some fc) (Some tc) (Some cat) (Some num) (Some cv) ∧
    disk w' =
      <[model_path := JoblibFile (inr
          (mkModelData (Some p) (Some fc) (Some tc) (Some cat) (Some num) (Some cv)))]>
        (disk w) ∧
    writable w' = writable w ∧
    raised w' = raised w.

(** * Properties *)

(** ** Lists of labels *)

Lemma assoc_is_Some {A : Type} (k : string) (l : list (string * A)) :
  k ∈ l.*1 ↔ is_Some (assoc k l).
Proof.
  induction l as [|[k' v] l IH]; simpl.
  - split; [intros H; inversion H | intros [? ?]; discriminate].
  - destruct (decide (k = k')) as [->|Hne].
    + split; [eauto | intros _; left].
    + rewrite <- IH. split.
      * intros H. inversion H; subst; [congruence | done].
      * intros H. by right.
Qed.

Lemma assoc_Some_elem {A : Type} (k : string) (v : A) (l : list (string * A)) :
  assoc k l = Some v → (k, v) ∈ l.
Proof.
  induction l as [|[k' v'] l IH]; simpl; [discriminate|].
  destruct (decide (k = k')) as [->|Hne].
  - intros [= ->]. left.
  - intros H. right. auto.
Qed.

Lemma getitem_columns (df : DataFrame) (col : string) :
  col ∈ columns df ↔ is_Some (getitem df col).
Proof. apply assoc_is_Some. Qed.

Lemma filter_elem_of {A : Type} (f : A → bool) (l : list A) (x : A) :
  x ∈ List.filter f l ↔ x ∈ l ∧ f x = true.
Proof. rewrite !list_elem_of_In. apply filter_In. Qed.

Lemma filter_sublist {A : Type} (f : A → bool) (l : list A) :
  sublist (List.filter f l) l.
Proof.
  induction l as [|x l IH]; simpl; [constructor|].
  destruct (f x); by constructor.
Qed.

Lemma filter_split_perm {A : Type} (f : A → bool) (l : list A) :
  List.filter f l ++ List.filter (fun x => negb (f x)) l ≡ₚ l.
Proof.
  induction l as [|x l IH]; simpl; [done|].
  destruct (f x); simpl.
  - by rewrite IH.
  - by rewrite <- Permutation_middle, IH.
Qed.

(** ** The schema detector *)

Lemma detect_loop_filter (df : DataFrame) (todo numerical categorical : list string) :
  (∀ c, c ∈ todo → is_Some (getitem df c)) →
  detect_loop df todo numerical categorical =
    (numerical ++ List.filter (numerical_label df) todo,
     categorical ++ List.filter (fun c => negb (numerical_label df c)) todo).
Proof.
  revert numerical categorical.
  induction todo as [|col rest IH]; intros numerical categorical Hsome;
    cbn [detect_loop List.filter].
  - by rewrite !app_nil_r.
  - destruct (Hsome col) as [s Hs]; [left|].
    assert (Hrest : ∀ c, c ∈ rest → is_Some (getitem df c))
      by (intros c Hc; apply Hsome; by right).
    assert (Hlabel : numerical_label df col = numerical_series s)
      by (unfold numerical_label; by rewrite Hs).
    rewrite Hs, Hlabel. unfold numerical_series.
    destruct (is_numeric_dtype s); cbn [andb negb].
    + destruct (is_integer_dtype s && (nunique s <=? 10)%nat); cbn [negb];
        rewrite IH by done; rewrite <- ?app_assoc; reflexivity.
    + rewrite IH by done. rewrite <- ?app_assoc. reflexivity.
Qed.

Lemma detect_column_types_filter (df : DataFrame) :
  detect_column_types df =
    (List.filter (numerical_label df) (columns df),
     List.filter (fun c => negb (numerical_label df c)) (columns df)).
Proof.
  unfold detect_column_types. rewrite detect_loop_filter; [done|].
  intros c. apply getitem_columns.
Qed.

(** C2: each column of the frame is classified by its dtype: a numeric
    column is numerical unless its dtype is an integer one and it has at most
    10 distinct non-null values, in which case it is categorical; a column
    that is not numeric is categorical. *)
Theorem detect_column_types_classifies (df : DataFrame) (col : string) (s : Series) :
  getitem df col = Some s →
  let '(numerical, categorical) := detect_column_types df in
  (is_numeric_dtype s = true →
   ¬ (is_integer_dtype s = true ∧ (nunique s ≤ 10)%nat) →
   col ∈ numerical ∧ col ∉ categorical) ∧
  (is_integer_dtype s = true → (nunique s ≤ 10)%nat →
   col ∈ categorical ∧ col ∉ numerical) ∧
  (is_numeric_dtype s = false →
   col ∈ categorical ∧ col ∉ numerical).
Proof.
  intros Hs. rewrite detect_column_types_filter.
  assert (Hcol : col ∈ columns df) by (apply getitem_columns; eauto).
  assert (Hlabel : numerical_label df col = numerical_series s)
    by (unfold numerical_label; by rewrite Hs).
  rewrite !filter_elem_of, Hlabel. unfold numerical_series.
  split; [|split].
  - intros Hnum Hlow. rewrite Hnum. simpl.
    destruct (is_integer_dtype s) eqn:Hint; simpl.
    + destruct (Nat.leb_spec (nunique s) 10) as [Hle|Hgt]; simpl.
      * exfalso. by apply Hlow.
      * split; [done | intros [_ [=]]].
    + split; [done | intros [_ [=]]].
  - intros Hint Hle.
    apply Nat.leb_le in Hle. rewrite Hint, Hle. simpl.
    rewrite andb_false_r. split; [done | intros [_ [=]]].
  - intros Hnum. rewrite Hnum. simpl. split; [done | intros [_ [=]]].
Qed.

(** C9: the two lists returned by the detector partition the columns of
    the frame: a label is a column iff it is in one of the lists, no label is
    in both, the two lists together are a rearrangement of the columns (so
    each column is listed exactly once), and each list keeps the order of the
    frame. *)
Theorem detect_column_types_partition (df : DataFrame) :
  let '(numerical, categorical) := detect_column_types df in
  (∀ col, col ∈ columns df ↔ col ∈ numerical ∨ col ∈ categorical) ∧
  (∀ col, col ∈ numerical → col ∉ categorical) ∧
  numerical ++ categorical ≡ₚ columns df ∧
  sublist numerical (columns df) ∧
  sublist categorical (columns df).
Proof.
  rewrite detect_column_types_filter.
  split; [|split; [|split; [|split]]].
  - intros col. rewrite !filter_elem_of.
    destruct (numerical_label df col); simpl;
      (split; [intros H; (left + right); by split | intros [[H _]|[H _]]; done]).
  - intros col. rewrite !filter_elem_of. intros [_ ->] [_ [=]].
  - apply filter_split_perm.
  - apply filter_sublist.
  - apply filter_sublist.
Qed.

(** ** Target selection *)

Lemma first_candidate_inr (df : DataFrame) (candidates : list string) (c : string) :
  first_candidate df candidates = inr c ↔
  ∃ before after, candidates = before ++ c :: after ∧ c ∈ columns df ∧
                  ∀ b, b ∈ before → b ∉ columns df.
Proof.
  induction candidates as [|x l IH]; simpl.
  - split; [discriminate|]. intros (before & after & Heq & _).
    by destruct before.
  - case_bool_decide as Hx.
    + split.
      * intros [= ->]. exists [], l. split; [done|]. split; [done|].
        intros b Hb. inversion Hb.
      * intros (before & after & Heq & Hc & Hbefore).
        destruct before as [|b before]; simpl in Heq.
        -- by injection Heq as -> _.
        -- injection Heq as -> _. exfalso. apply (Hbefore b); [left | done].
    + rewrite IH. split.
      * intros (before & after & -> & Hc & Hbefore).
        exists (x :: before), after. split; [done|]. split; [done|].
        intros b Hb. inversion Hb; subst; auto.
      * intros (before & after & Heq & Hc & Hbefore).
        destruct before as [|b before]; simpl in Heq.
        -- injection Heq as -> _. done.
        -- injection Heq as -> ->. exists before, after.
           split; [done|]. split; [done|].
           intros b' Hb'. apply Hbefore. by right.
Qed.

Lemma first_candidate_inl (df : DataFrame) (candidates : list string) :
  (∃ e, first_candidate df candidates = inl e) ↔
  ∀ c, c ∈ candidates → c ∉ columns df.
Proof.
  induction candidates as [|x l IH]; simpl.
  - split; [intros _ c Hc; inversion Hc | eauto].
  - case_bool_decide as Hx.
    + split; [intros [e [=]] | intros H; exfalso; apply (H x); [left | done]].
    + rewrite IH. split.
      * intros H c Hc. inversion Hc; subst; auto.
      * intros H c Hc. apply H. by right.
Qed.

(** C3 (amended): with a non-empty target parameter the detector returns
    that label when it is a column and raises otherwise; with no parameter,
    or with the empty string, it returns the first of Churn, Exited, churn,
    target that is a column, and raises iff none of them is. *)
Theorem detect_target_column_spec (df : DataFrame) (target_param : option string) :
  (∀ t, target_param = Some t → t ≠ EmptyString →
     (t ∈ columns df → detect_target_column df target_param = inr t) ∧
     (t ∉ columns df → ∃ e, detect_target_column df target_param = inl e)) ∧
  (target_param = None ∨ target_param = Some EmptyString →
     (∀ c, detect_target_column df target_param = inr c ↔
           ∃ before after,
             ["Churn"; "Exited"; "churn"; "target"] = before ++ c :: after ∧
             c ∈ columns df ∧ ∀ b, b ∈ before → b ∉ columns df) ∧
     ((∃ e, detect_target_column df target_param = inl e) ↔
      ∀ c, c ∈ ["Churn"; "Exited"; "churn"; "target"] → c ∉ columns df)).
Proof.
  split.
  - intros t -> Ht. unfold detect_target_column. simpl.
    assert (String.eqb t EmptyString = false) as -> by (by apply String.eqb_neq).
    simpl. case_bool_decide; split; intros; eauto; done.
  - intros Hnone.
    assert (detect_target_column df target_param =
            first_candidate df target_candidates) as ->
      by (destruct Hnone as [-> | ->]; reflexivity).
    split.
    + intros c. apply first_candidate_inr.
    + apply first_candidate_inl.
Qed.

(** ** Frame rules of the handler monad *)

Section Frame.

Context (R : relation World) {R_preorder : PreOrder R}.
Hypothesis R_log : ∀ w e, R w (log_raise e w).
















End Frame.



#[local] Instance same_state_preorder : PreOrder same_state.
Proof.
  split.
  - by intros w.
  - intros w1 w2 w3 [H1 H2] [H3 H4]. split; congruence.
Qed.







(** ** Stepping through a handler *)

Lemma wp_ret {A : Type} (a : A) Q w : Q w (inr a) → wp (ret a) Q w.
Proof. done. Qed.

Lemma wp_mret {A : Type} (a : A) Q w : Q w (inr a) → wp (mret a) Q w.
Proof. done. Qed.

Lemma wp_raise {A : Type} (e : exn) (Q : World → result A → Prop) w :
  Q (log_raise e w) (inl e) → wp (raise e) Q w.
Proof. done. Qed.

Lemma wp_reraise {A : Type} (e : exn) (Q : World → result A → Prop) w :
  Q w (inl e) → wp (reraise e) Q w.
Proof. done. Qed.

Lemma wp_lift {A : Type} (r : result A) Q w :
  (∀ e, r = inl e → Q (log_raise e w) (inl e)) →
  (∀ a, r = inr a → Q w (inr a)) →
  wp (lift r) Q w.
Proof. intros He Ha. destruct r; [by apply He | by apply Ha]. Qed.

Lemma wp_lift_inr {A : Type} (a : A) Q w : Q w (inr a) → wp (lift (inr a)) Q w.
Proof. done. Qed.

Lemma wp_lift_inl {A : Type} (e : exn) (Q : World → result A → Prop) w :
  Q (log_raise e w) (inl e) → wp (lift (inl e)) Q w.
Proof. done. Qed.

Lemma wp_bind {A B : Type} (m : M A) (f : A → M B) Q w :
  wp m (fun w1 r => match r with
                    | inl e => Q w1 (inl e)
                    | inr a => wp (f a) Q w1
                    end) w →
  wp (m ≫= f) Q w.
Proof.
  unfold wp, mbind, M_bind, bind. by destruct (m w) as [w1 [e|a]].
Qed.

Lemma wp_try_except {A : Type} (m : M A) (h : exn → M A) Q w :
  wp m (fun w1 r => match r with
                    | inl e => wp (h e) Q w1
                    | inr a => Q w1 (inr a)
                    end) w →
  wp (try_except m h) Q w.
Proof.
  unfold wp, try_except. by destruct (m w) as [w1 [e|a]].
Qed.

Lemma wp_http_errors {A : Type} (prefix : string) (m : M A) Q w :
  wp m (fun w1 r =>
          match r with
          | inl e =>
            if is_http e then Q w1 (inl e)
            else let h := HTTPException 500 (Text prefix :: str_exn e) in
                 Q (log_raise h w1) (inl h)
          | inr a => Q w1 (inr a)
          end) w →
  wp (http_errors prefix m) Q w.
Proof.
  intros H. apply wp_try_except. unfold wp in *.
  destruct (m w) as [w1 [e|a]]; simpl in *; [|done].
  by destruct (is_http e).
Qed.

Lemma wp_get_globals Q w : Q w (inr (globals w)) → wp get_globals Q w.
Proof. done. Qed.

Lemma wp_modify_globals f Q w :
  Q (update_globals f w) (inr tt) → wp (modify_globals f) Q w.
Proof. done. Qed.

Lemma wp_path_exists path Q w :
  Q w (inr (exists_path path w)) → wp (path_exists path) Q w.
Proof. done. Qed.

Lemma wp_read_csv path Q w :
  (∀ e, (∀ df, disk w !! path ≠ Some (CsvFile (inr df))) →
        Q (log_raise e w) (inl e)) →
  (∀ df, disk w !! path = Some (CsvFile (inr df)) → Q w (inr df)) →
  wp (read_csv path) Q w.
Proof.
  intros He Hdf. unfold wp, read_csv.
  destruct (disk w !! path) as [[[e|df]|r]|] eqn:Hfile; simpl;
    try (apply He; congruence).
  by apply Hdf.
Qed.

Lemma wp_joblib_load path Q w :
  (∀ e, (∀ md, disk w !! path ≠ Some (JoblibFile (inr md))) →
        Q (log_raise e w) (inl e)) →
  (∀ md, disk w !! path = Some (JoblibFile (inr md)) → Q w (inr md)) →
  wp (joblib_load path) Q w.
Proof.
  intros He Hmd. unfold wp, joblib_load.
  destruct (disk w !! path) as [[r|[e|md]]|] eqn:Hfile; simpl;
    try (apply He; congruence).
  by apply Hmd.
Qed.

Lemma wp_joblib_dump data path Q w :
  (∀ e, writable w = false → Q (log_raise e w) (inl e)) →
  (writable w = true → Q (write_file path (JoblibFile (inr data)) w) (inr tt)) →
  wp (joblib_dump data path) Q w.
Proof.
  intros He Hok. unfold wp, joblib_dump.
  unfold write_file in Hok.
  destruct (writable w) eqn:Hw; simpl; [by apply Hok | by apply He].
Qed.

Lemma wp_mono {A : Type} (m : M A) (Q Q' : World → result A → Prop) w :
  wp m Q w → (∀ w' r, Q w' r → Q' w' r) → wp m Q' w.
Proof. unfold wp. auto. Qed.

Lemma wp_run {A : Type} (m : M A) Q w w' r :
  wp m Q w → m w = (w', r) → Q w' r.
Proof. unfold wp. intros H Heq. by rewrite Heq in H. Qed.

Ltac wp_step :=
  lazymatch goal with
  | |- wp (mbind _ _) _ _ => apply wp_bind
  | |- wp (ret _) _ _ => apply wp_ret
  | |- wp (mret _) _ _ => apply wp_mret
  | |- wp (raise _) _ _ => apply wp_raise
  | |- wp (reraise _) _ _ => apply wp_reraise
  | |- wp (lift (inr _)) _ _ => apply wp_lift_inr
  | |- wp (lift (inl _)) _ _ => apply wp_lift_inl
  | |- wp (lift _) _ _ =>
    apply wp_lift;
      [let H := fresh "Hfail" in intros ? H | let H := fresh "Hcall" in intros ? H]
  | |- wp (http_errors _ _) _ _ => apply wp_http_errors
  | |- wp (try_except _ _) _ _ => apply wp_try_except
  | |- wp get_globals _ _ => apply wp_get_globals
  | |- wp (modify_globals _) _ _ => apply wp_modify_globals
  | |- wp (path_exists _) _ _ => apply wp_path_exists
  | |- wp (read_csv _) _ _ =>
    apply wp_read_csv;
      [let H := fresh "Hnofile" in intros ? H | let H := fresh "Hfile" in intros ? H]
  | |- wp (joblib_load _) _ _ =>
    apply wp_joblib_load;
      [let H := fresh "Hnofile" in intros ? H | let H := fresh "Hfile" in intros ? H]
  | |- wp (joblib_dump _ _) _ _ =>
    apply wp_joblib_dump; [intros ? _ | let H := fresh "Hwritable" in intros H]
  end; cbv beta iota.

Ltac wp_go :=
  repeat first
    [ wp_step
    | match goal with
      | |- wp (let '(_, _) := ?x in _) _ _ => destruct x eqn:?
      | |- wp (if ?b then _ else _) _ _ => destruct b eqn:?
      | |- wp (match ?x with _ => _ end) _ _ => destruct x eqn:?
      end ].

(** Closes the branch of a failed step when the statement is about
    successful runs. *)
Ltac wp_failed :=
  try match goal with |- context [is_http ?e] => destruct (is_http e) end;
  intros; discriminate.

(** ** Training *)

Lemma getitem_or_raise_inr (df : DataFrame) (col : string) (s : Series) :
  getitem_or_raise df col = inr s → getitem df col = Some s.
Proof.
  unfold getitem_or_raise. destruct (getitem df col); [|discriminate].
  by intros [= ->].
Qed.

Lemma collect_values_lookup (df : DataFrame) (cats : list string)
    (acc cv : gmap string (list string)) (c : string) :
  collect_values df cats acc = inr cv →
  cv !! c =
    if bool_decide (c ∈ cats)
    then (fun s => sorted (str_cell <$> unique (dropna (values s)))) <$> getitem df c
    else acc !! c.
Proof.
  revert acc. induction cats as [|x l IH]; intros acc; simpl.
  - by intros [= ->].
  - destruct (getitem df x) as [s|] eqn:Hx; [|discriminate].
    intros Hcv. rewrite (IH _ Hcv).
    destruct (decide (c = x)) as [->|Hne].
    + rewrite (bool_decide_eq_true_2 (x ∈ x :: l)) by left.
      case_bool_decide; [done|]. by rewrite lookup_insert_eq, Hx.
    + rewrite lookup_insert_ne by done.
      case_bool_decide as Hl.
      * rewrite bool_decide_eq_true_2; [done | by right].
      * rewrite bool_decide_eq_false_2; [done|].
        intros Hin. apply elem_of_cons in Hin as [? | ?]; done.
Qed.

(** C5: a successful /train call has read the dataset, split its feature
    columns and its target, created the pipeline for the categorical and
    numerical columns of the response and fitted it on the training part.
    The metrics of the response are accuracy, precision, recall, f1_score
    and roc_auc, each the score of the fitted pipeline's predictions (for
    roc_auc, of its probabilities) on the test part, and the four entries of
    the confusion matrix of these predictions.  By then model/model.joblib
    holds the fitted pipeline together with the feature, target, categorical
    and numerical columns of the response and the categorical values (for
    each categorical column, the sorted texts of its distinct non-null
    values), which are also the globals. *)
Theorem train_model_success (target : option string) (w w' : World)
    (resp : TrainingResponse) :
  train_model target w = (w', inr resp) →
  ∃ df features y X_train X_test y_train y_test p0 p y_pred y_proba cm cv,
    disk w !! data_path = Some (CsvFile (inr df)) ∧
    select df (resp_feature_columns resp) = inr features ∧
    getitem df (resp_target_column resp) = Some y ∧
    train_test_split features y = inr (X_train, X_test, y_train, y_test) ∧
    create_pipeline (resp_categorical_columns resp) (resp_numerical_columns resp)
      = inr p0 ∧
    fit p0 X_train y_train = inr tt ∧
    predict p X_test = inr y_pred ∧
    predict_proba1 p X_test = inr y_proba ∧
    confusion_matrix y_test y_pred = inr cm ∧
    transformers p = transformers p0 ∧
    classifier p = classifier p0 ∧
    fitted_on p = Some (X_train, y_train) ∧
    (∃ accuracy precision recall f1 roc_auc tn fp fn tp,
       accuracy_score y_test y_pred = inr accuracy ∧
       precision_score y_test y_pred = inr precision ∧
       recall_score y_test y_pred = inr recall ∧
       f1_score y_test y_pred = inr f1 ∧
       roc_auc_score y_test y_proba = inr roc_auc ∧
       cm_at cm 0 0 = inr tn ∧ cm_at cm 0 1 = inr fp ∧
       cm_at cm 1 0 = inr fn ∧ cm_at cm 1 1 = inr tp ∧
       metrics resp =
         [("accuracy", MFloat accuracy); ("precision", MFloat precision);
          ("recall", MFloat recall); ("f1_score", MFloat f1);
          ("roc_auc", MFloat roc_auc);
          ("confusion_matrix",
           MCounts [("true_negatives", tn); ("false_positives", fp);
                    ("false_negatives", fn); ("true_positives", tp)])]) ∧
    (∀ c, cv !! c =
          if bool_decide (c ∈ resp_categorical_columns resp)
          then (fun s => sorted (str_cell <$> unique (dropna (values s))))
                 <$> getitem df c
          else None) ∧
    disk w' =
      <[model_path := JoblibFile (inr
          (mkModelData (Some p)
             (Some (resp_feature_columns resp)) (Some (resp_target_column resp))
             (Some (resp_categorical_columns resp))
             (Some (resp_numerical_columns resp)) (Some cv)))]> (disk w) ∧
    globals w' =
      mkGlobals (Some p) (Some p)
        (Some (resp_feature_columns resp)) (Some (resp_target_column resp))
        (Some (resp_categorical_columns resp))
        (Some (resp_numerical_columns resp)) (Some cv).
Proof.
  intros Hrun.
  cut (wp (train_model target)
          (fun w' r => ∀ resp, r = inr resp →
             ∃ df features y X_train X_test y_train y_test p0 p y_pred y_proba
               cm cv,
               disk w !! data_path = Some (CsvFile (inr df)) ∧
               select df (resp_feature_columns resp) = inr features ∧
               getitem df (resp_target_column resp) = Some y ∧
               train_test_split features y
                 = inr (X_train, X_test, y_train, y_test) ∧
               create_pipeline (resp_categorical_columns resp)
                 (resp_numerical_columns resp) = inr p0 ∧
               fit p0 X_train y_train = inr tt ∧
               predict p X_test = inr y_pred ∧
               predict_proba1 p X_test = inr y_proba ∧
               confusion_matrix y_test y_pred = inr cm ∧
               transformers p = transformers p0 ∧
               classifier p = classifier p0 ∧
               fitted_on p = Some (X_train, y_train) ∧
               (∃ accuracy precision recall f1 roc_auc tn fp fn tp,
                  accuracy_score y_test y_pred = inr accuracy ∧
                  precision_score y_test y_pred = inr precision ∧
                  recall_score y_test y_pred = inr recall ∧
                  f1_score y_test y_pred = inr f1 ∧
                  roc_auc_score y_test y_proba = inr roc_auc ∧
                  cm_at cm 0 0 = inr tn ∧ cm_at cm 0 1 = inr fp ∧
                  cm_at cm 1 0 = inr fn ∧ cm_at cm 1 1 = inr tp ∧
                  metrics resp =
                    [("accuracy", MFloat accuracy); ("precision", MFloat precision);
                     ("recall", MFloat recall); ("f1_score", MFloat f1);
                     ("roc_auc", MFloat roc_auc);
                     ("confusion_matrix",
                      MCounts [("true_negatives", tn); ("false_positives", fp);
                               ("false_negatives", fn); ("true_positives", tp)])]) ∧
               (∀ c, cv !! c =
                     if bool_decide (c ∈ resp_categorical_columns resp)
                     then (fun s => sorted (str_cell <$> unique (dropna (values s))))
                            <$> getitem df c
                     else None) ∧
               disk w' =
                 <[model_path := JoblibFile (inr
                     (mkModelData (Some p)
                        (Some (resp_feature_columns resp))
                        (Some (resp_target_column resp))
                        (Some (resp_categorical_columns resp))
                        (Some (resp_numerical_columns resp)) (Some cv)))]> (disk w) ∧
               globals w' =
                 mkGlobals (Some p) (Some p)
                   (Some (resp_feature_columns resp)) (Some (resp_target_column resp))
                   (Some (resp_categorical_columns resp))
                   (Some (resp_numerical_columns resp)) (Some cv)) w).
  { intros Hwp. by apply (wp_run _ _ _ _ _ Hwp Hrun). }
  clear Hrun w' resp.
  unfold train_model. wp_go; try wp_failed.
  intros resp [= <-].
  cbn [resp_target_column resp_feature_columns resp_categorical_columns
       resp_numerical_columns metrics].
  repeat match goal with
         | H : getitem_or_raise _ _ = inr _ |- _ => apply getitem_or_raise_inr in H
         | u : unit |- _ => destruct u
         | H : select ?df ?l = inr ?a, H' : select ?df ?l = inr ?b |- _ =>
           rewrite H in H'; injection H' as <-
         end.
  do 13 eexists. split_and!; try eassumption.
  all: try reflexivity.
  - do 9 eexists. split_and!; try eassumption. reflexivity.
  - intros c.
    match goal with
    | H : collect_values _ _ ∅ = inr _ |- _ =>
      rewrite (collect_values_lookup _ _ _ _ c H)
    end.
    by rewrite lookup_empty.
Qed.


Lemma is_feature_spec (tc c : string) :
  is_feature tc c = true ↔ c ≠ tc ∧ endswith (lower c) "id" = false.
Proof.
  unfold is_feature. rewrite andb_true_iff, !negb_true_iff.
  by rewrite String.eqb_neq.
Qed.

Lemma filter_bool_prop {A : Type} (f : A → bool) (P : A → Prop)
    `{∀ x, Decision (P x)} (l : list A) :
  (∀ x, f x = true ↔ P x) → List.filter f l = filter P l.
Proof.
  intros Hf. induction l as [|x l IH]; [done|].
  simpl. rewrite filter_cons. destruct (f x) eqn:Hx.
  - rewrite decide_True by (by apply Hf). by rewrite IH.
  - rewrite decide_False; [done|]. rewrite <- Hf. congruence.
Qed.

Lemma select_columns (df features : DataFrame) (labels : list string) :
  select df labels = inr features → columns features = labels.
Proof.
  unfold select.
  destruct (List.filter _ labels) as [|m ms] eqn:Hmissing; [|discriminate].
  intros [= <-]. unfold columns. simpl.
  assert (Hall : ∀ c, c ∈ labels → c ∈ columns df).
  { intros c Hc. destruct (decide (c ∈ columns df)) as [|Hn]; [done|].
    assert (c ∈ List.filter (fun c => negb (bool_decide (c ∈ columns df))) labels)
      as Hin by (apply filter_elem_of; by rewrite bool_decide_eq_false_2).
    rewrite Hmissing in Hin. inversion Hin. }
  clear Hmissing. induction labels as [|c l IH]; [done|].
  simpl. destruct (proj1 (getitem_columns df c)) as [s Hs]; [apply Hall; left|].
  rewrite Hs. simpl. f_equal. apply IH. intros c' Hc'. apply Hall. by right.
Qed.

Lemma collect_values_keys (df : DataFrame) (cats : list string)
    (acc cv : gmap string (list string)) (c : string) :
  collect_values df cats acc = inr cv →
  is_Some (cv !! c) → c ∈ cats ∨ is_Some (acc !! c).
Proof.
  revert acc. induction cats as [|x l IH]; intros acc; simpl.
  - intros [= ->]. auto.
  - destruct (getitem df x); [|discriminate].
    intros Hcv Hc. destruct (IH _ Hcv Hc) as [Hin|Hacc].
    + left. by right.
    + destruct (decide (x = c)) as [->|Hne]; [left; left|].
      right. by rewrite lookup_insert_ne in Hacc.
Qed.

(** C8: once the dataset is read and its target found, /train sets the
    feature columns to the columns of the dataset, in order, without the
    target and without the labels whose lower-case form ends in id.  When the
    call succeeds, this is the list of the response and of the saved schema,
    and no excluded label is among the features, the categorical columns, the
    numerical columns or the categorical values that are saved. *)
Theorem train_feature_columns (target : option string) (w : World)
    (df : DataFrame) (tc : string) :
  disk w !! data_path = Some (CsvFile (inr df)) →
  detect_target_column df target = inr tc →
  let fc := filter (fun c => c ≠ tc ∧ endswith (lower c) "id" = false) (columns df) in
  feature_columns (globals (train_model target w).1) = Some fc ∧
  ∀ resp, (train_model target w).2 = inr resp →
    resp_feature_columns resp = fc ∧
    ∃ md, disk (train_model target w).1 !! model_path = Some (JoblibFile (inr md)) ∧
          md_feature_columns md = Some fc ∧
          ∀ c, c = tc ∨ endswith (lower c) "id" = true →
               (c ∉ fc) ∧
               (∀ l, md_categorical_columns md = Some l → c ∉ l) ∧
               (∀ l, md_numerical_columns md = Some l → c ∉ l) ∧
               (∀ m, md_categorical_values md = Some m → m !! c = None).
Proof.
  intros Hdata Htarget fc.
  assert (Hfc : List.filter (is_feature tc) (columns df) = fc)
    by (apply filter_bool_prop, is_feature_spec).
  assert (Hexcluded : ∀ c, c = tc ∨ endswith (lower c) "id" = true → c ∉ fc).
  { intros c Hc. unfold fc. rewrite list_elem_of_filter.
    intros [[Hne Hid] _]. destruct Hc; congruence. }
  change (wp (train_model target)
            (fun w' r =>
               feature_columns (globals w') = Some fc ∧
               ∀ resp, r = inr resp →
                 resp_feature_columns resp = fc ∧
                 ∃ md, disk w' !! model_path = Some (JoblibFile (inr md)) ∧
                       md_feature_columns md = Some fc ∧
                       ∀ c, c = tc ∨ endswith (lower c) "id" = true →
                            (c ∉ fc) ∧
                            (∀ l, md_categorical_columns md = Some l → c ∉ l) ∧
                            (∀ l, md_numerical_columns md = Some l → c ∉ l) ∧
                            (∀ m, md_categorical_values md = Some m → m !! c = None)) w).
  unfold train_model. wp_step. wp_step. wp_step.
  assert (exists_path data_path w = true) as ->
    by (unfold exists_path; rewrite Hdata; by apply bool_decide_eq_true_2).
  simpl negb. cbv iota. wp_step. wp_step.
  { exfalso. by eapply Hnofile. }
  rewrite Hdata in Hfile. injection Hfile as <-.
  rewrite Htarget. wp_step. wp_step. wp_step. wp_step. rewrite Hfc.
  wp_go;
    try (try match goal with |- context [is_http ?e] => destruct (is_http e) end;
         (split; [reflexivity | intros; discriminate])).
  split; [reflexivity|]. intros resp [= <-]. split; [reflexivity|].
  eexists. split; [apply lookup_insert_eq|]. split; [reflexivity|].
  intros c Hc. specialize (Hexcluded c Hc).
  match goal with
  | H : select df fc = inr ?f, H' : detect_column_types ?f = _ |- _ =>
    apply select_columns in H; rewrite detect_column_types_filter, H in H';
    injection H' as <- <-
  end.
  split; [done|]. simpl. split; [|split].
  - intros l [= <-]. rewrite filter_elem_of. by intros [Hin _].
  - intros l [= <-]. rewrite filter_elem_of. by intros [Hin _].
  - intros m [= <-]. apply eq_None_not_Some. intros Hsome.
    match goal with
    | H : collect_values _ _ _ = inr _ |- _ =>
      destruct (collect_values_keys _ _ _ _ c H Hsome) as [Hin|[? Hempty]]
    end.
    + apply filter_elem_of in Hin. by destruct Hin as [Hin _].
    + by rewrite lookup_empty in Hempty.
Qed.

(** ** Writers of the global state *)



Lemma get_schema_effect (w : World) :
  globals (get_schema w).1 = globals w ∨
  feature_columns (globals w) = None ∧
  ∃ md, disk w !! model_path = Some (JoblibFile (inr md)) ∧
        globals (get_schema w).1 = load_schema md (globals w).
Proof.
  change (wp get_schema
            (fun w' r =>
               globals w' = globals w ∨
               feature_columns (globals w) = None ∧
               ∃ md, disk w !! model_path = Some (JoblibFile (inr md)) ∧
                     globals w' = load_schema md (globals w)) w).
  unfold get_schema. wp_go; try (left; reflexivity);
    right; (split; [done|]); eexists; (split; [eassumption|]); reflexivity.
Qed.


(** ** Numeric coercion *)

Lemma dtype_of_numeric (dt : NumericDtype) (l : list Cell) :
  is_numeric_dtype (mkSeries (dtype_of dt) l) = true.
Proof. by destruct dt. Qed.

(** What [pd.to_numeric] returns: a series of the same length, which is the
    argument itself when that is of numeric dtype, and otherwise is the
    argument or has a numeric dtype. *)
Lemma to_numeric_result (s s' : Series) :
  to_numeric s = inr s' →
  length (values s') = length (values s) ∧
  (is_numeric_dtype s = true → s' = s) ∧
  (s' = s ∨ is_numeric_dtype s' = true).
Proof.
  unfold to_numeric. destruct (is_numeric_dtype s) eqn:Hs.
  - intros [= <-]. by split_and!; [| |left].
  - destruct (convert s) as [e|[|dt cast]]; [discriminate| |].
    + intros [= <-]. by split_and!; [| |left].
    + intros [= <-]. split_and!; [simpl; by rewrite length_fmap | done |].
      right. apply dtype_of_numeric.
Qed.

Lemma to_numeric_idempotent (s s' : Series) :
  to_numeric s = inr s' → to_numeric s' = inr s'.
Proof.
  intros H. destruct (to_numeric_result _ _ H) as (_ & _ & [-> | Hnum]); [done|].
  unfold to_numeric. by rewrite Hnum.
Qed.

(** ** Column assignment *)

Lemma replace_or_append_present (col : string) (s : Series)
    (l : list (string * Series)) :
  col ∈ l.*1 →
  (replace_or_append col s l).*1 = l.*1 ∧
  assoc col (replace_or_append col s l) = Some s ∧
  (∀ c, c ≠ col → assoc c (replace_or_append col s l) = assoc c l) ∧
  (∀ c x, (c, x) ∈ replace_or_append col s l → (c, x) ∈ l ∨ x = s).
Proof.
  induction l as [|[c old] l IH]; simpl; [intros H; inversion H|].
  intros Hin. destruct (decide (col = c)) as [->|Hne]; simpl.
  - split_and!.
    + done.
    + by case_decide.
    + intros c' Hc'. by case_decide.
    + intros c' x Hx. inversion Hx; subst; [by right | left; by right].
  - assert (col ∈ l.*1) as Hl by (inversion Hin; subst; done).
    destruct (IH Hl) as (Hcols & Hget & Hother & Hmem).
    split_and!.
    + f_equal. apply Hcols.
    + by case_decide.
    + intros c' Hc'. case_decide; [done | by apply Hother].
    + intros c' x Hx. inversion Hx; subst; [left; left|].
      destruct (Hmem c' x) as [?|?]; [done | left; by right | by right].
Qed.

Lemma replace_or_append_absent (col : string) (s : Series)
    (l : list (string * Series)) :
  col ∉ l.*1 → replace_or_append col s l = l ++ [(col, s)].
Proof.
  induction l as [|[c old] l IH]; simpl; [done|].
  intros Hnot. destruct (decide (col = c)) as [->|Hne].
  - exfalso. apply Hnot. left.
  - rewrite IH; [done|]. intros Hin. apply Hnot. by right.
Qed.

Lemma replace_or_append_assoc (col : string) (s : Series)
    (l : list (string * Series)) (c : string) :
  assoc c (replace_or_append col s l) =
    if decide (c = col) then Some s else assoc c l.
Proof.
  induction l as [|[k old] l IH]; simpl.
  - by destruct (decide (c = col)).
  - destruct (decide (col = k)) as [->|Hne]; simpl.
    + by destruct (decide (c = k)).
    + rewrite IH. destruct (decide (c = k)) as [->|]; [|done].
      by rewrite decide_False.
Qed.

Lemma setitem_getitem (df df' : DataFrame) (col : string) (s : Series) (c : string) :
  setitem df col s = inr df' →
  getitem df' c = if decide (c = col) then Some s else getitem df c.
Proof.
  unfold setitem. case_decide; [|discriminate].
  intros [= <-]. apply replace_or_append_assoc.
Qed.

Lemma setitem_error (df : DataFrame) (col : string) (s : Series) (e : exn) :
  setitem df col s = inl e → is_coercion_error e = true.
Proof.
  unfold setitem. case_decide; [discriminate|]. by intros [= <-].
Qed.

Lemma setitem_present (df df' : DataFrame) (col : string) (s : Series) :
  setitem df col s = inr df' → col ∈ columns df →
  columns df' = columns df ∧ nrows df' = nrows df ∧
  length (values s) = nrows df ∧
  getitem df' col = Some s ∧
  (∀ c, c ≠ col → getitem df' c = getitem df c) ∧
  (∀ c x, (c, x) ∈ cols df' → (c, x) ∈ cols df ∨ x = s).
Proof.
  unfold setitem. case_decide as Hlen; [|discriminate].
  intros [= <-] Hin.
  destruct (replace_or_append_present col s (cols df) Hin)
    as (Hcols & Hget & Hother & Hmem).
  by split_and!.
Qed.

Lemma setitem_absent (df df' : DataFrame) (col : string) (s : Series) :
  setitem df col s = inr df' → col ∉ columns df →
  cols df' = cols df ++ [(col, s)] ∧ nrows df' = nrows df ∧
  length (values s) = nrows df.
Proof.
  unfold setitem. case_decide as Hlen; [|discriminate].
  intros [= <-] Hnot. simpl. by rewrite replace_or_append_absent.
Qed.

Lemma coerced_nil (df : DataFrame) : coerced [] df df.
Proof.
  split; [done|]. split; [done|]. intros col _.
  rewrite bool_decide_eq_false_2; [done|]. intros H. inversion H.
Qed.

Lemma coerced_cons_absent (col : string) (rest : list string) (df df' : DataFrame) :
  col ∉ columns df → coerced rest df df' → coerced (col :: rest) df df'.
Proof.
  intros Hnot (Hcols & Hrows & Hrel). split; [done|]. split; [done|].
  intros c Hc. specialize (Hrel c Hc).
  assert (c ≠ col) as Hne by congruence.
  destruct (bool_decide (c ∈ rest)) eqn:Hrest.
  - apply bool_decide_eq_true in Hrest.
    rewrite bool_decide_eq_true_2; [done | by right].
  - apply bool_decide_eq_false in Hrest.
    rewrite bool_decide_eq_false_2; [done|].
    intros H. inversion H; subst; done.
Qed.

Lemma coerced_cons_present (col : string) (rest : list string)
    (df df1 df' : DataFrame) (s s' : Series) :
  col ∈ columns df → getitem df col = Some s → to_numeric s = inr s' →
  setitem df col s' = inr df1 →
  coerced rest df1 df' → coerced (col :: rest) df df'.
Proof.
  intros Hin Hs Hnum Hset (Hcols & Hrows & Hrel).
  destruct (setitem_present _ _ _ _ Hset Hin)
    as (Hcols1 & Hrows1 & _ & Hget1 & Hother1 & _).
  split; [congruence|]. split; [congruence|].
  intros c Hc. rewrite <- Hcols1 in Hc. specialize (Hrel c Hc).
  destruct (decide (c = col)) as [->|Hne].
  - rewrite bool_decide_eq_true_2 by left.
    exists s, s'. split; [done|]. split; [done|].
    destruct (bool_decide (col ∈ rest)).
    + destruct Hrel as (s1 & s1' & Hs1 & Hnum1 & Hs1').
      rewrite Hget1 in Hs1. injection Hs1 as <-.
      rewrite (to_numeric_idempotent _ _ Hnum) in Hnum1. congruence.
    + congruence.
  - rewrite <- (Hother1 c Hne).
    destruct (bool_decide (c ∈ rest)) eqn:Hrest.
    + apply bool_decide_eq_true in Hrest.
      rewrite bool_decide_eq_true_2; [done | by right].
    + apply bool_decide_eq_false in Hrest.
      rewrite bool_decide_eq_false_2; [done|].
      intros H. inversion H; subst; done.
Qed.

Lemma wp_validation_handler (detail : result fstring) (d : fstring) (e : exn)
    (Q : World → result DataFrame → Prop) (w : World) :
  detail = inr d → is_coercion_error e = true →
  Q (log_raise (HTTPException 400 d) w) (inl (HTTPException 400 d)) →
  wp (validation_handler detail e) Q w.
Proof.
  intros -> He HQ. destruct e as [|[] m]; try discriminate;
    simpl; wp_step; wp_step; by wp_step.
Qed.

Lemma wp_validation_handler_other (detail : result fstring) (e : exn)
    (Q : World → result DataFrame → Prop) (w : World) :
  is_coercion_error e = false → Q w (inl e) →
  wp (validation_handler detail e) Q w.
Proof.
  intros He HQ. destruct e as [|[] m]; try discriminate; simpl; by wp_step.
Qed.

Lemma conversion_raises_here (df : DataFrame) (col : string) (rest : list string)
    (s : Series) (e : exn) :
  getitem df col = Some s → to_numeric s = inl e →
  conversion_raises df (col :: rest) e.
Proof. intros Hs He. exists col, s. split; [left | done]. Qed.

Lemma conversion_raises_later (df df1 : DataFrame) (col : string)
    (rest : list string) (s s' : Series) (e : exn) :
  getitem df col = Some s → to_numeric s = inr s' →
  setitem df col s' = inr df1 →
  conversion_raises df1 rest e → conversion_raises df (col :: rest) e.
Proof.
  intros Hs Hnum Hset (c & s1 & Hc & Hs1 & He).
  assert (col ∈ columns df) as Hin by (apply getitem_columns; eauto).
  destruct (setitem_present _ _ _ _ Hset Hin)
    as (_ & Hrows & Hlen & Hget & Hother & _).
  destruct (decide (c = col)) as [->|Hne].
  - rewrite Hget in Hs1. injection Hs1 as <-.
    rewrite (to_numeric_idempotent _ _ Hnum) in He. discriminate.
  - exists c, s1. split; [by right|]. by rewrite <- (Hother c Hne).
Qed.

Lemma conversion_raises_skip (df : DataFrame) (col : string)
    (rest : list string) (e : exn) :
  conversion_raises df rest e → conversion_raises df (col :: rest) e.
Proof.
  intros (c & s & Hc & Hs & He). exists c, s. split; [by right | done].
Qed.

Lemma conversion_fails_here (df : DataFrame) (col : string) (rest : list string)
    (s : Series) (e : exn) :
  getitem df col = Some s →
  to_numeric s = inl e ∨ length (values s) ≠ nrows df →
  conversion_fails df (col :: rest) e.
Proof. intros Hs He. exists col, s. split; [left | done]. Qed.

Lemma conversion_fails_later (df df1 : DataFrame) (col : string)
    (rest : list string) (s s' : Series) (e : exn) :
  getitem df col = Some s → to_numeric s = inr s' →
  setitem df col s' = inr df1 →
  conversion_fails df1 rest e → conversion_fails df (col :: rest) e.
Proof.
  intros Hs Hnum Hset (c & s1 & Hc & Hs1 & He).
  assert (col ∈ columns df) as Hin by (apply getitem_columns; eauto).
  destruct (setitem_present _ _ _ _ Hset Hin)
    as (_ & Hrows & Hlen & Hget & Hother & _).
  destruct (decide (c = col)) as [->|Hne].
  - rewrite Hget in Hs1. injection Hs1 as <-.
    rewrite (to_numeric_idempotent _ _ Hnum) in He.
    destruct He as [[=] | Hbad]. congruence.
  - exists c, s1. split; [by right|].
    rewrite <- (Hother c Hne). split; [done|]. by rewrite <- Hrows.
Qed.

Lemma conversion_fails_skip (df : DataFrame) (col : string)
    (rest : list string) (e : exn) :
  conversion_fails df rest e → conversion_fails df (col :: rest) e.
Proof.
  intros (c & s & Hc & Hs & He). exists c, s. split; [by right | done].
Qed.

Section CoerceLoop.

Context (detail : string → DataFrame → result fstring) (I : DataFrame → Prop).
Hypothesis detail_total :
  ∀ df col, I df → col ∈ columns df → ∃ d, detail col df = inr d.
Hypothesis I_setitem :
  ∀ df df' col s s', I df → getitem df col = Some s → to_numeric s = inr s' →
                     setitem df col s' = inr df' → I df'.

(** The validation loop either converts every listed column that the frame
    has, raising nothing, or stops at the first column that cannot be
    converted: a ValueError or TypeError is followed by one HTTP 400 error,
    which is the outcome; any other exception of the conversion is itself
    the outcome. *)
Lemma coerce_loop_spec (todo : list string) (df : DataFrame) (w : World) :
  I df →
  wp (coerce_loop detail todo df)
     (fun w' r =>
        match r with
        | inr df' => w' = w ∧ I df' ∧ coerced todo df df'
        | inl h =>
          (∃ e d, w' = log_raise h (log_raise e w) ∧
                  is_coercion_error e = true ∧
                  conversion_fails df todo e ∧
                  h = HTTPException 400 d) ∨
          (w' = log_raise h w ∧ is_coercion_error h = false ∧
           conversion_raises df todo h)
        end) w.
Proof using detail_total I_setitem.
  revert df. induction todo as [|col rest IH]; intros df HI; simpl.
  - apply wp_ret. split; [done|]. split; [done|]. apply coerced_nil.
  - case_bool_decide as Hin.
    + destruct (proj1 (getitem_columns df col) Hin) as [s Hs]. rewrite Hs.
      destruct (detail_total df col HI Hin) as [d Hd].
      wp_step. wp_step. wp_step.
      destruct (to_numeric s) as [e|s'] eqn:Hnum.
      * wp_step. destruct (is_coercion_error e) eqn:He.
        -- eapply wp_validation_handler; [done | done |].
           left. exists e, d. split_and!; try done.
           eapply conversion_fails_here; eauto.
        -- apply wp_validation_handler_other; [done|].
           right. split_and!; try done.
           by eapply conversion_raises_here.
      * wp_step.
        destruct (setitem df col s') as [e|df1] eqn:Hset.
        -- wp_step.
           assert (is_coercion_error e = true) as He by (by eapply setitem_error).
           eapply wp_validation_handler; [done | done |].
           left. exists e, d. split_and!; try done.
           eapply conversion_fails_here; [done|]. right.
           destruct (to_numeric_result _ _ Hnum) as (<- & _).
           unfold setitem in Hset. by case_decide.
        -- wp_step.
           eapply wp_mono; [apply (IH df1); by eapply I_setitem|].
           intros w' [h|df'].
           ++ intros [(e & d' & -> & He & Hfails & ->) | (-> & He & Hraises)].
              ** left. exists e, d'. split_and!; try done.
                 by eapply conversion_fails_later.
              ** right. split_and!; try done.
                 by eapply conversion_raises_later.
           ++ intros (-> & HI' & Hrel). split; [done|]. split; [done|].
              by eapply coerced_cons_present.
    + eapply wp_mono; [by apply (IH df)|].
      intros w' [h|df'].
      * intros [(e & d' & -> & He & Hfails & ->) | (-> & He & Hraises)].
        -- left. exists e, d'. split_and!; try done.
           by apply conversion_fails_skip.
        -- right. split_and!; try done. by apply conversion_raises_skip.
      * intros (-> & HI' & Hrel). split; [done|]. split; [done|].
        by apply coerced_cons_absent.
Qed.

End CoerceLoop.

(** ** Selecting the feature columns *)

Lemma set_diff_empty (a b : list string) :
  set_diff a b = ∅ ↔ ∀ c, c ∈ a → c ∈ b.
Proof.
  unfold set_diff. split.
  - intros Hempty c Hc. destruct (decide (c ∈ b)) as [|Hn]; [done|].
    assert (c ∈ (list_to_set a ∖ list_to_set b : gset string)) as Hin
      by (rewrite elem_of_difference, !elem_of_list_to_set; done).
    rewrite Hempty in Hin. by apply not_elem_of_empty in Hin.
  - intros Hall. apply leibniz_equiv. apply elem_of_equiv_empty. intros c.
    rewrite elem_of_difference, !elem_of_list_to_set. intros [Ha Hb]. auto.
Qed.

Lemma select_missing_nil (df : DataFrame) (labels : list string) :
  (∀ c, c ∈ labels → c ∈ columns df) →
  List.filter (fun c => negb (bool_decide (c ∈ columns df))) labels = [].
Proof.
  intros Hall. induction labels as [|c l IH]; [done|]. simpl.
  rewrite bool_decide_eq_true_2 by (apply Hall; left). simpl.
  apply IH. intros c' Hc'. apply Hall. by right.
Qed.

Lemma select_total (df : DataFrame) (labels : list string) :
  (∀ c, c ∈ labels → c ∈ columns df) →
  select df labels =
    inr (mkFrame (nrows df) (omap (fun c => pair c <$> getitem df c) labels)).
Proof. intros Hall. unfold select. by rewrite select_missing_nil. Qed.

Lemma select_present (df features : DataFrame) (labels : list string) :
  select df labels = inr features → ∀ c, c ∈ labels → c ∈ columns df.
Proof.
  unfold select.
  destruct (List.filter _ labels) as [|m ms] eqn:Hmissing; [|discriminate].
  intros _ c Hc. destruct (decide (c ∈ columns df)) as [|Hn]; [done|].
  assert (c ∈ List.filter (fun c => negb (bool_decide (c ∈ columns df))) labels)
    as Hin by (apply filter_elem_of; by rewrite bool_decide_eq_false_2).
  rewrite Hmissing in Hin. inversion Hin.
Qed.

Lemma assoc_omap_getitem (df : DataFrame) (labels : list string) (c : string) :
  c ∈ labels →
  assoc c (omap (fun c => pair c <$> getitem df c) labels) = getitem df c.
Proof.
  induction labels as [|x l IH]; [intros H; inversion H|].
  intros Hc. simpl. destruct (getitem df x) as [s|] eqn:Hx; simpl.
  - destruct (decide (c = x)) as [->|Hne]; [done|].
    apply IH. inversion Hc; subst; done.
  - destruct (decide (c = x)) as [->|Hne].
    + destruct (decide (x ∈ l)) as [Hl|Hl]; [by apply IH|].
      rewrite Hx. clear IH Hc. induction l as [|y l IH]; [done|]. simpl.
      destruct (getitem df y) eqn:Hy; simpl.
      * rewrite decide_False by (intros ->; apply Hl; left).
        apply IH. intros H. apply Hl. by right.
      * apply IH. intros H. apply Hl. by right.
    + apply IH. inversion Hc; subst; done.
Qed.

Lemma select_getitem (df features : DataFrame) (labels : list string) (c : string) :
  select df labels = inr features → c ∈ labels →
  getitem features c = getitem df c.
Proof.
  intros Hsel Hc. rewrite select_total in Hsel by (by eapply select_present).
  injection Hsel as <-. by apply assoc_omap_getitem.
Qed.

Lemma select_cols_elem (df features : DataFrame) (labels : list string)
    (c : string) (s : Series) :
  select df labels = inr features → (c, s) ∈ cols features → (c, s) ∈ cols df.
Proof.
  intros Hsel. rewrite select_total in Hsel by (by eapply select_present).
  injection Hsel as <-. simpl. rewrite list_elem_of_omap.
  intros (x & _ & Hx). destruct (getitem df x) as [s0|] eqn:Hget; [|discriminate].
  injection Hx as <- <-. by apply assoc_Some_elem.
Qed.

Lemma select_nrows (df features : DataFrame) (labels : list string) :
  select df labels = inr features → nrows features = nrows df.
Proof.
  intros Hsel. rewrite select_total in Hsel by (by eapply select_present).
  by injection Hsel as <-.
Qed.

(** ** Frames of one JSON record *)

Lemma columns_frame_of_record (input_data : list (string * Json)) :
  columns (frame_of_record input_data) = input_data.*1.
Proof.
  unfold columns, frame_of_record. simpl.
  induction input_data as [|[k v] l IH]; [done|]. simpl. f_equal. apply IH.
Qed.

Lemma getitem_frame_of_record (input_data : list (string * Json)) (c : string) :
  getitem (frame_of_record input_data) c = series_of_json <$> assoc c input_data.
Proof.
  unfold getitem, frame_of_record. simpl.
  induction input_data as [|[k v] l IH]; [done|]. simpl.
  by destruct (decide (c = k)).
Qed.

Lemma series_of_json_length (v : Json) :
  length (values (series_of_json v)) = 1%nat.
Proof. destruct v; simpl; try done. by repeat case_match. Qed.

Lemma one_row_frame_of_record (input_data : list (string * Json)) :
  one_row (frame_of_record input_data).
Proof.
  split; [done|]. intros c s. unfold frame_of_record. simpl.
  rewrite list_elem_of_fmap. intros ([k v] & [= -> ->] & _).
  apply series_of_json_length.
Qed.

Lemma one_row_select (df features : DataFrame) (labels : list string) :
  select df labels = inr features → one_row df → one_row features.
Proof.
  intros Hsel [Hrows Hshape]. split.
  - by rewrite (select_nrows _ _ _ Hsel).
  - intros c s Hin. rewrite (select_nrows _ _ _ Hsel).
    apply (Hshape c). by eapply select_cols_elem.
Qed.

Lemma one_row_setitem (df df' : DataFrame) (col : string) (s s' : Series) :
  one_row df → getitem df col = Some s → to_numeric s = inr s' →
  setitem df col s' = inr df' → one_row df'.
Proof.
  intros [Hrows Hshape] Hs _ Hset.
  assert (col ∈ columns df) as Hin by (apply getitem_columns; eauto).
  destruct (setitem_present _ _ _ _ Hset Hin)
    as (_ & Hrows' & Hlen & _ & _ & Hmem).
  split; [congruence|]. intros c x Hx. rewrite Hrows'.
  destruct (Hmem c x Hx) as [Hold | ->]; [by apply (Hshape c) | done].
Qed.

Lemma one_row_single_detail (df : DataFrame) (col : string) :
  one_row df → col ∈ columns df → ∃ d, single_detail col df = inr d.
Proof.
  intros [Hrows Hshape] Hin. unfold single_detail.
  destruct (proj1 (getitem_columns df col) Hin) as [s Hs].
  pose proof Hs as Hget. unfold getitem in Hs. apply assoc_Some_elem in Hs.
  apply Hshape in Hs. rewrite Hget.
  destruct (values s); [simpl in Hs; lia | eauto].
Qed.

(** ** Coercion in the inference endpoints *)


Lemma batch_detail_total (df : DataFrame) (col : string) :
  True → col ∈ columns df → ∃ d, batch_detail col df = inr d.
Proof. intros _ _. by eexists. Qed.







(** ** Failures and their HTTP errors *)

Lemma coercion_error_not_http (e : exn) :
  is_coercion_error e = true → is_http e = false.
Proof. by destruct e. Qed.

Lemma raised_none (l : list exn) (P : list exn → Prop) :
  P [] → ∃ new, l = l ++ new ∧ P new.
Proof. exists []. by rewrite app_nil_r. Qed.

Lemma raised_one (l : list exn) (e : exn) (P : list exn → Prop) :
  P [e] → ∃ new, l ++ [e] = l ++ new ∧ P new.
Proof. by exists [e]. Qed.

Lemma raised_two (l : list exn) (e h : exn) (P : list exn → Prop) :
  P [e; h] → ∃ new, (l ++ [e]) ++ [h] = l ++ new ∧ P new.
Proof. exists [e; h]. by rewrite <- app_assoc. Qed.

Ltac log_leaf :=
  cbn [is_http];
  try match goal with
      | |- context [is_http ?e] => destruct (is_http e) eqn:?
      end;
  cbn [raised log_raise update_globals write_file];
  first [apply raised_two | apply raised_one | apply raised_none].

Lemma train_model_mapping (target : option string) (w : World) :
  ∃ new, raised (train_model target w).1 = raised w ++ new ∧
         generic_mapping "Training error: " new (train_model target w).2.
Proof.
  change (wp (train_model target)
            (fun w' r => ∃ new, raised w' = raised w ++ new ∧
                                generic_mapping "Training error: " new r) w).
  unfold train_model. wp_go; log_leaf; simpl; eauto.
Qed.

Lemma wp_coerce_numerical (detail : string → DataFrame → result fstring)
    (I : DataFrame → Prop) (numerical : option (list string)) (df : DataFrame)
    (Q : World → result DataFrame → Prop) (w : World) :
  (∀ df col, I df → col ∈ columns df → ∃ d, detail col df = inr d) →
  (∀ df df' col s s', I df → getitem df col = Some s → to_numeric s = inr s' →
                      setitem df col s' = inr df' → I df') →
  I df →
  (∀ e d, is_coercion_error e = true →
          conversion_fails df (default [] numerical) e →
          Q (log_raise (HTTPException 400 d) (log_raise e w))
            (inl (HTTPException 400 d))) →
  (∀ e, is_coercion_error e = false →
        conversion_raises df (default [] numerical) e →
        Q (log_raise e w) (inl e)) →
  (∀ df', I df' → coerced (default [] numerical) df df' → Q w (inr df')) →
  wp (coerce_numerical detail numerical df) Q w.
Proof.
  intros Hdetail Hstep HI Hfail Hother Hok. destruct numerical as [todo|]; simpl.
  - eapply wp_mono; [by apply (coerce_loop_spec detail I)|].
    intros w' [h|df'].
    + intros [(e & d & -> & He & Hfails & ->) | (-> & He & Hraises)];
        [by apply Hfail | by apply Hother].
    + intros (-> & HI' & Hrel). by apply Hok.
  - apply wp_ret. apply Hok; [done | apply coerced_nil].
Qed.

Lemma one_row_conversion_fails (input_data : list (string * Json))
    (df : DataFrame) (fc todo : list string) (e : exn) :
  select (frame_of_record input_data) fc = inr df →
  conversion_fails df todo e →
  ∃ col v, col ∈ todo ∧ assoc col input_data = Some v ∧
           to_numeric (series_of_json v) = inl e.
Proof.
  intros Hsel (col & s & Hcol & Hs & He).
  assert (one_row df) as [Hrows Hshape]
    by (eapply one_row_select; [exact Hsel | apply one_row_frame_of_record]).
  destruct He as [He | Hlen]; cycle 1.
  { exfalso. apply Hlen. apply (Hshape col). by apply assoc_Some_elem. }
  assert (col ∈ fc) as Hfeat.
  { rewrite <- (select_columns _ _ _ Hsel). apply getitem_columns. eauto. }
  rewrite (select_getitem _ _ _ _ Hsel Hfeat), getitem_frame_of_record in Hs.
  destruct (assoc col input_data) as [v|] eqn:Hv; [|discriminate].
  injection Hs as <-. by exists col, v.
Qed.

Lemma batch_conversion_fails (df features : DataFrame) (fc todo : list string)
    (e : exn) :
  select df fc = inr features →
  conversion_fails features todo e → conversion_fails df todo e.
Proof.
  intros Hsel (col & s & Hcol & Hs & He).
  assert (col ∈ fc) as Hfeat.
  { rewrite <- (select_columns _ _ _ Hsel). apply getitem_columns. eauto. }
  rewrite (select_getitem _ _ _ _ Hsel Hfeat) in Hs.
  exists col, s. by rewrite <- (select_nrows _ _ _ Hsel).
Qed.

Lemma predict_single_mapping (input_data : list (string * Json)) (w : World) :
  ∃ new, raised (predict_single input_data w).1 = raised w ++ new ∧
         (generic_mapping "Prediction error: " new (predict_single input_data w).2 ∨
          validation_mapping
            (fun e => ∃ col v,
               col ∈ default [] (numerical_columns (globals w)) ∧
               assoc col input_data = Some v ∧
               to_numeric (series_of_json v) = inl e)
            new (predict_single input_data w).2).
Proof.
  change (wp (predict_single input_data)
            (fun w' r =>
               ∃ new, raised w' = raised w ++ new ∧
                      (generic_mapping "Prediction error: " new r ∨
                       validation_mapping
                         (fun e => ∃ col v,
                            col ∈ default [] (numerical_columns (globals w)) ∧
                            assoc col input_data = Some v ∧
                            to_numeric (series_of_json v) = inl e)
                         new r)) w).
  unfold predict_single. wp_go;
    try (log_leaf; left; simpl; by eauto).
  eapply (wp_coerce_numerical single_detail one_row).
  - intros. by apply one_row_single_detail.
  - intros. by eapply one_row_setitem.
  - eapply one_row_select; [eassumption | apply one_row_frame_of_record].
  - intros e d He Hfails. log_leaf. right. exists e, d. split_and!; try done.
    by eapply one_row_conversion_fails.
  - intros e He Hraises. log_leaf; left; simpl; by eauto.
  - intros df' _ _. wp_go; log_leaf; left; simpl; by eauto.
Qed.

Lemma predict_batch_mapping (file : UploadFile) (w : World) :
  ∃ new, raised (predict_batch file w).1 = raised w ++ new ∧
         (generic_mapping "Batch prediction error: " new (predict_batch file w).2 ∨
          validation_mapping
            (fun e => ∃ df, content file = inr df ∧
               conversion_fails df (default [] (numerical_columns (globals w))) e)
            new (predict_batch file w).2).
Proof.
  change (wp (predict_batch file)
            (fun w' r =>
               ∃ new, raised w' = raised w ++ new ∧
                      (generic_mapping "Batch prediction error: " new r ∨
                       validation_mapping
                         (fun e => ∃ df, content file = inr df ∧
                            conversion_fails df
                              (default [] (numerical_columns (globals w))) e)
                         new r)) w).
  unfold predict_batch. wp_go;
    try (log_leaf; left; simpl; by eauto).
  eapply (wp_coerce_numerical batch_detail (fun _ => True));
    [apply batch_detail_total | done | done | | |].
  - intros e d He Hfails. log_leaf. right. exists e, d. split_and!; try done.
    eexists. split; [eassumption|]. by eapply batch_conversion_fails.
  - intros e He Hraises. log_leaf; left; simpl; by eauto.
  - intros df' _ _. wp_go; log_leaf; left; simpl; by eauto.
Qed.

(** C7 (amended): in /train, /predict and /predict-batch nothing is raised
    on success, so no failure is retried or recovered from; a failure is
    either one HTTPException raised in the handler and passed on unchanged,
    or one other exception followed by an HTTP 500 error whose detail is the
    handler's prefix and the exception's message; except that in /predict and
    /predict-batch the ValueError or TypeError raised by the conversion of a
    numerical column is followed by an HTTP 400 error instead. *)
Theorem failures_map_to_http_errors :
  (∀ target w,
     ∃ new, raised (train_model target w).1 = raised w ++ new ∧
            generic_mapping "Training error: " new (train_model target w).2) ∧
  (∀ input_data w,
     ∃ new, raised (predict_single input_data w).1 = raised w ++ new ∧
            (generic_mapping "Prediction error: " new
               (predict_single input_data w).2 ∨
             validation_mapping
               (fun e => ∃ col v,
                  col ∈ default [] (numerical_columns (globals w)) ∧
                  assoc col input_data = Some v ∧
                  to_numeric (series_of_json v) = inl e)
               new (predict_single input_data w).2)) ∧
  (∀ file w,
     ∃ new, raised (predict_batch file w).1 = raised w ++ new ∧
            (generic_mapping "Batch prediction error: " new
               (predict_batch file w).2 ∨
             validation_mapping
               (fun e => ∃ df, content file = inr df ∧
                  conversion_fails df
                    (default [] (numerical_columns (globals w))) e)
               new (predict_batch file w).2)).
Proof.
  split; [|split].
  - apply train_model_mapping.
  - apply predict_single_mapping.
  - apply predict_batch_mapping.
Qed.

(** ** The batch download *)

(** C10 (amended): when the uploaded CSV has no column named Prediction
    or Probability, the frame written to the returned CSV is the uploaded
    frame, with all its columns (those outside the schema too) unchanged and
    in their order, on the same rows, followed by exactly the two columns
    Prediction and Probability, each with one value per row. *)
Theorem predict_batch_output (file : UploadFile) (w : World) (df : DataFrame)
    (resp : StreamingResponse) :
  content file = inr df →
  "Prediction" ∉ columns df →
  "Probability" ∉ columns df →
  (predict_batch file w).2 = inr resp →
  ∃ preds probas,
    cols (body resp) = cols df ++ [("Prediction", preds); ("Probability", probas)] ∧
    nrows (body resp) = nrows df ∧
    length (values preds) = nrows df ∧
    length (values probas) = nrows df.
Proof.
  intros Hcontent Hpred Hproba. revert resp.
  change (wp (predict_batch file)
            (fun w' r => ∀ resp, r = inr resp →
               ∃ preds probas,
                 cols (body resp)
                   = cols df ++ [("Prediction", preds); ("Probability", probas)] ∧
                 nrows (body resp) = nrows df ∧
                 length (values preds) = nrows df ∧
                 length (values probas) = nrows df) w).
  unfold predict_batch. rewrite Hcontent. wp_go; try wp_failed.
  eapply (wp_coerce_numerical batch_detail (fun _ => True));
    [apply batch_detail_total | done | done | | |].
  { intros e d _. simpl. intros; discriminate. }
  { intros e _ _. destruct (is_http e); intros; discriminate. }
  intros df' _ _. wp_go; try wp_failed.
  intros resp [= <-]. simpl.
  match goal with
  | H1 : setitem df _ ?preds = inr ?d1, H2 : setitem ?d1 _ ?probas = inr _ |- _ =>
    destruct (setitem_absent _ _ _ _ H1 Hpred) as (Hcols1 & Hrows1 & Hlen1);
    assert ("Probability" ∉ columns d1) as Hproba1;
    [ unfold columns; rewrite Hcols1, fmap_app, elem_of_app;
      intros [Hin | Hin]; [done | by apply list_elem_of_singleton in Hin]
    | destruct (setitem_absent _ _ _ _ H2 Hproba1) as (Hcols2 & Hrows2 & Hlen2);
      exists preds, probas ]
  end.
  rewrite Hcols2, Hcols1, <- app_assoc. simpl in *.
  split; [done|]. split; [congruence|]. split; [done | congruence].
Qed.

(** ** Missing and extra columns *)

Lemma assoc_filter_keys {A : Type} (keep : list string) (l : list (string * A))
    (c : string) :
  c ∈ keep →
  assoc c (List.filter (fun kv => bool_decide (kv.1 ∈ keep)) l) = assoc c l.
Proof.
  intros Hc. induction l as [|[k v] l IH]; [done|]. simpl.
  case_bool_decide as Hk; simpl.
  - by rewrite IH.
  - rewrite IH. destruct (decide (c = k)) as [->|]; done.
Qed.

Lemma omap_ext_in {A B : Type} (f g : A → option B) (l : list A) :
  (∀ x, x ∈ l → f x = g x) → omap f l = omap g l.
Proof.
  intros Hfg. induction l as [|x l IH]; [done|].
  assert (omap f l = omap g l) as Hl
    by (apply IH; intros y Hy; apply Hfg; by right).
  simpl. rewrite (Hfg x) by left. destruct (g x); simpl.
  - f_equal. exact Hl.
  - exact Hl.
Qed.

Lemma select_ext (df1 df2 : DataFrame) (labels : list string) :
  nrows df1 = nrows df2 →
  (∀ c, c ∈ labels → c ∈ columns df1) →
  (∀ c, c ∈ labels → getitem df2 c = getitem df1 c) →
  select df2 labels = select df1 labels.
Proof.
  intros Hrows Hall Hget.
  assert (∀ c, c ∈ labels → c ∈ columns df2) as Hall2.
  { intros c Hc. apply getitem_columns. rewrite (Hget c Hc).
    by apply getitem_columns, Hall. }
  rewrite !select_total by done. rewrite Hrows. do 2 f_equal.
  apply omap_ext_in. intros c Hc. by rewrite Hget.
Qed.

Lemma mbind_get_globals {A : Type} (k : Globals → M A) (w : World) :
  (get_globals ≫= k) w = k (globals w) w.
Proof. done. Qed.

Lemma mbind_lift_inr {A B : Type} (a : A) (k : A → M B) (w : World) :
  (lift (inr a) ≫= k) w = k a w.
Proof. done. Qed.

Lemma http_errors_ext {A : Type} (prefix : string) (m m' : M A) (w : World) :
  m w = m' w → http_errors prefix m w = http_errors prefix m' w.
Proof. intros H. unfold http_errors, try_except. by rewrite H. Qed.

Lemma outcome_http_errors_ext {A B : Type} (prefix : string)
    (m : M A) (m' : M B) (w : World) :
  outcome_of (m w) = outcome_of (m' w) →
  outcome_of (http_errors prefix m w) = outcome_of (http_errors prefix m' w).
Proof.
  unfold http_errors, try_except, outcome_of.
  destruct (m w) as [w1 [e|a]], (m' w) as [w2 [e'|a']]; simpl;
    intros H; simplify_eq; try done.
  by destruct (is_http e').
Qed.

Lemma outcome_bind_ext {A B C : Type} (m : M A) (f : A → M B) (f' : A → M C)
    (w : World) :
  (∀ a w1, outcome_of (f a w1) = outcome_of (f' a w1)) →
  outcome_of ((m ≫= f) w) = outcome_of ((m ≫= f') w).
Proof.
  intros Hf. unfold mbind, M_bind, bind.
  destruct (m w) as [w1 [e|a]]; [done | apply Hf].
Qed.

Lemma predict_single_missing (input_data : list (string * Json)) (w : World)
    (p : Pipeline) (fc : list string) (c : string) :
  pipeline (globals w) = Some p →
  feature_columns (globals w) = Some fc →
  c ∈ fc → c ∉ input_data.*1 →
  (predict_single input_data w).2 =
    inl (HTTPException 400
           [Text "Missing required columns: ";
            ReprSet (set_diff fc input_data.*1);
            Text ". Please ensure your input includes all required fields: ";
            ReprList fc]).
Proof.
  intros Hp Hfc Hc Hmiss.
  change (wp (predict_single input_data)
            (fun w' r =>
               r = inl (HTTPException 400
                          [Text "Missing required columns: ";
                           ReprSet (set_diff fc input_data.*1);
                           Text ". Please ensure your input includes all required fields: ";
                           ReprList fc])) w).
  unfold predict_single. wp_step. wp_step. rewrite Hp, Hfc.
  wp_step. wp_step. simpl iter. wp_step.
  rewrite columns_frame_of_record.
  case_bool_decide as Hmissing.
  - wp_step. reflexivity.
  - exfalso. apply Hmiss. apply (proj1 (set_diff_empty fc _)); [|done].
    by destruct (decide (set_diff fc input_data.*1 = ∅)).
Qed.

Lemma predict_batch_missing (file : UploadFile) (w : World)
    (p : Pipeline) (fc : list string) (df : DataFrame) (c : string) :
  pipeline (globals w) = Some p →
  feature_columns (globals w) = Some fc →
  endswith (filename file) ".csv" = true →
  content file = inr df →
  c ∈ fc → c ∉ columns df →
  (predict_batch file w).2 =
    inl (HTTPException 400
           [Text "CSV is missing required columns: ";
            ReprSet (set_diff fc (columns df));
            Text ". Your CSV must include all required columns: ";
            ReprList fc]).
Proof.
  intros Hp Hfc Hcsv Hcontent Hc Hmiss.
  change (wp (predict_batch file)
            (fun w' r =>
               r = inl (HTTPException 400
                          [Text "CSV is missing required columns: ";
                           ReprSet (set_diff fc (columns df));
                           Text ". Your CSV must include all required columns: ";
                           ReprList fc])) w).
  unfold predict_batch. wp_step. wp_step. rewrite Hp, Hfc, Hcsv, Hcontent.
  simpl negb. cbv iota.
  wp_step. wp_step. wp_step. wp_step. simpl iter. wp_step.
  case_bool_decide as Hmissing.
  - wp_step. reflexivity.
  - exfalso. apply Hmiss. apply (proj1 (set_diff_empty fc _)); [|done].
    by destruct (decide (set_diff fc (columns df) = ∅)).
Qed.

Lemma predict_single_extra (input_data : list (string * Json)) (w : World)
    (fc : list string) :
  feature_columns (globals w) = Some fc →
  (∀ c, c ∈ fc → c ∈ input_data.*1) →
  predict_single input_data w =
  predict_single (List.filter (fun kv => bool_decide (kv.1 ∈ fc)) input_data) w.
Proof.
  intros Hfc Hall.
  set (kept := List.filter _ input_data).
  assert (Hget : ∀ c, c ∈ fc →
            getitem (frame_of_record kept) c = getitem (frame_of_record input_data) c).
  { intros c Hc. rewrite !getitem_frame_of_record.
    unfold kept. by rewrite assoc_filter_keys. }
  assert (Hall1 : ∀ c, c ∈ fc → c ∈ columns (frame_of_record input_data))
    by (intros c Hc; rewrite columns_frame_of_record; auto).
  assert (Hall2 : ∀ c, c ∈ fc → c ∈ columns (frame_of_record kept)).
  { intros c Hc. apply getitem_columns. rewrite (Hget c Hc).
    by apply getitem_columns, Hall1. }
  unfold predict_single. rewrite !mbind_get_globals.
  destruct (pipeline (globals w)) as [p|]; [|done].
  apply http_errors_ext. rewrite Hfc. simpl iter. rewrite !mbind_lift_inr.
  rewrite !bool_decide_eq_false_2
    by (intros Hne; apply Hne; by apply set_diff_empty).
  by rewrite (select_ext (frame_of_record input_data) (frame_of_record kept)).
Qed.

Lemma predict_batch_extra (file : UploadFile) (w : World)
    (fc : list string) (df : DataFrame) :
  feature_columns (globals w) = Some fc →
  content file = inr df →
  (∀ c, c ∈ fc → c ∈ columns df) →
  outcome_of (predict_batch file w) =
  outcome_of (predict_batch
                (mkUpload (filename file)
                   (inr (mkFrame (nrows df)
                           (List.filter (fun cs => bool_decide (cs.1 ∈ fc)) (cols df)))))
                w).
Proof.
  intros Hfc Hcontent Hall.
  set (kept := mkFrame _ _).
  assert (Hget : ∀ c, c ∈ fc → getitem kept c = getitem df c).
  { intros c Hc. unfold getitem, kept. simpl. by rewrite assoc_filter_keys. }
  assert (Hall2 : ∀ c, c ∈ fc → c ∈ columns kept).
  { intros c Hc. apply getitem_columns. rewrite (Hget c Hc).
    by apply getitem_columns, Hall. }
  unfold predict_batch. rewrite !mbind_get_globals.
  destruct (pipeline (globals w)) as [p|]; [|done].
  cbn [filename content].
  destruct (negb (endswith (filename file) ".csv")); [done|].
  apply outcome_http_errors_ext. rewrite Hcontent, Hfc.
  simpl iter. rewrite !mbind_lift_inr.
  rewrite !bool_decide_eq_false_2
    by (intros Hne; apply Hne; by apply set_diff_empty).
  rewrite (select_ext df kept) by done.
  do 4 (apply outcome_bind_ext; intros).
  unfold setitem. simpl nrows.
  unfold mbind, M_bind, bind, lift, raise, ret, outcome_of.
  repeat (case_decide; simpl; try done).
Qed.

(** C1 (amended): the schema check of both inference endpoints rejects a
    request that lacks a feature column, with an HTTP 400 error that lists
    the missing columns, and tolerates columns that are not in the schema: a
    request that has every feature column gives, for /predict, exactly the
    result of the same request without its extra columns, and for
    /predict-batch the same final state and the same error, if any, as the
    same upload without its extra columns. *)
Theorem schema_check_missing_and_extra_columns :
  (∀ input_data w p fc c,
     pipeline (globals w) = Some p →
     feature_columns (globals w) = Some fc →
     c ∈ fc → c ∉ input_data.*1 →
     (predict_single input_data w).2 =
       inl (HTTPException 400
              [Text "Missing required columns: ";
               ReprSet (set_diff fc input_data.*1);
               Text ". Please ensure your input includes all required fields: ";
               ReprList fc])) ∧
  (∀ file w p fc df c,
     pipeline (globals w) = Some p →
     feature_columns (globals w) = Some fc →
     endswith (filename file) ".csv" = true →
     content file = inr df →
     c ∈ fc → c ∉ columns df →
     (predict_batch file w).2 =
       inl (HTTPException 400
              [Text "CSV is missing required columns: ";
               ReprSet (set_diff fc (columns df));
               Text ". Your CSV must include all required columns: ";
               ReprList fc])) ∧
  (∀ input_data w fc,
     feature_columns (globals w) = Some fc →
     (∀ c, c ∈ fc → c ∈ input_data.*1) →
     predict_single input_data w =
     predict_single (List.filter (fun kv => bool_decide (kv.1 ∈ fc)) input_data) w) ∧
  (∀ file w fc df,
     feature_columns (globals w) = Some fc →
     content file = inr df →
     (∀ c, c ∈ fc → c ∈ columns df) →
     outcome_of (predict_batch file w) =
     outcome_of (predict_batch
                   (mkUpload (filename file)
                      (inr (mkFrame (nrows df)
                              (List.filter (fun cs => bool_decide (cs.1 ∈ fc))
                                           (cols df)))))
                   w)).
Proof.
  split_and!.
  - apply predict_single_missing.
  - apply predict_batch_missing.
  - apply predict_single_extra.
  - apply predict_batch_extra.
Qed.

(** * Further properties *)

(** ** Suffixes of labels and file names *)

Lemma substring_all (s : string) : String.substring 0 (String.length s) s = s.
Proof. induction s as [|c s IH]; [done|]. simpl. by rewrite IH. Qed.

Lemma substring_skip (p s : string) (m : nat) :
  String.substring (String.length p) m (p +:+ s) = String.substring 0 m s.
Proof. induction p as [|c p IH]; [done|]. simpl. apply IH. Qed.

Lemma length_app_string (p s : string) :
  String.length (p +:+ s) = (String.length p + String.length s)%nat.
Proof.
  induction p as [|c p IH]; [done|].
  change (S (String.length (p +:+ s)) = S (String.length p + String.length s)).
  by rewrite IH.
Qed.

Lemma substring_split (s : string) (k : nat) :
  (k ≤ String.length s)%nat →
  s = String.substring 0 k s +:+ String.substring k (String.length s - k) s.
Proof.
  revert k. induction s as [|c s IH]; intros k Hk.
  - by destruct k.
  - destruct k as [|k]; simpl.
    + by rewrite substring_all.
    + simpl in Hk.
      change (String c s =
              String c (String.substring 0 k s
                        +:+ String.substring k (String.length s - k) s)).
      f_equal. apply IH. lia.
Qed.

(** [s.endswith(suffix)] holds exactly when [s] is some text followed by
    [suffix]. *)
Lemma endswith_spec (s suffix : string) :
  endswith s suffix = true ↔ ∃ stem, s = stem +:+ suffix.
Proof.
  unfold endswith. rewrite andb_true_iff, Nat.leb_le, String.eqb_eq. split.
  - intros [Hle Hsub].
    exists (String.substring 0 (String.length s - String.length suffix) s).
    pose proof (substring_split s (String.length s - String.length suffix)
                  ltac:(lia)) as Hsplit.
    replace (String.length s - (String.length s - String.length suffix))%nat
      with (String.length suffix) in Hsplit by lia.
    by rewrite Hsub in Hsplit.
  - intros [stem ->]. rewrite length_app_string. split; [lia|].
    replace (String.length stem + String.length suffix - String.length suffix)%nat
      with (String.length stem) by lia.
    by rewrite substring_skip, substring_all.
Qed.

(** ** Requests that are refused before any work *)

(** X2: while no pipeline is loaded, /health reports that no model is
    loaded, /model-info reports that the model is not trained, and /predict
    and /predict-batch refuse every request, whatever its content, with the
    same HTTP 400 error, raising nothing else and changing nothing. *)
Theorem untrained_service (w : World) :
  pipeline (globals w) = None →
  let refused :=
    HTTPException 400
      [Text "Model not trained yet. Please train the model first using the /train endpoint."] in
  health_check w = (w, inr (mkHealth "healthy" false)) ∧
  get_model_info w = (w, inr NotTrained) ∧
  (∀ input_data, predict_single input_data w = (log_raise refused w, inl refused)) ∧
  (∀ file, predict_batch file w = (log_raise refused w, inl refused)).
Proof.
  intros Hp. split_and!.
  - unfold health_check. rewrite mbind_get_globals, Hp. reflexivity.
  - unfold get_model_info. rewrite mbind_get_globals, Hp. reflexivity.
  - intros input_data. unfold predict_single.
    rewrite mbind_get_globals, Hp. reflexivity.
  - intros file. unfold predict_batch.
    rewrite mbind_get_globals, Hp. reflexivity.
Qed.

(** X3: with a pipeline loaded, /predict-batch refuses a file whose name
    is not some text followed by .csv (in lower case) with an HTTP 400 error,
    without reading its content. *)
Theorem predict_batch_needs_csv_name (file : UploadFile) (w : World) (p : Pipeline) :
  pipeline (globals w) = Some p →
  (¬ ∃ stem, filename file = stem +:+ ".csv") →
  let refused :=
    HTTPException 400
      [Text "File must be a CSV file. Please upload a .csv file."] in
  ∀ other_content,
    predict_batch file w = (log_raise refused w, inl refused) ∧
    predict_batch (mkUpload (filename file) other_content) w
      = (log_raise refused w, inl refused).
Proof.
  intros Hp Hname refused other_content.
  assert (endswith (filename file) ".csv" = false) as Hcsv.
  { destruct (endswith (filename file) ".csv") eqn:He; [|done].
    by apply endswith_spec in He. }
  unfold predict_batch. rewrite !mbind_get_globals, Hp.
  cbn [filename]. by rewrite Hcsv.
Qed.

(** ** Training, step by step *)

Lemma train_model_inversion (target : option string) (w : World) :
  ∀ resp, (train_model target w).2 = inr resp →
          trained_from target w (train_model target w).1 resp.
Proof.
  change (wp (train_model target)
            (fun w' r => ∀ resp, r = inr resp → trained_from target w w' resp) w).
  unfold train_model. wp_go; try wp_failed.
  intros resp [= <-]. unfold trained_from. cbn [resp_target_column
    resp_feature_columns resp_categorical_columns resp_numerical_columns].
  repeat match goal with
         | H : getitem_or_raise _ _ = inr _ |- _ => apply getitem_or_raise_inr in H
         | u : unit |- _ => destruct u
         | H : select ?df ?l = inr ?a, H' : select ?df ?l = inr ?b |- _ =>
           rewrite H in H'; injection H' as <-
         end.
  do 9 eexists. split_and!; try eassumption; reflexivity.
Qed.

(** X4: [create_pipeline] fails exactly when it is given no categorical
    and no numerical column.  Otherwise the pipeline is not fitted, ends in a
    logistic regression, and its preprocessing steps read the categorical
    columns (one-hot encoder, step cat) followed by the numerical columns
    (standard scaler, step num); a step is present only for a list that is
    not empty. *)
Theorem create_pipeline_spec (categorical_cols numerical_cols : list string) :
  ((∃ e, create_pipeline categorical_cols numerical_cols = inl e) ↔
   categorical_cols = [] ∧ numerical_cols = []) ∧
  ∀ p, create_pipeline categorical_cols numerical_cols = inr p →
       fitted_on p = None ∧
       classifier p = "LogisticRegression" ∧
       transformer_columns p = categorical_cols ++ numerical_cols ∧
       ∀ name t cols, (name, t, cols) ∈ transformers p →
         cols ≠ [] ∧
         ((name = "cat" ∧ t = OneHotEncoder ∧ cols = categorical_cols) ∨
          (name = "num" ∧ t = StandardScaler ∧ cols = numerical_cols)).
Proof.
  unfold create_pipeline, transformer_columns.
  destruct categorical_cols as [|c cs], numerical_cols as [|n ns]; simpl.
  { split; [split; eauto|]. intros p [=]. }
  all: split; [split; [intros [e [=]] | intros [Hc Hn]; discriminate]|].
  all: intros p [= <-]; simpl; rewrite ?app_nil_r.
  all: split_and!; try done.
  all: intros name t cols Hin.
  all: apply list_elem_of_In in Hin; simpl in Hin.
  all: repeat destruct Hin as [Hin | Hin]; try done.
  all: injection Hin as <- <- <-; (split; [done|]); by (left + right).
Qed.

Lemma create_pipeline_inr (categorical_cols numerical_cols : list string) (p : Pipeline) :
  create_pipeline categorical_cols numerical_cols = inr p →
  fitted_on p = None ∧ classifier p = "LogisticRegression" ∧
  transformer_columns p = categorical_cols ++ numerical_cols.
Proof.
  unfold create_pipeline, transformer_columns.
  destruct categorical_cols as [|c cs], numerical_cols as [|n ns]; simpl;
    intros [= <-]; simpl; rewrite ?app_nil_r; done.
Qed.

(** X5: in the pipeline that a successful /train call fits and serves,
    the preprocessing steps read the categorical columns and then the
    numerical columns of the response; these two lists have no label in
    common and together are a rearrangement of the feature columns, so every
    feature column is read by exactly one step and no other column is. *)
Theorem trained_pipeline_reads_every_feature (target : option string) (w : World)
    (resp : TrainingResponse) :
  (train_model target w).2 = inr resp →
  ∃ p, pipeline (globals (train_model target w).1) = Some p ∧
       is_Some (fitted_on p) ∧
       transformer_columns p
         = resp_categorical_columns resp ++ resp_numerical_columns resp ∧
       resp_categorical_columns resp ++ resp_numerical_columns resp
         ≡ₚ resp_feature_columns resp ∧
       (∀ c, c ∈ resp_categorical_columns resp → c ∉ resp_numerical_columns resp).
Proof.
  intros Hrun. apply train_model_inversion in Hrun
    as (df & features & cv & y & X_train & X_test & y_train & y_test & p0 &
        _ & _ & _ & Hsel & Hdetect & _ & _ & _ & Hcreate & _ & Hglobals & _).
  rewrite Hglobals. simpl.
  apply create_pipeline_inr in Hcreate as (_ & _ & Hcols).
  apply select_columns in Hsel.
  rewrite detect_column_types_filter, Hsel in Hdetect.
  injection Hdetect as Hnum Hcat.
  eexists. split; [reflexivity|]. split; [by eexists|]. split; [exact Hcols|].
  split.
  - rewrite <- Hnum, <- Hcat, Permutation_app_comm. apply filter_split_perm.
  - intros c. rewrite <- Hnum, <- Hcat, !filter_elem_of.
    intros [_ Hc] [_ Hc']. rewrite Hc' in Hc. discriminate.
Qed.

(** X6: after a successful /train call, /model-info reports the target,
    feature, categorical and numerical columns of the training response and
    the model type LogisticRegression, and changes nothing. *)
Theorem model_info_after_training (target : option string) (w : World)
    (resp : TrainingResponse) :
  (train_model target w).2 = inr resp →
  let w' := (train_model target w).1 in
  get_model_info w' =
    (w', inr (Info (Some (resp_target_column resp))
                   (Some (resp_feature_columns resp))
                   (Some (resp_categorical_columns resp))
                   (Some (resp_numerical_columns resp))
                   "LogisticRegression")).
Proof.
  intros Hrun w'. apply train_model_inversion in Hrun
    as (df & features & cv & y & X_train & X_test & y_train & y_test & p0 &
        _ & _ & _ & _ & _ & _ & _ & _ & Hcreate & _ & Hglobals & _).
  apply create_pipeline_inr in Hcreate as (_ & Hclass & _).
  subst w'. unfold get_model_info. rewrite mbind_get_globals.
  rewrite Hglobals. simpl. by rewrite Hclass.
Qed.

(** ** Categorical values *)

Lemma unique_elem_of (l : list Cell) (v : Cell) : v ∈ unique l ↔ v ∈ l.
Proof. unfold unique. by rewrite elem_of_reverse, elem_of_remove_dups, elem_of_reverse. Qed.

Lemma unique_NoDup (l : list Cell) : NoDup (unique l).
Proof. unfold unique. rewrite reverse_Permutation. apply NoDup_remove_dups. Qed.

Lemma dropna_elem_of (l : list Cell) (v : Cell) : v ∈ dropna l ↔ v ∈ l ∧ v ≠ CNull.
Proof.
  unfold dropna. rewrite filter_elem_of.
  split; intros [Hin Hv]; (split; [done|]); by destruct v.
Qed.

#[local] Instance string_leb_total : Total (fun a b : string => String.leb a b : Prop).
Proof.
  intros a b. destruct (String.leb_total a b) as [H | H];
    [left | right]; simpl; by rewrite H.
Qed.

Lemma sorted_Sorted (l : list string) :
  Sorted (fun a b : string => String.leb a b) (sorted l).
Proof. apply (Sorted_merge_sort _). Qed.

Lemma sorted_elem_of (l : list string) (t : string) : t ∈ sorted l ↔ t ∈ l.
Proof. unfold sorted. by rewrite merge_sort_Permutation. Qed.

(** X7: after a successful /train call the categorical values have one
    entry for each categorical column and no other; the entry of a column
    holds exactly one text for each distinct value of the column in the
    dataset, missing values left out, and these texts are in ascending
    order. *)
Theorem categorical_values_after_training (target : option string) (w : World)
    (resp : TrainingResponse) :
  (train_model target w).2 = inr resp →
  ∃ df cv,
    disk w !! data_path = Some (CsvFile (inr df)) ∧
    categorical_values (globals (train_model target w).1) = Some cv ∧
    (∀ c, is_Some (cv !! c) ↔ c ∈ resp_categorical_columns resp) ∧
    (∀ c texts, cv !! c = Some texts →
       Sorted (fun a b : string => String.leb a b) texts ∧
       ∃ s distinct,
         getitem df c = Some s ∧
         NoDup distinct ∧
         (∀ v, v ∈ distinct ↔ v ∈ values s ∧ v ≠ CNull) ∧
         texts ≡ₚ str_cell <$> distinct).
Proof.
  intros Hrun. apply train_model_inversion in Hrun
    as (df & features & cv & y & X_train & X_test & y_train & y_test & p0 &
        Hdata & _ & Hfc & Hsel & Hdetect & Hcv & _ & _ & _ & _ & Hglobals & _).
  exists df, cv. split; [done|]. split; [by rewrite Hglobals|].
  assert (Hcat : ∀ c, c ∈ resp_categorical_columns resp → is_Some (getitem df c)).
  { intros c Hc. pose proof Hsel as Hcols. apply select_columns in Hcols.
    rewrite detect_column_types_filter, Hcols in Hdetect.
    injection Hdetect as _ Hcat. rewrite <- Hcat in Hc.
    apply filter_elem_of in Hc as [Hc _].
    apply getitem_columns. by eapply select_present. }
  split.
  - intros c. rewrite (collect_values_lookup _ _ _ _ c Hcv).
    case_bool_decide as Hc.
    + split; [done|]. intros _. destruct (Hcat c Hc) as [s ->]. by eexists.
    + rewrite lookup_empty. split; [intros [? [=]] | done].
  - intros c texts. rewrite (collect_values_lookup _ _ _ _ c Hcv).
    case_bool_decide as Hc; [|by rewrite lookup_empty].
    destruct (getitem df c) as [s|]; [|discriminate].
    intros [= <-]. split; [apply sorted_Sorted|].
    exists s, (unique (dropna (values s))). split; [done|].
    split; [apply unique_NoDup|]. split.
    + intros v. by rewrite unique_elem_of, dropna_elem_of.
    + unfold sorted. apply merge_sort_Permutation.
Qed.

(** ** The schema endpoint *)

Lemma get_schema_loaded (w : World) (fc : list string) :
  feature_columns (globals w) = Some fc →
  get_schema w =
    (w, inr (mkSchemaResponse (target_column (globals w))
                              (schema_field (globals w) <$> fc))).
Proof.
  intros Hfc. unfold get_schema. rewrite mbind_get_globals, Hfc.
  unfold mbind, M_bind, bind. simpl. by rewrite Hfc.
Qed.

Lemma field_name_schema_field (g : Globals) (col : string) :
  field_name (schema_field g col) = col.
Proof.
  unfold schema_field. destruct (categorical_columns g) as [[|c cs]|]; try done.
  by case_bool_decide.
Qed.

Lemma schema_field_names (g : Globals) (fc : list string) :
  field_name <$> (schema_field g <$> fc) = fc.
Proof.
  induction fc as [|c fc IH]; [done|].
  rewrite !fmap_cons, field_name_schema_field. by f_equal.
Qed.

Lemma schema_field_categorical (g : Globals) (col : string) (vals : list string) :
  schema_field g col = CategoricalField col vals ↔
  (∃ cats, categorical_columns g = Some cats ∧ col ∈ cats) ∧
  vals = default [] (categorical_values g ≫= (.!! col)).
Proof.
  unfold schema_field. destruct (categorical_columns g) as [[|c cs]|].
  - split; [discriminate|]. intros [(cats & [= <-] & Hin) _]. inversion Hin.
  - case_bool_decide as Hin.
    + split; [intros [= <-]; eauto|]. by intros [_ ->].
    + split; [discriminate|]. by intros [(cats & [= <-] & Hin') _].
  - split; [discriminate|]. by intros [(cats & [=] & _) _].
Qed.

Lemma schema_field_number (g : Globals) (col : string) :
  schema_field g col = NumberField col ↔
  ∀ cats, categorical_columns g = Some cats → col ∉ cats.
Proof.
  unfold schema_field. destruct (categorical_columns g) as [[|c cs]|].
  - split; [|done]. intros _ cats [= <-] Hin. inversion Hin.
  - case_bool_decide as Hin.
    + split; [discriminate|]. intros H. by destruct (H _ eq_refl).
    + split; [|done]. by intros _ cats [= <-].
  - split; [|done]. by intros _ cats [=].
Qed.

(** X8: whenever /schema answers, its fields are the feature columns
    that are loaded after the call, one field per column and in the same
    order, and its target is the loaded target column.  A field is
    categorical exactly when its column is among the loaded categorical
    columns, and then shows the categorical values stored for the column (an
    empty list when none are stored); it is a number field otherwise. *)
Theorem get_schema_fields (w : World) (resp : SchemaResponse) :
  (get_schema w).2 = inr resp →
  let g := globals (get_schema w).1 in
  schema_target resp = target_column g ∧
  feature_columns g = Some (field_name <$> schema_fields resp) ∧
  ∀ f, f ∈ schema_fields resp →
    match f with
    | CategoricalField col vals =>
      (∃ cats, categorical_columns g = Some cats ∧ col ∈ cats) ∧
      vals = default [] (categorical_values g ≫= (.!! col))
    | NumberField col =>
      ∀ cats, categorical_columns g = Some cats → col ∉ cats
    end.
Proof.
  revert resp.
  change (wp get_schema
            (fun w' r => ∀ resp, r = inr resp →
               let g := globals w' in
               schema_target resp = target_column g ∧
               feature_columns g = Some (field_name <$> schema_fields resp) ∧
               ∀ f, f ∈ schema_fields resp →
                 match f with
                 | CategoricalField col vals =>
                   (∃ cats, categorical_columns g = Some cats ∧ col ∈ cats) ∧
                   vals = default [] (categorical_values g ≫= (.!! col))
                 | NumberField col =>
                   ∀ cats, categorical_columns g = Some cats → col ∉ cats
                 end) w).
  assert (Hfields : ∀ g (fc : list string) f, f ∈ schema_field g <$> fc →
            match f with
            | CategoricalField col vals =>
              (∃ cats, categorical_columns g = Some cats ∧ col ∈ cats) ∧
              vals = default [] (categorical_values g ≫= (.!! col))
            | NumberField col =>
              ∀ cats, categorical_columns g = Some cats → col ∉ cats
            end).
  { intros g fc f Hf. apply list_elem_of_fmap in Hf as (c & -> & _).
    pose proof (field_name_schema_field g c) as Hname.
    destruct (schema_field g c) as [col vals|col] eqn:Hfield;
      simpl in Hname; subst col.
    - by apply schema_field_categorical.
    - by apply schema_field_number. }
  unfold get_schema. wp_go; try (intros; discriminate).
  all: intros resp [= <-]; cbn [schema_target schema_fields].
  all: match goal with
       | H : iter ?o = inr ?fc |- _ =>
         destruct o as [fc'|] eqn:Hfc; [|discriminate];
         injection H as ->
       end.
  all: split; [reflexivity|]; split; [by rewrite schema_field_names|].
  all: apply Hfields.
Qed.

(** X9: /schema fails in three ways only, each when no feature columns
    are loaded.  Without a saved model file it answers HTTP 400; with a file
    that cannot be loaded it answers HTTP 500 with the loader's message; in
    both cases the globals stay as they were.  With a saved model that has no
    feature columns it raises a TypeError that is not turned into an HTTP
    error, after the schema globals were taken from the file. *)
Theorem get_schema_failures (w : World) (e : exn) :
  (get_schema w).2 = inl e →
  feature_columns (globals w) = None ∧
  ((disk w !! model_path = None ∧
    e = HTTPException 400 [Text "Schema not available. Train the model first."] ∧
    globals (get_schema w).1 = globals w) ∨
   (is_Some (disk w !! model_path) ∧
    (∀ md, disk w !! model_path ≠ Some (JoblibFile (inr md))) ∧
    (∃ e0, e = HTTPException 500 (Text "Unable to load schema: " :: str_exn e0)) ∧
    globals (get_schema w).1 = globals w) ∨
   (∃ md, disk w !! model_path = Some (JoblibFile (inr md)) ∧
          md_feature_columns md = None ∧
          e = Error TypeError [Text "'NoneType' object is not iterable"] ∧
          globals (get_schema w).1 = load_schema md (globals w))).
Proof.
  revert e.
  change (wp get_schema
            (fun w' r => ∀ e, r = inl e →
               feature_columns (globals w) = None ∧
               ((disk w !! model_path = None ∧
                 e = HTTPException 400
                       [Text "Schema not available. Train the model first."] ∧
                 globals w' = globals w) ∨
                (is_Some (disk w !! model_path) ∧
                 (∀ md, disk w !! model_path ≠ Some (JoblibFile (inr md))) ∧
                 (∃ e0, e = HTTPException 500
                                (Text "Unable to load schema: " :: str_exn e0)) ∧
                 globals w' = globals w) ∨
                (∃ md, disk w !! model_path = Some (JoblibFile (inr md)) ∧
                       md_feature_columns md = None ∧
                       e = Error TypeError [Text "'NoneType' object is not iterable"] ∧
                       globals w' = load_schema md (globals w)))) w).
  unfold get_schema. wp_step. wp_step.
  destruct (feature_columns (globals w)) as [fc|] eqn:Hfc.
  { wp_go; try (intros; discriminate).
    match goal with H : iter _ = inl _ |- _ => by rewrite Hfc in H end. }
  wp_step. wp_step. wp_step.
  destruct (exists_path model_path w) eqn:Hexists; cycle 1.
  { wp_step. intros e [= <-]. split; [done|]. left.
    unfold exists_path in Hexists. apply bool_decide_eq_false in Hexists.
    split; [|done]. by apply eq_None_not_Some. }
  apply bool_decide_eq_true in Hexists.
  wp_step. wp_step. wp_step.
  - wp_step. intros e1 [= <-]. split; [done|]. right. left.
    split_and!; [done | done | by eexists | done].
  - wp_go; try (intros; discriminate).
    intros e1 [= <-]. split; [done|]. right. right. exists md.
    match goal with
    | H : iter _ = inl _ |- _ =>
      cbn in H; destruct (md_feature_columns md) eqn:Hmd; [discriminate|];
      injection H as <-
    end.
    by split_and!.
Qed.

(** X10: after a successful /train call, /schema answers with the target
    of the training response and one field per feature column, in order: a
    number field for each numerical column and, for each categorical column,
    a categorical field that shows the values collected for it; the call
    changes nothing. *)
Theorem schema_after_training (target : option string) (w : World)
    (resp : TrainingResponse) :
  (train_model target w).2 = inr resp →
  let w' := (train_model target w).1 in
  ∃ fields cv,
    get_schema w'
      = (w', inr (mkSchemaResponse (Some (resp_target_column resp)) fields)) ∧
    categorical_values (globals w') = Some cv ∧
    field_name <$> fields = resp_feature_columns resp ∧
    (∀ c, c ∈ resp_numerical_columns resp → NumberField c ∈ fields) ∧
    (∀ c, c ∈ resp_categorical_columns resp →
          ∃ vals, cv !! c = Some vals ∧ CategoricalField c vals ∈ fields).
Proof.
  intros Hrun w'. subst w'. apply train_model_inversion in Hrun
    as (df & features & cv & y & X_train & X_test & y_train & y_test & p0 &
        _ & _ & _ & Hsel & Hdetect & Hcv & _ & _ & _ & _ & Hglobals & _).
  set (w' := (train_model target w).1) in *.
  pose proof Hsel as Hcols. apply select_columns in Hcols.
  rewrite detect_column_types_filter, Hcols in Hdetect.
  injection Hdetect as Hnum Hcat.
  exists (schema_field (globals w') <$> resp_feature_columns resp), cv.
  split.
  { rewrite (get_schema_loaded w' (resp_feature_columns resp))
      by (by rewrite Hglobals).
    by rewrite Hglobals. }
  split; [by rewrite Hglobals|]. split; [apply schema_field_names|]. split.
  - intros c Hc. apply list_elem_of_fmap. exists c. split.
    + symmetry. apply schema_field_number. rewrite Hglobals. simpl.
      intros cats [= <-]. rewrite <- Hnum in Hc. rewrite <- Hcat.
      rewrite !filter_elem_of in *. intros [_ Hneg].
      destruct Hc as [_ Hc]. rewrite Hc in Hneg. discriminate.
    + rewrite <- Hnum in Hc. by apply filter_elem_of in Hc as [Hc _].
  - intros c Hc.
    assert (c ∈ resp_feature_columns resp) as Hfeat
      by (rewrite <- Hcat in Hc; by apply filter_elem_of in Hc as [Hc _]).
    assert (is_Some (cv !! c)) as [vals Hvals].
    { rewrite (collect_values_lookup _ _ _ _ c Hcv).
      rewrite bool_decide_eq_true_2 by done.
      assert (is_Some (getitem df c)) as [s ->]; [|by eexists].
      apply getitem_columns. by eapply select_present. }
    exists vals. split; [done|].
    apply list_elem_of_fmap. exists c. split; [|done].
    symmetry. apply schema_field_categorical. rewrite Hglobals. simpl.
    split; [by eexists|]. by rewrite Hvals.
Qed.

(** X11: loading the schema through /schema does not load the pipeline:
    if no pipeline is loaded before the call, then after it (even when the
    schema was read from a saved model that holds a pipeline) /health still
    reports that no model is loaded, and /predict and /predict-batch still
    refuse every request with the HTTP 400 error of an untrained service. *)
Theorem schema_load_keeps_service_untrained (w : World) :
  pipeline (globals w) = None →
  let w' := (get_schema w).1 in
  let refused :=
    HTTPException 400
      [Text "Model not trained yet. Please train the model first using the /train endpoint."] in
  (health_check w').2 = inr (mkHealth "healthy" false) ∧
  (∀ input_data, (predict_single input_data w').2 = inl refused) ∧
  (∀ file, (predict_batch file w').2 = inl refused).
Proof.
  intros Hp w' refused.
  assert (pipeline (globals w') = None) as Hp'.
  { subst w'. destruct (get_schema_effect w) as [-> | (_ & md & _ & ->)]; done. }
  split_and!.
  - unfold health_check. by rewrite mbind_get_globals, Hp'.
  - intros input_data. unfold predict_single. by rewrite mbind_get_globals, Hp'.
  - intros file. unfold predict_batch. by rewrite mbind_get_globals, Hp'.
Qed.

Lemma exists_path_true (path : string) (w : World) (f : File) :
  disk w !! path = Some f → exists_path path w = true.
Proof.
  intros Hf. unfold exists_path. rewrite Hf. by apply bool_decide_eq_true_2.
Qed.

Lemma exists_path_false (path : string) (w : World) :
  disk w !! path = None → exists_path path w = false.
Proof.
  intros Hf. unfold exists_path. rewrite Hf.
  apply bool_decide_eq_false_2. by intros [f [=]].
Qed.

(** ** Startup and restart *)

Lemma startup_event_loads (w : World) (md : ModelData) :
  disk w !! model_path = Some (JoblibFile (inr md)) →
  globals (startup_event w).1 = load_model md (globals w).
Proof.
  intros Hmd.
  change (wp startup_event (fun w' _ => globals w' = load_model md (globals w)) w).
  unfold startup_event. wp_step. wp_step.
  rewrite (exists_path_true _ _ _ Hmd). wp_step. wp_step. wp_step.
  - by destruct (Hnofile md).
  - wp_step. rewrite Hfile in Hmd. by injection Hmd as <-.
Qed.

(** X12: the startup hook never fails and never writes the disk.  When
    the saved model file loads, the global pipeline, feature columns, target
    column, categorical columns, numerical columns and categorical values
    become the entries of these names in the file, and the global [model]
    is left as it is; when there is no file, or it cannot be loaded, the
    globals stay as they are. *)
Theorem startup_event_outcome (w : World) :
  (startup_event w).2 = inr tt ∧
  disk (startup_event w).1 = disk w ∧
  (∀ md, disk w !! model_path = Some (JoblibFile (inr md)) →
         globals (startup_event w).1 =
           mkGlobals (model (globals w)) (md_pipeline md)
             (md_feature_columns md) (md_target_column md)
             (md_categorical_columns md) (md_numerical_columns md)
             (md_categorical_values md)) ∧
  ((∀ md, disk w !! model_path ≠ Some (JoblibFile (inr md))) →
   globals (startup_event w).1 = globals w).
Proof.
  change (wp startup_event
            (fun w' r =>
               r = inr tt ∧ disk w' = disk w ∧
               (∀ md, disk w !! model_path = Some (JoblibFile (inr md)) →
                      globals w' =
                        mkGlobals (model (globals w)) (md_pipeline md)
                          (md_feature_columns md) (md_target_column md)
                          (md_categorical_columns md) (md_numerical_columns md)
                          (md_categorical_values md)) ∧
               ((∀ md, disk w !! model_path ≠ Some (JoblibFile (inr md))) →
                globals w' = globals w)) w).
  unfold startup_event. wp_step. wp_step.
  destruct (exists_path model_path w) eqn:Hexists; cycle 1.
  { wp_step. split_and!; try done. intros md Hmd.
    unfold exists_path in Hexists. rewrite Hmd in Hexists.
    by apply bool_decide_eq_false in Hexists as []. }
  wp_step. wp_step. wp_step.
  - wp_step. split_and!; try done. intros md Hmd. by destruct (Hnofile md).
  - wp_step. split_and!; try done.
    + intros md' Hmd'. rewrite Hfile in Hmd'. injection Hmd' as <-.
      by destruct w as [[] ? ? ?].
    + intros Hnone. by destruct (Hnone md).
Qed.

Lemma stateless_ret {A : Type} (a : A) : stateless (ret a).
Proof. by intros w1 w2. Qed.

Lemma stateless_mret {A : Type} (a : A) : stateless (mret a : M A).
Proof. by intros w1 w2. Qed.

Lemma stateless_raise {A : Type} (e : exn) : stateless (@raise A e).
Proof. by intros w1 w2. Qed.

Lemma stateless_reraise {A : Type} (e : exn) : stateless (@reraise A e).
Proof. by intros w1 w2. Qed.

Lemma stateless_lift {A : Type} (r : result A) : stateless (lift r).
Proof. by destruct r; intros w1 w2. Qed.

Lemma stateless_bind {A B : Type} (m : M A) (f : A → M B) :
  stateless m → (∀ a, stateless (f a)) → stateless (m ≫= f).
Proof.
  intros Hm Hf w1 w2. unfold mbind, M_bind, bind.
  specialize (Hm w1 w2).
  destruct (m w1) as [w1' [e1|a1]], (m w2) as [w2' [e2|a2]];
    simpl in Hm; simplify_eq; [done | apply Hf].
Qed.

Lemma stateless_try_except {A : Type} (m : M A) (h : exn → M A) :
  stateless m → (∀ e, stateless (h e)) → stateless (try_except m h).
Proof.
  intros Hm Hh w1 w2. unfold try_except.
  specialize (Hm w1 w2).
  destruct (m w1) as [w1' [e1|a1]], (m w2) as [w2' [e2|a2]];
    simpl in Hm; simplify_eq; [apply Hh | done].
Qed.

Lemma stateless_http_errors {A : Type} (prefix : string) (m : M A) :
  stateless m → stateless (http_errors prefix m).
Proof.
  intros Hm. apply stateless_try_except; [done|].
  intros e. destruct (is_http e); [apply stateless_reraise | apply stateless_raise].
Qed.

Lemma stateless_validation_handler (detail : result fstring) (e : exn) :
  stateless (validation_handler detail e).
Proof.
  destruct e as [status d|[] msg]; try apply stateless_reraise;
    (apply stateless_bind; [apply stateless_lift | intros; apply stateless_raise]).
Qed.

Lemma stateless_coerce_loop detail (todo : list string) (df : DataFrame) :
  stateless (coerce_loop detail todo df).
Proof.
  revert df. induction todo as [|col rest IH]; intros df; simpl.
  - apply stateless_ret.
  - case_bool_decide; [|apply IH].
    apply stateless_bind; [|apply IH].
    apply stateless_try_except; [|apply stateless_validation_handler].
    destruct (getitem df col); [|apply stateless_raise].
    apply stateless_bind; [apply stateless_lift | intros; apply stateless_lift].
Qed.

Lemma stateless_coerce_numerical detail (numerical : option (list string))
    (df : DataFrame) :
  stateless (coerce_numerical detail numerical df).
Proof.
  destruct numerical; [apply stateless_coerce_loop | apply stateless_ret].
Qed.

Ltac stateless_step :=
  first
    [ apply stateless_ret | apply stateless_mret | apply stateless_raise
    | apply stateless_reraise | apply stateless_lift
    | apply stateless_coerce_numerical | apply stateless_http_errors
    | apply stateless_bind | apply stateless_try_except
    | progress intros | case_match ].

(** The outcome of /predict is a function of the request and of three
    globals: the pipeline, the feature columns and the numerical columns. *)
Lemma predict_single_reads (input_data : list (string * Json)) (w1 w2 : World) :
  pipeline (globals w1) = pipeline (globals w2) →
  feature_columns (globals w1) = feature_columns (globals w2) →
  numerical_columns (globals w1) = numerical_columns (globals w2) →
  (predict_single input_data w1).2 = (predict_single input_data w2).2.
Proof.
  intros Hp Hfc Hnc. unfold predict_single.
  rewrite !mbind_get_globals, Hp, Hfc, Hnc.
  generalize (globals w2). intros g.
  match goal with
  | |- (?m w1).2 = (_ w2).2 => cut (stateless m); [intros Hs; apply Hs|]
  end.
  repeat stateless_step.
Qed.

Lemma predict_batch_reads (file : UploadFile) (w1 w2 : World) :
  pipeline (globals w1) = pipeline (globals w2) →
  feature_columns (globals w1) = feature_columns (globals w2) →
  numerical_columns (globals w1) = numerical_columns (globals w2) →
  (predict_batch file w1).2 = (predict_batch file w2).2.
Proof.
  intros Hp Hfc Hnc. unfold predict_batch.
  rewrite !mbind_get_globals, Hp, Hfc, Hnc.
  generalize (globals w2). intros g.
  match goal with
  | |- (?m w1).2 = (_ w2).2 => cut (stateless m); [intros Hs; apply Hs|]
  end.
  repeat stateless_step.
Qed.

(** X13: the saved model restores the service.  After a successful
    /train call, a process that starts anew on the same disk has, once its
    startup hook has run, the globals of the process that trained, except
    [model], which stays unset; it answers every /predict and /predict-batch
    request and /schema with the same outcome as the process that trained. *)
Theorem restart_restores_service (target : option string) (w : World)
    (resp : TrainingResponse) :
  (train_model target w).2 = inr resp →
  let w' := (train_model target w).1 in
  let w2 := (startup_event (restarted w')).1 in
  globals w2 = with_model None (globals w') ∧
  (∀ input_data, (predict_single input_data w2).2 = (predict_single input_data w').2) ∧
  (∀ file, (predict_batch file w2).2 = (predict_batch file w').2) ∧
  (get_schema w2).2 = (get_schema w').2.
Proof.
  intros Hrun w' w2. subst w' w2. apply train_model_inversion in Hrun
    as (df & features & cv & y & X_train & X_test & y_train & y_test & p0 &
        _ & _ & _ & _ & _ & _ & _ & _ & _ & _ & Hglobals & Hdisk & _).
  set (w' := (train_model target w).1) in *.
  assert (Hg : globals (startup_event (restarted w')).1
               = with_model None (globals w')).
  { erewrite startup_event_loads; [|simpl; rewrite Hdisk; apply lookup_insert_eq].
    by rewrite Hglobals. }
  split; [exact Hg|]. split_and!.
  - intros input_data. apply predict_single_reads; by rewrite Hg.
  - intros file. apply predict_batch_reads; by rewrite Hg.
  - rewrite (get_schema_loaded _ (resp_feature_columns resp))
      by (by rewrite Hg, Hglobals).
    rewrite (get_schema_loaded w' (resp_feature_columns resp))
      by (by rewrite Hglobals).
    by rewrite Hg, Hglobals.
Qed.

(** ** Failed training *)

(** X14: a /train call that fails writes no file and leaves the global
    [model] as it was: the saved model and the model reference change only
    when the whole handler succeeds. *)
Theorem failed_training_writes_nothing (target : option string) (w : World)
    (e : exn) :
  (train_model target w).2 = inl e →
  disk (train_model target w).1 = disk w ∧
  writable (train_model target w).1 = writable w ∧
  model (globals (train_model target w).1) = model (globals w).
Proof.
  revert e.
  change (wp (train_model target)
            (fun w' r => ∀ e, r = inl e →
               disk w' = disk w ∧ writable w' = writable w ∧
               model (globals w') = model (globals w)) w).
  unfold train_model. wp_go;
    try match goal with |- context [is_http ?e] => destruct (is_http e) end;
    try (intros; discriminate); intros; by split_and!.
Qed.

Lemma wp_eq {A : Type} (m : M A) (w : World) (x : World * result A) :
  wp m (fun w' r => (w', r) = x) w → m w = x.
Proof. unfold wp. by destruct (m w). Qed.

Lemma first_candidate_error (df : DataFrame) (candidates : list string) (e : exn) :
  first_candidate df candidates = inl e → ∃ msg, e = Error ValueError msg.
Proof.
  induction candidates as [|c l IH]; simpl.
  - intros [= <-]. eauto.
  - case_bool_decide; [discriminate | exact IH].
Qed.

Lemma detect_target_column_error (df : DataFrame) (target : option string)
    (e : exn) :
  detect_target_column df target = inl e → ∃ msg, e = Error ValueError msg.
Proof.
  unfold detect_target_column. destruct (truthy target).
  - case_bool_decide; [discriminate|]. intros [= <-]. eauto.
  - apply first_candidate_error.
Qed.

Lemma first_candidate_column (df : DataFrame) (candidates : list string)
    (c : string) :
  first_candidate df candidates = inr c → c ∈ columns df.
Proof.
  induction candidates as [|x l IH]; simpl; [discriminate|].
  case_bool_decide; [by intros [= <-] | exact IH].
Qed.

Lemma detect_target_column_column (df : DataFrame) (target : option string)
    (tc : string) :
  detect_target_column df target = inr tc → tc ∈ columns df.
Proof.
  unfold detect_target_column. destruct (truthy target).
  - case_bool_decide; [by intros [= <-] | discriminate].
  - apply first_candidate_column.
Qed.

Lemma collect_values_total (df : DataFrame) (cats : list string)
    (acc : gmap string (list string)) :
  (∀ c, c ∈ cats → c ∈ columns df) →
  ∃ cv, collect_values df cats acc = inr cv.
Proof.
  revert acc. induction cats as [|c l IH]; intros acc Hall; simpl; [eauto|].
  destruct (proj1 (getitem_columns df c)) as [s ->]; [apply Hall; left|].
  apply IH. intros c' Hc'. apply Hall. by right.
Qed.

(** Walks a handler whose calls have known outcomes. *)
Ltac wp_known :=
  repeat first
    [ match goal with
      | H : ?r = _ |- wp (lift ?r) _ _ => rewrite H
      | H : ?x = _ |- wp (let '(_, _) := ?x in _) _ _ => rewrite H
      | H : ?b = _ |- wp (if negb ?b then _ else _) _ _ => rewrite H; simpl negb
      end; cbv beta iota
    | lazymatch goal with
      | |- wp (lift (inr _)) _ _ => apply wp_lift_inr
      | |- wp (lift (inl _)) _ _ => apply wp_lift_inl
      | |- wp (lift _) _ _ => fail
      | |- wp (read_csv _) _ _ => fail
      | |- wp (joblib_load _) _ _ => fail
      | |- wp (joblib_dump _ _) _ _ => fail
      | |- _ => wp_step
      end; cbv beta iota ].

Lemma wp_read_csv_known (path : string) (df : DataFrame) Q w :
  disk w !! path = Some (CsvFile (inr df)) →
  Q w (inr df) → wp (read_csv path) Q w.
Proof. intros Hfile HQ. unfold wp, read_csv. by rewrite Hfile. Qed.

(** X15: the two early failures of /train change nothing but the log of
    raised exceptions.  Without the data file the handler fails with the
    HTTP 404 error, whatever the target parameter; with a data file in which
    no target column is found, it fails with an HTTP 500 error whose detail
    is the prefix followed by the message of the detector's ValueError.  In
    both cases the globals and the disk are as before. *)
Theorem train_model_early_failures (target : option string) (w : World) :
  (disk w !! data_path = None →
   let h := HTTPException 404
              [Text "Data file not found. Please ensure data/Churn_Modelling.csv exists."] in
   train_model target w = (log_raise h w, inl h)) ∧
  (∀ df e, disk w !! data_path = Some (CsvFile (inr df)) →
     detect_target_column df target = inl e →
     ∃ msg, e = Error ValueError msg ∧
       let h := HTTPException 500 (Text "Training error: " :: msg) in
       train_model target w = (log_raise h (log_raise e w), inl h)).
Proof.
  split.
  - intros Hdata h. apply wp_eq. unfold train_model.
    pose proof (exists_path_false _ _ Hdata) as Hexists.
    wp_known. simpl. reflexivity.
  - intros df e Hdata Htarget.
    destruct (detect_target_column_error _ _ _ Htarget) as [msg ->].
    exists msg. split; [done|]. intros h. apply wp_eq. unfold train_model.
    pose proof (exists_path_true _ _ _ Hdata) as Hexists.
    wp_known. apply (wp_read_csv_known _ df); [done|]. wp_known.
    simpl. reflexivity.
Qed.

Lemma train_inputs_total (df features : DataFrame) (tc : string)
    (target : option string) :
  detect_target_column df target = inr tc →
  select df (List.filter (is_feature tc) (columns df)) = inr features →
  (∃ y, getitem_or_raise df tc = inr y) ∧
  (∃ cv, collect_values df (detect_column_types features).2 ∅ = inr cv).
Proof.
  intros Htarget Hselect. split.
  - apply detect_target_column_column in Htarget.
    apply getitem_columns in Htarget as [y Hy].
    exists y. unfold getitem_or_raise. by rewrite Hy.
  - apply collect_values_total. intros c Hc.
    rewrite detect_column_types_filter in Hc. simpl in Hc.
    apply filter_elem_of in Hc as [Hc _].
    rewrite (select_columns _ _ _ Hselect) in Hc.
    by apply filter_elem_of in Hc as [Hc _].
Qed.

(** X16: a /train call whose [pipeline.fit] raises leaves the service
    with the new, unfitted pipeline: the failure is the HTTP error of the
    handler, the global [pipeline] is the pipeline just created, whose fit did
    not complete, the target and feature columns are those of the failed run, the
    global [model] is as before, and /health reports a loaded model. *)
Theorem failed_fit_leaves_unfitted_pipeline (target : option string) (w : World)
    (df features : DataFrame) (tc : string) (y : Series)
    (X_train X_test : DataFrame) (y_train y_test : Series) (p0 : Pipeline)
    (e : exn) :
  disk w !! data_path = Some (CsvFile (inr df)) →
  detect_target_column df target = inr tc →
  select df (List.filter (is_feature tc) (columns df)) = inr features →
  getitem df tc = Some y →
  train_test_split features y = inr (X_train, X_test, y_train, y_test) →
  create_pipeline (detect_column_types features).2 (detect_column_types features).1
    = inr p0 →
  fit p0 X_train y_train = inl e →
  let w' := (train_model target w).1 in
  (train_model target w).2
    = inl (if is_http e then e
           else HTTPException 500 (Text "Training error: " :: str_exn e)) ∧
  pipeline (globals w') = Some p0 ∧
  fitted_on p0 = None ∧
  model (globals w') = model (globals w) ∧
  target_column (globals w') = Some tc ∧
  feature_columns (globals w') = Some (List.filter (is_feature tc) (columns df)) ∧
  (health_check w').2 = inr (mkHealth "healthy" true).
Proof.
  intros Hdata Htarget Hselect Hy Hsplit Hcreate Hfit w'. subst w'.
  destruct (train_inputs_total _ _ _ _ Htarget Hselect) as [[y' Hy'] [cv Hcv]].
  assert (y' = y) as ->
    by (unfold getitem_or_raise in Hy'; rewrite Hy in Hy'; by injection Hy').
  assert (Hfitted : fitted_on p0 = None)
    by (by apply create_pipeline_inr in Hcreate as [? ?]).
  change (wp (train_model target)
            (fun w' r =>
               r = inl (if is_http e then e
                        else HTTPException 500 (Text "Training error: " :: str_exn e)) ∧
               pipeline (globals w') = Some p0 ∧
               fitted_on p0 = None ∧
               model (globals w') = model (globals w) ∧
               target_column (globals w') = Some tc ∧
               feature_columns (globals w')
                 = Some (List.filter (is_feature tc) (columns df)) ∧
               (health_check w').2 = inr (mkHealth "healthy" true)) w).
  unfold train_model.
  pose proof (exists_path_true _ _ _ Hdata) as Hexists.
  wp_known. apply (wp_read_csv_known _ df); [done|]. wp_known.
  destruct (detect_column_types features) as [num cat] eqn:Htypes.
  simpl in Hcv, Hcreate. wp_known.
  destruct (is_http e); by split_and!.
Qed.

(** X17: a dataset in which every column is the target or has a name
    that ends in id, in any case, cannot be trained on: /train fails and
    leaves the global [pipeline] as it was; when the split of the data
    succeeds, the failure is the HTTP 500 error that reports that no
    features were found. *)
Theorem train_model_needs_a_feature (target : option string) (w : World)
    (df : DataFrame) (tc : string) :
  disk w !! data_path = Some (CsvFile (inr df)) →
  detect_target_column df target = inr tc →
  (∀ c, c ∈ columns df → c = tc ∨ endswith (lower c) "id" = true) →
  (∃ e, (train_model target w).2 = inl e) ∧
  pipeline (globals (train_model target w).1) = pipeline (globals w) ∧
  (∀ y r, getitem df tc = Some y →
          train_test_split (mkFrame (nrows df) []) y = inr r →
          (train_model target w).2
          = inl (HTTPException 500
                   [Text "Training error: ";
                    Text "No features found for preprocessing"])).
Proof.
  intros Hdata Htarget Hnone.
  assert (Hfc : List.filter (is_feature tc) (columns df) = []).
  { destruct (List.filter (is_feature tc) (columns df)) as [|c l] eqn:Hfilter;
      [done|].
    assert (Hc : c ∈ List.filter (is_feature tc) (columns df))
      by (rewrite Hfilter; left).
    apply filter_elem_of in Hc as [Hc Hfeature].
    apply is_feature_spec in Hfeature as [Hne Hid].
    destruct (Hnone c Hc) as [-> | Hid']; [done | congruence]. }
  change (wp (train_model target)
            (fun w' r =>
               (∃ e, r = inl e) ∧
               pipeline (globals w') = pipeline (globals w) ∧
               (∀ y r', getitem df tc = Some y →
                  train_test_split (mkFrame (nrows df) []) y = inr r' →
                  r = inl (HTTPException 500
                             [Text "Training error: ";
                              Text "No features found for preprocessing"]))) w).
  unfold train_model.
  pose proof (exists_path_true _ _ _ Hdata) as Hexists.
  wp_known. apply (wp_read_csv_known _ df); [done|]. wp_known.
  rewrite Hfc. change (select df []) with (inr (A := exn) (mkFrame (nrows df) [])).
  wp_known.
  change (detect_column_types (mkFrame (nrows df) []))
    with (@nil string, @nil string).
  cbv beta iota. wp_known. simpl collect_values. wp_known.
  apply detect_target_column_column, getitem_columns in Htarget as [y Hy].
  assert (Hy2 : getitem_or_raise df tc = inr y)
    by (unfold getitem_or_raise; by rewrite Hy).
  wp_known. wp_step.
  - match goal with |- context [is_http ?e] => destruct (is_http e) end;
      (split_and!; [by eexists | done |]);
      intros y' r' Hy' Hr'; rewrite Hy in Hy'; injection Hy' as <-; congruence.
  - destruct a as [[[X_train X_test] y_train] y_test]. wp_known.
    change (create_pipeline [] [])
      with (inl (B := Pipeline)
              (Error ValueError [Text "No features found for preprocessing"])).
    wp_known. simpl. split_and!; [by eexists | done | done].
Qed.

(** ** What the inference endpoints read and pass on *)

(** X18: /predict reads a request only through the values it gives to
    the feature columns: two records that give every feature column the same
    value, in whatever order of their keys and with whatever other keys, get
    the same answer and leave the same state. *)
Theorem predict_single_reads_feature_values
    (input1 input2 : list (string * Json)) (w : World) (fc : list string) :
  feature_columns (globals w) = Some fc →
  (∀ c, c ∈ fc → c ∈ input1.*1) →
  (∀ c, c ∈ fc → assoc c input2 = assoc c input1) →
  predict_single input2 w = predict_single input1 w.
Proof.
  intros Hfc Hall Hsame.
  assert (Hget : ∀ c, c ∈ fc →
            getitem (frame_of_record input2) c = getitem (frame_of_record input1) c).
  { intros c Hc. rewrite !getitem_frame_of_record. by rewrite Hsame. }
  assert (Hall1 : ∀ c, c ∈ fc → c ∈ columns (frame_of_record input1))
    by (intros c Hc; rewrite columns_frame_of_record; auto).
  assert (Hall2 : ∀ c, c ∈ fc → c ∈ columns (frame_of_record input2)).
  { intros c Hc. apply getitem_columns. rewrite (Hget c Hc).
    by apply getitem_columns, Hall1. }
  unfold predict_single. rewrite !mbind_get_globals.
  destruct (pipeline (globals w)) as [p|]; [|done].
  apply http_errors_ext. rewrite Hfc. simpl iter. rewrite !mbind_lift_inr.
  rewrite !bool_decide_eq_false_2
    by (intros Hne; apply Hne; by apply set_diff_empty).
  by rewrite (select_ext (frame_of_record input1) (frame_of_record input2)).
Qed.

Lemma wp_intro {A : Type} (m : M A) (Q : World → result A → Prop) (w : World) :
  (∀ w' r, m w = (w', r) → Q w' r) → wp m Q w.
Proof. intros H. unfold wp. apply H. by destruct (m w). Qed.

(** The calls of a /predict request that is answered. *)
Lemma predict_single_inversion (input_data : list (string * Json)) (w : World) :
  ∀ resp, (predict_single input_data w).2 = inr resp →
    ∃ p fc sel df' preds pred probas,
      pipeline (globals w) = Some p ∧
      feature_columns (globals w) = Some fc ∧
      select (frame_of_record input_data) fc = inr sel ∧
      (coerce_numerical single_detail (numerical_columns (globals w)) sel w).2
        = inr df' ∧
      predict p df' = inr preds ∧ first (values preds) = inr pred ∧
      predict_proba1 p df' = inr probas ∧
      first probas = inr (probability resp) ∧
      py_int pred = inr (prediction resp).
Proof.
  change (wp (predict_single input_data)
            (fun _ r => ∀ resp, r = inr resp →
               ∃ p fc sel df' preds pred probas,
                 pipeline (globals w) = Some p ∧
                 feature_columns (globals w) = Some fc ∧
                 select (frame_of_record input_data) fc = inr sel ∧
                 (coerce_numerical single_detail (numerical_columns (globals w))
                    sel w).2 = inr df' ∧
                 predict p df' = inr preds ∧ first (values preds) = inr pred ∧
                 predict_proba1 p df' = inr probas ∧
                 first probas = inr (probability resp) ∧
                 py_int pred = inr (prediction resp)) w).
  unfold predict_single. wp_go; try wp_failed.
  destruct (feature_columns (globals w)) as [fc|] eqn:Hfc; [|discriminate].
  match goal with H : iter _ = inr _ |- _ => injection H as <- end.
  apply wp_intro. intros w' [e|df'] Hrun; [wp_failed|].
  apply (f_equal snd) in Hrun. simpl in Hrun.
  wp_go; try wp_failed.
  intros resp [= <-]. simpl. by eexists _, _, _, _, _, _, _.
Qed.

(** The calls of a /predict-batch request that is answered. *)
Lemma predict_batch_inversion (file : UploadFile) (w : World) :
  ∀ resp, (predict_batch file w).2 = inr resp →
    ∃ p fc df sel df' preds probas df1,
      pipeline (globals w) = Some p ∧
      feature_columns (globals w) = Some fc ∧
      endswith (filename file) ".csv" = true ∧
      content file = inr df ∧
      select df fc = inr sel ∧
      (coerce_numerical batch_detail (numerical_columns (globals w)) sel w).2
        = inr df' ∧
      predict p df' = inr preds ∧
      predict_proba1 p df' = inr probas ∧
      setitem df "Prediction" preds = inr df1 ∧
      setitem df1 "Probability" (mkSeries float64 (CFloat <$> probas))
        = inr (body resp) ∧
      content_disposition resp = attachment (filename file).
Proof.
  change (wp (predict_batch file)
            (fun _ r => ∀ resp, r = inr resp →
               ∃ p fc df sel df' preds probas df1,
                 pipeline (globals w) = Some p ∧
                 feature_columns (globals w) = Some fc ∧
                 endswith (filename file) ".csv" = true ∧
                 content file = inr df ∧
                 select df fc = inr sel ∧
                 (coerce_numerical batch_detail (numerical_columns (globals w))
                    sel w).2 = inr df' ∧
                 predict p df' = inr preds ∧
                 predict_proba1 p df' = inr probas ∧
                 setitem df "Prediction" preds = inr df1 ∧
                 setitem df1 "Probability" (mkSeries float64 (CFloat <$> probas))
                   = inr (body resp) ∧
                 content_disposition resp = attachment (filename file)) w).
  unfold predict_batch. wp_go; try wp_failed.
  destruct (feature_columns (globals w)) as [fc|] eqn:Hfc; [|discriminate].
  match goal with H : iter _ = inr _ |- _ => injection H as <- end.
  match goal with H : negb _ = false |- _ => apply negb_false_iff in H end.
  apply wp_intro. intros w' [e|df'] Hrun; [wp_failed|].
  apply (f_equal snd) in Hrun. simpl in Hrun.
  wp_go; try wp_failed.
  intros resp [= <-]. simpl. by eexists _, _, _, _, _, _, _, _.
Qed.

Lemma coerce_numerical_single_coerced (nc : option (list string))
    (df df' : DataFrame) (w : World) :
  one_row df →
  (coerce_numerical single_detail nc df w).2 = inr df' →
  coerced (default [] nc) df df'.
Proof.
  intros Hrow. revert df'.
  change (wp (coerce_numerical single_detail nc df)
            (fun _ r => ∀ df', r = inr df' → coerced (default [] nc) df df') w).
  apply (wp_coerce_numerical single_detail one_row); try done.
  - intros. by apply one_row_single_detail.
  - intros. by eapply one_row_setitem.
  - by intros df' _ Hc df'' [= <-].
Qed.

Lemma coerce_numerical_batch_coerced (nc : option (list string))
    (df df' : DataFrame) (w : World) :
  (coerce_numerical batch_detail nc df w).2 = inr df' →
  coerced (default [] nc) df df'.
Proof.
  revert df'.
  change (wp (coerce_numerical batch_detail nc df)
            (fun _ r => ∀ df', r = inr df' → coerced (default [] nc) df df') w).
  apply (wp_coerce_numerical batch_detail (fun _ => True)); try done.
  - apply batch_detail_total.
  - by intros df' _ Hc df'' [= <-].
Qed.

Lemma coerced_columns (todo : list string) (sel df' : DataFrame) (fc : list string)
    (df : DataFrame) :
  select df fc = inr sel → coerced todo sel df' →
  columns df' = fc ∧ nrows df' = nrows df ∧
  ∀ c, c ∈ fc → c ∉ todo → getitem df' c = getitem df c.
Proof.
  intros Hsel (Hcols & Hrows & Hrel).
  pose proof (select_columns _ _ _ Hsel) as Hfc.
  split; [congruence|]. split.
  - rewrite Hrows. rewrite select_total in Hsel by (by eapply select_present).
    by injection Hsel as <-.
  - intros c Hc Hnot. rewrite <- Hfc in Hc. specialize (Hrel c Hc).
    rewrite bool_decide_eq_false_2 in Hrel by done.
    rewrite Hrel. apply (select_getitem _ _ _ _ Hsel). by rewrite <- Hfc.
Qed.

(** X19: the frame a prediction is computed on.  When /predict or
    /predict-batch answers, the pipeline was called on a frame that has
    exactly the feature columns, in the order of the schema, and the rows of
    the request (one for /predict); each feature column that is not a
    numerical column is passed as it was sent. *)
Theorem pipeline_input_frame :
  (∀ input_data w resp,
     (predict_single input_data w).2 = inr resp →
     ∃ p fc df' preds pred,
       pipeline (globals w) = Some p ∧
       feature_columns (globals w) = Some fc ∧
       columns df' = fc ∧ nrows df' = 1%nat ∧
       (∀ c, c ∈ fc → c ∉ default [] (numerical_columns (globals w)) →
             getitem df' c = series_of_json <$> assoc c input_data) ∧
       predict p df' = inr preds ∧ first (values preds) = inr pred ∧
       py_int pred = inr (prediction resp)) ∧
  (∀ file w resp,
     (predict_batch file w).2 = inr resp →
     ∃ p fc df df' preds,
       pipeline (globals w) = Some p ∧
       feature_columns (globals w) = Some fc ∧
       content file = inr df ∧
       columns df' = fc ∧ nrows df' = nrows df ∧
       (∀ c, c ∈ fc → c ∉ default [] (numerical_columns (globals w)) →
             getitem df' c = getitem df c) ∧
       predict p df' = inr preds ∧
       getitem (body resp) "Prediction" = Some preds).
Proof.
  split.
  - intros input_data w resp Hrun.
    apply predict_single_inversion in Hrun
      as (p & fc & sel & df' & preds & pred & probas &
          Hp & Hfc & Hsel & Hcoerce & Hpred & Hfirst & _ & _ & Hint).
    apply coerce_numerical_single_coerced in Hcoerce;
      [|eapply one_row_select; [exact Hsel | apply one_row_frame_of_record]].
    destruct (coerced_columns _ _ _ _ _ Hsel Hcoerce) as (Hcols & Hrows & Hget).
    exists p, fc, df', preds, pred. split_and!; try done.
    intros c Hc Hnot. by rewrite Hget, getitem_frame_of_record.
  - intros file w resp Hrun.
    apply predict_batch_inversion in Hrun
      as (p & fc & df & sel & df' & preds & probas & df1 &
          Hp & Hfc & _ & Hcontent & Hsel & Hcoerce & Hpred & _ & Hset1 & Hset2 & _).
    apply coerce_numerical_batch_coerced in Hcoerce.
    destruct (coerced_columns _ _ _ _ _ Hsel Hcoerce) as (Hcols & Hrows & Hget).
    exists p, fc, df, df', preds. split_and!; try done.
    rewrite (setitem_getitem _ _ _ _ _ Hset2), (setitem_getitem _ _ _ _ _ Hset1).
    by repeat case_decide.
Qed.

Lemma coerce_loop_detail (d1 d2 : string → DataFrame → result fstring)
    (todo : list string) (df df' : DataFrame) (w1 w2 : World) :
  (coerce_loop d1 todo df w1).2 = inr df' →
  (coerce_loop d2 todo df w2).2 = inr df'.
Proof.
  revert df w1 w2. induction todo as [|col rest IH]; intros df w1 w2; simpl.
  - done.
  - case_bool_decide; [|apply IH].
    unfold mbind, M_bind, bind, try_except.
    destruct (getitem df col) as [s|]; simpl.
    + unfold lift. destruct (to_numeric s) as [e|s']; simpl.
      * destruct e as [st d|[] msg]; simpl; try discriminate;
          unfold mbind, M_bind, bind, lift;
          destruct (d1 col df); simpl; discriminate.
      * destruct (setitem df col s') as [e|df1]; simpl; [|apply IH].
        destruct e as [st d|[] msg]; simpl; try discriminate;
          unfold mbind, M_bind, bind, lift;
          destruct (d1 col df); simpl; discriminate.
    + discriminate.
Qed.

(** X20: /predict-batch agrees with /predict.  When an upload whose
    frame is the frame of one JSON record is answered, and /predict answers
    that record, the Prediction column of the download holds the one value
    whose integer /predict returns, and the Probability column holds the
    probability /predict returns. *)
Theorem batch_agrees_with_single (input_data : list (string * Json))
    (file : UploadFile) (w : World) (resp_s : PredictionResponse)
    (resp_b : StreamingResponse) :
  content file = inr (frame_of_record input_data) →
  (predict_single input_data w).2 = inr resp_s →
  (predict_batch file w).2 = inr resp_b →
  (∃ dt pred, getitem (body resp_b) "Prediction" = Some (mkSeries dt [pred]) ∧
              py_int pred = inr (prediction resp_s)) ∧
  getitem (body resp_b) "Probability"
    = Some (mkSeries float64 [CFloat (probability resp_s)]).
Proof.
  intros Hcontent Hsingle Hbatch.
  apply predict_single_inversion in Hsingle
    as (p & fc & sel & df' & preds & pred & probas &
        Hp & Hfc & Hsel & Hcoerce & Hpred & Hfirst & Hproba & Hfirst' & Hint).
  apply predict_batch_inversion in Hbatch
    as (p2 & fc2 & df & sel2 & df2 & preds2 & probas2 & df1 &
        Hp2 & Hfc2 & _ & Hcontent2 & Hsel2 & Hcoerce2 & Hpred2 & Hproba2 &
        Hset1 & Hset2 & _).
  rewrite Hp in Hp2. injection Hp2 as <-.
  rewrite Hfc in Hfc2. injection Hfc2 as <-.
  rewrite Hcontent in Hcontent2. injection Hcontent2 as <-.
  rewrite Hsel in Hsel2. injection Hsel2 as <-.
  assert (df2 = df') as ->.
  { destruct (numerical_columns (globals w)) as [nc|]; simpl in *.
    - apply (coerce_loop_detail _ batch_detail _ _ _ _ w) in Hcoerce. congruence.
    - congruence. }
  rewrite Hpred in Hpred2. injection Hpred2 as <-.
  rewrite Hproba in Hproba2. injection Hproba2 as <-.
  rewrite !(setitem_getitem _ _ _ _ _ Hset2), !(setitem_getitem _ _ _ _ _ Hset1).
  repeat case_decide; try done.
  unfold setitem in Hset1, Hset2.
  repeat case_decide; try discriminate.
  injection Hset1 as <-. simpl in *.
  destruct preds as [dt [|v [|v' vs]]]; simpl in *; try done.
  destruct probas as [|x [|x' xs]]; simpl in *; try done.
  injection Hfirst as ->. injection Hfirst' as ->.
  split; [by exists dt, pred | done].
Qed.

(** ** What training reads *)

Lemma wp_read_csv_lookup (path : string) (o : option File) Q w :
  disk w !! path = o →
  wp (match o with
      | Some (CsvFile r) => lift r
      | Some (JoblibFile _) => raise unreadable
      | None => raise (Error OSError [Text "No such file or directory: "; Text path])
      end) Q w →
  wp (read_csv path) Q w.
Proof. intros <-. unfold wp, read_csv. by destruct (disk w !! path) as [[]|]. Qed.

Lemma wp_joblib_dump_writable (data : ModelData) (path : string) (b : bool) Q w :
  writable w = b →
  (if b then Q (write_file path (JoblibFile (inr data)) w) (inr tt)
   else let e := Error OSError [Text "Permission denied: "; Text path] in
        Q (log_raise e w) (inl e)) →
  wp (joblib_dump data path) Q w.
Proof. intros <-. unfold wp, joblib_dump, write_file. by destruct (writable w). Qed.

(** Walks a handler, splitting on the outcome of a call only when it is
    not known yet. *)
Ltac wp_det :=
  repeat first
    [ match goal with
      | H : ?r = _ |- wp (lift ?r) _ _ => rewrite H
      | H : ?x = _ |- wp (let '(_, _) := ?x in _) _ _ => rewrite H
      | H : ?b = _ |- wp (if negb ?b then _ else _) _ _ => rewrite H; simpl negb
      | H : disk ?w !! ?path = _ |- wp (read_csv ?path) _ ?w =>
        apply (wp_read_csv_lookup _ _ _ _ H)
      | H : writable ?w = ?b |- wp (joblib_dump _ _) _ _ =>
        apply (wp_joblib_dump_writable _ _ b); [exact H|]
      end; cbv beta iota zeta
    | lazymatch goal with
      | |- wp (read_csv _) _ _ => fail
      | |- wp (joblib_dump _ _) _ _ => fail
      | |- _ => wp_step
      end
    | match goal with
      | |- wp (let '(_, _) := ?x in _) _ _ => destruct x eqn:?
      end ].

Lemma train_model_reads_aux (target : option string)
    (w1 w2 : World) :
  disk w1 !! data_path = disk w2 !! data_path →
  writable w1 = writable w2 →
  (train_model target w1).2 = (train_model target w2).2 ∧
  (∀ resp, (train_model target w1).2 = inr resp →
     globals (train_model target w1).1 = globals (train_model target w2).1 ∧
     disk (train_model target w1).1 !! model_path
     = disk (train_model target w2).1 !! model_path).
Proof.
  intros Hdisk Hwritable.
  set (Q := fun (w1' : World) (r1 : result TrainingResponse) =>
         wp (train_model target)
            (fun w2' r2 =>
               r1 = r2 ∧
               (∀ resp : TrainingResponse, r1 = inr resp →
                  globals w1' = globals w2' ∧
                  disk w1' !! model_path = disk w2' !! model_path)) w2).
  change (wp (train_model target) Q w1).
  destruct (disk w1 !! data_path) as [file|] eqn:Hdata1; symmetry in Hdisk.
  - pose proof (exists_path_true _ _ _ Hdata1) as Hexists1.
    pose proof (exists_path_true _ _ _ Hdisk) as Hexists2.
    destruct (writable w1) eqn:Hwritable1; symmetry in Hwritable.
    all: unfold train_model; wp_det.
    all: destruct file as [[e0|df]|r]; wp_det.
    all: try match goal with |- context [is_http ?e] => destruct (is_http e) eqn:? end.
    all: subst Q; cbv beta; unfold train_model; wp_det.
    all: try match goal with
             | H : is_http ?e = _ |- context [is_http ?e] => rewrite H
             end.
    all: simpl; split; [reflexivity|]; try (intros; discriminate).
    all: intros resp _; split; [reflexivity|].
    all: by rewrite !lookup_insert_eq.
  - pose proof (exists_path_false _ _ Hdata1) as Hexists1.
    pose proof (exists_path_false _ _ Hdisk) as Hexists2.
    unfold train_model. wp_det. cbn [is_http]. subst Q. cbv beta.
    unfold train_model. wp_det.
    simpl. split; [reflexivity | intros; discriminate].
Qed.

(** X21: /train reads nothing but the data file and whether the model
    file can be written.  From two states that agree on these, whatever
    their globals and their other files, the call has the same outcome: the
    same response or the same error; and when it succeeds it leaves the same
    globals and the same saved model. *)
Theorem train_model_reads_only_the_data_file (target : option string)
    (w1 w2 : World) :
  disk w1 !! data_path = disk w2 !! data_path →
  writable w1 = writable w2 →
  (train_model target w1).2 = (train_model target w2).2 ∧
  (∀ resp, (train_model target w1).2 = inr resp →
     globals (train_model target w1).1 = globals (train_model target w2).1 ∧
     disk (train_model target w1).1 !! model_path
     = disk (train_model target w2).1 !! model_path).
Proof. apply train_model_reads_aux. Qed.


(** X22: training again changes nothing.  After a successful /train
    call, a second call with the same target parameter on the state the
    first one left returns the same response and leaves the globals and the
    disk as the first call left them. *)
Theorem retraining_is_idempotent (target : option string) (w : World)
    (resp : TrainingResponse) :
  (train_model target w).2 = inr resp →
  let w' := (train_model target w).1 in
  (train_model target w').2 = inr resp ∧
  globals (train_model target w').1 = globals w' ∧
  disk (train_model target w').1 = disk w'.
Proof.
  intros Hrun w'. pose proof Hrun as Hfirst.
  apply train_model_inversion in Hfirst
    as (df & features & cv & y & X_train & X_test & y_train & y_test & p0 &
        _ & _ & _ & _ & _ & _ & _ & _ & _ & _ & _ & Hdisk & Hwritable & _).
  fold w' in Hdisk, Hwritable.
  destruct (train_model_reads_aux target w w') as [Hsame Hstate].
  { rewrite Hdisk. by rewrite lookup_insert_ne. }
  { done. }
  fold w' in Hstate. rewrite Hrun in Hsame.
  destruct (Hstate resp Hrun) as [Hglobals Hmodel].
  split; [done|]. split; [done|].
  symmetry in Hsame. apply train_model_inversion in Hsame
    as (df2 & features2 & cv2 & y2 & X_train2 & X_test2 & y_train2 & y_test2 &
        p2 & _ & _ & _ & _ & _ & _ & _ & _ & _ & _ & _ & Hdisk2 & _).
  rewrite Hdisk2 in Hmodel |- *. rewrite Hdisk in Hmodel |- *.
  rewrite !lookup_insert_eq in Hmodel.
  rewrite insert_insert_eq. f_equal. apply (inj Some). by symmetry.
Qed.

End Service.

(** * Closed examples

    The statements above hold for every behaviour of the external
    libraries.  The examples below run the handlers with the test doubles. *)

Abbreviation demo_predict_single :=
  (predict_single demo_convert demo_int_of_float demo_int_of_str
     demo_predict demo_predict_proba1).

Abbreviation demo_predict_batch :=
  (predict_batch demo_convert demo_predict demo_predict_proba1).

Abbreviation demo_train_model :=
  (train_model demo_str_other demo_train_test_split demo_fit demo_predict
     demo_predict_proba1 demo_score demo_score demo_score demo_score
     demo_roc_auc_score demo_confusion_matrix).

(** C1 (as written) fails for a missing column: a record without the
    feature Age is rejected with the HTTP 400 error of the schema check,
    while the same record with an Age is answered. *)
Lemma predict_single_rejects_missing_column :
  (∃ d, (demo_predict_single [("Geography", JStr "France")] demo_trained).2
        = inl (HTTPException 400 (Text "Missing required columns: " :: d))) ∧
  (demo_predict_single [("Age", JInt 41); ("Geography", JStr "France")]
     demo_trained).2
  = inr (mkPredictionResponse 0 0).
Proof. split; [eexists|]; vm_compute; reflexivity. Qed.

Lemma schema_check_missing_and_extra_columns_witness :
  (∃ d, (demo_predict_single [("Geography", JStr "France")] demo_trained).2
        = inl (HTTPException 400 d)) ∧
  (∃ d, (demo_predict_batch demo_incomplete_upload demo_trained).2
        = inl (HTTPException 400 d)) ∧
  demo_predict_single
    [("Name", JStr "Ada"); ("Age", JInt 41); ("Geography", JStr "France")]
    demo_trained
  = demo_predict_single [("Age", JInt 41); ("Geography", JStr "France")]
      demo_trained ∧
  outcome_of (demo_predict_batch demo_upload demo_trained)
  = outcome_of
      (demo_predict_batch
         (mkUpload "customers.csv"
            (inr (mkFrame 2
               [("Age", mkSeries int64 [CInt 41; CInt 35]);
                ("Geography", mkSeries object_ [CStr "France"; CStr "Spain"])])))
         demo_trained).
Proof.
  pose proof (schema_check_missing_and_extra_columns
                demo_convert demo_int_of_float demo_int_of_str
                demo_predict demo_predict_proba1)
    as (Hmissing & Hmissing_batch & Hextra & Hextra_batch).
  assert (Hfeatures : ∀ (l : list string) c,
            bool_decide (["Age"; "Geography"] ⊆ l) = true →
            c ∈ ["Age"; "Geography"] → c ∈ l).
  { intros l c Hl Hc. by apply (bool_decide_eq_true_1 _ Hl). }
  split_and!.
  - eexists.
    apply (Hmissing [("Geography", JStr "France")] demo_trained demo_pipeline
             ["Age"; "Geography"] "Age" eq_refl eq_refl).
    + left.
    + apply (bool_decide_unpack _). exact I.
  - eexists.
    apply (Hmissing_batch demo_incomplete_upload demo_trained demo_pipeline
             ["Age"; "Geography"] _ "Age" eq_refl eq_refl eq_refl eq_refl).
    + left.
    + apply (bool_decide_unpack _). exact I.
  - apply (Hextra
             [("Name", JStr "Ada"); ("Age", JInt 41); ("Geography", JStr "France")]
             demo_trained ["Age"; "Geography"] eq_refl).
    intros c. by apply Hfeatures.
  - apply (Hextra_batch demo_upload demo_trained ["Age"; "Geography"] _
             eq_refl eq_refl).
    intros c. by apply Hfeatures.
Defined.

Lemma detect_column_types_classifies_witness :
  "HasCrCard" ∈ (detect_column_types demo_dataset).2 ∧
  "Balance" ∈ (detect_column_types demo_dataset).1.
Proof.
  split.
  - generalize (detect_column_types_classifies demo_dataset "HasCrCard" _ eq_refl).
    destruct (detect_column_types demo_dataset) as [numerical categorical].
    intros (_ & Hlow & _). apply Hlow; [reflexivity | vm_compute; lia].
  - generalize (detect_column_types_classifies demo_dataset "Balance" _ eq_refl).
    destruct (detect_column_types demo_dataset) as [numerical categorical].
    intros (Hnum & _ & _). apply Hnum; [reflexivity | intros [[=] _]].
Defined.

(** C3 (as written) fails for the empty target parameter of
    [/train?target=]: the empty string is not a column of the dataset, yet no
    error is raised and the conventional target is returned. *)
Lemma detect_target_column_empty_param :
  (EmptyString ∉ columns demo_dataset) ∧
  detect_target_column demo_dataset (Some EmptyString) = inr "Exited".
Proof.
  split; [|reflexivity].
  apply (bool_decide_unpack (EmptyString ∉ columns demo_dataset)). exact I.
Qed.

Lemma detect_target_column_spec_witness :
  detect_target_column demo_dataset (Some "Exited") = inr "Exited" ∧
  ∃ e, detect_target_column demo_dataset (Some "Target") = inl e.
Proof.
  split.
  - apply (proj1 (proj1 (detect_target_column_spec demo_dataset (Some "Exited"))
                    "Exited" eq_refl ltac:(discriminate))).
    apply (bool_decide_unpack _). exact I.
  - apply (proj2 (proj1 (detect_target_column_spec demo_dataset (Some "Target"))
                    "Target" eq_refl ltac:(discriminate))).
    apply (bool_decide_unpack _). exact I.
Defined.

(** C4 (as written) fails for a value whose conversion raises neither a
    ValueError nor a TypeError: for the integer 10^400, beyond the range of
    a double, pandas raises OverflowError, which the inner except clause
    does not catch, and the answer is the HTTP 500 error of the generic
    mapping, not an HTTP 400 error. *)
Lemma predict_single_overflow_is_500 :
  to_numeric demo_convert (series_of_json (JInt (10 ^ 400)))
    = inl (Error (OtherError "OverflowError")
             [Text "int too large to convert to float"]) ∧
  (demo_predict_single [("Age", JInt (10 ^ 400)); ("Geography", JStr "France")]
     demo_trained).2
    = inl (HTTPException 500
             [Text "Prediction error: ";
              Text "int too large to convert to float"]).
Proof. split; vm_compute; reflexivity. Qed.


Lemma train_model_success_witness :
  ∃ w' resp,
    demo_train_model None demo_fresh = (w', inr resp) ∧
    resp_feature_columns resp = ["Geography"; "Balance"; "HasCrCard"] ∧
    ∃ p cv,
      fitted_on p
        = Some (mkFrame 4
                  [("Geography", mkSeries object_
                      [CStr "France"; CStr "Spain"; CStr "France"; CStr "Germany"]);
                   ("Balance", mkSeries float64
                      [CFloat 0; CFloat 4680000000000000000;
                       CFloat 4680000000000000001; CFloat 0]);
                   ("HasCrCard", mkSeries int64 [CInt 1; CInt 0; CInt 1; CInt 1])],
                mkSeries int64 [CInt 1; CInt 0; CInt 1; CInt 0]) ∧
      cv !! "Geography" = Some ["France"; "Germany"; "Spain"] ∧
      disk w' !! model_path =
        Some (JoblibFile (inr
          (mkModelData (Some p)
             (Some (resp_feature_columns resp)) (Some (resp_target_column resp))
             (Some (resp_categorical_columns resp))
             (Some (resp_numerical_columns resp)) (Some cv)))).
Proof.
  eexists _, _. split; [vm_compute; reflexivity|].
  split; [reflexivity|].
  destruct (train_model_success
              demo_str_other demo_train_test_split demo_fit demo_predict
              demo_predict_proba1 demo_score demo_score demo_score demo_score
              demo_roc_auc_score demo_confusion_matrix
              None demo_fresh _ _ ltac:(vm_compute; reflexivity))
    as (df & features & y & X_train & X_test & y_train & y_test & p0 & p &
        y_pred & y_proba & cm & cv &
        Hdata & Hselect & Hy & Hsplit & _ & _ & _ & _ & _ & _ & _ & Hfitted &
        _ & Hcv & Hdisk & _).
  exists p, cv. split_and!.
  - rewrite Hfitted.
    vm_compute in Hdata. injection Hdata as <-.
    vm_compute in Hselect. injection Hselect as <-.
    vm_compute in Hy. injection Hy as <-.
    vm_compute in Hsplit. by injection Hsplit as <- _ <- _.
  - rewrite Hcv. vm_compute in Hdata. injection Hdata as <-.
    vm_compute. reflexivity.
  - rewrite Hdisk. apply lookup_insert_eq.
Defined.


(** C7 (as written) fails in /predict: the ValueError raised by the
    conversion of the text abc is not an HTTPException, and the answer is an
    HTTP 400 error, not the HTTP 500 error of the generic mapping. *)
Lemma predict_single_validation_error_is_400 :
  let run := demo_predict_single
               [("Age", JStr "abc"); ("Geography", JStr "France")] demo_trained in
  raised run.1 =
    [Error ValueError [Text "Unable to parse string "; ReprCell (CStr "abc")];
     HTTPException 400
       [Text "Column '"; Text "Age"; Text "' must be numeric. Received: ";
        ReprCell (CStr "abc")]] ∧
  run.2 = inl (HTTPException 400
                 [Text "Column '"; Text "Age"; Text "' must be numeric. Received: ";
                  ReprCell (CStr "abc")]) ∧
  ¬ generic_mapping "Prediction error: " (raised run.1) run.2.
Proof.
  split; [vm_compute; reflexivity|]. split; [vm_compute; reflexivity|].
  vm_compute. intros [[[=] _] | (e & [= <-] & _ & [=])].
Qed.

Lemma train_feature_columns_witness :
  feature_columns (globals (demo_train_model None demo_fresh).1)
  = Some ["Geography"; "Balance"; "HasCrCard"].
Proof.
  exact (proj1 (train_feature_columns
                  demo_str_other demo_train_test_split demo_fit demo_predict
                  demo_predict_proba1 demo_score demo_score demo_score demo_score
                  demo_roc_auc_score demo_confusion_matrix
                  None demo_fresh demo_dataset "Exited" eq_refl eq_refl)).
Defined.

(** C10 (as written) fails for an upload that already has a Prediction
    and a Probability column: nothing is appended, and the uploaded values of
    the two columns are replaced. *)
Lemma predict_batch_overwrites_prediction_columns :
  ∃ resp,
    (demo_predict_batch demo_scored_upload demo_trained).2 = inr resp ∧
    columns (body resp) = ["Age"; "Geography"; "Prediction"; "Probability"] ∧
    getitem (body resp) "Prediction" = Some (mkSeries int64 [CInt 0; CInt 0]).
Proof. eexists. split; [vm_compute; reflexivity|]. split; reflexivity. Qed.

Lemma predict_batch_output_witness :
  ∃ resp,
    (demo_predict_batch demo_upload demo_trained).2 = inr resp ∧
    columns (body resp) = ["Name"; "Age"; "Geography"; "Prediction"; "Probability"] ∧
    ∃ preds probas,
      cols (body resp) =
        [("Name", mkSeries object_ [CStr "Ada"; CStr "Grace"]);
         ("Age", mkSeries int64 [CInt 41; CInt 35]);
         ("Geography", mkSeries object_ [CStr "France"; CStr "Spain"])]
        ++ [("Prediction", preds); ("Probability", probas)].
Proof.
  eexists. split; [vm_compute; reflexivity|]. split; [reflexivity|].
  destruct (predict_batch_output demo_convert demo_predict demo_predict_proba1
              demo_upload demo_trained _ _ eq_refl
              ltac:(apply (bool_decide_unpack _); exact I)
              ltac:(apply (bool_decide_unpack _); exact I)
              ltac:(vm_compute; reflexivity))
    as (preds & probas & Hcols & _).
  exists preds, probas. exact Hcols.
Defined.

(** * Closed examples of the further properties *)

Abbreviation demo_failing_train_model :=
  (train_model demo_str_other demo_train_test_split demo_failing_fit demo_predict
     demo_predict_proba1 demo_score demo_score demo_score demo_score
     demo_roc_auc_score demo_confusion_matrix).

(** A process next to a dataset that has no feature column. *)
Abbreviation demo_no_features :=
  (mkWorld no_globals {[ data_path := CsvFile (inr demo_ids_only) ]} true []).

(** A trained process next to the dataset. *)
Abbreviation demo_retrain :=
  (mkWorld (globals demo_trained) (disk demo_fresh) true []).

Lemma untrained_service_witness :
  (health_check demo_fresh).2 = inr (mkHealth "healthy" false) ∧
  get_model_info demo_fresh = (demo_fresh, inr NotTrained) ∧
  ∃ d, (demo_predict_single [("Age", JInt 41)] demo_fresh).2
       = inl (HTTPException 400 d).
Proof.
  destruct (untrained_service demo_convert demo_int_of_float demo_int_of_str
              demo_predict demo_predict_proba1 demo_fresh eq_refl)
    as (Hhealth & Hinfo & Hsingle & _).
  split; [exact (f_equal snd Hhealth)|]. split; [exact Hinfo|].
  eexists. exact (f_equal snd (Hsingle [("Age", JInt 41)])).
Defined.

Lemma predict_batch_needs_csv_name_witness :
  (demo_predict_batch (mkUpload "customers.txt" (content demo_upload))
     demo_trained).2
  = inl (HTTPException 400
           [Text "File must be a CSV file. Please upload a .csv file."]).
Proof.
  assert (Hname : ¬ ∃ stem, "customers.txt" = stem +:+ ".csv").
  { intros H. apply endswith_spec in H. vm_compute in H. discriminate. }
  exact (f_equal snd
           (proj1 (predict_batch_needs_csv_name
                     demo_convert demo_predict demo_predict_proba1
                     (mkUpload "customers.txt" (content demo_upload))
                     demo_trained demo_pipeline eq_refl Hname
                     (content demo_upload)))).
Defined.

Lemma create_pipeline_spec_witness :
  ∃ p, create_pipeline ["Geography"] ["Age"] = inr p ∧
       transformer_columns p = ["Geography"; "Age"] ∧
       ∃ e, create_pipeline [] [] = inl e.
Proof.
  eexists. split; [reflexivity|]. split.
  - exact (proj1 (proj2 (proj2
             (proj2 (create_pipeline_spec ["Geography"] ["Age"]) _ eq_refl)))).
  - exact (proj2 (proj1 (create_pipeline_spec [] [])) (conj eq_refl eq_refl)).
Defined.

Lemma trained_pipeline_reads_every_feature_witness :
  ∃ p, pipeline (globals (demo_train_model None demo_fresh).1) = Some p ∧
       transformer_columns p = ["Geography"; "HasCrCard"; "Balance"] ∧
       ["Geography"; "HasCrCard"; "Balance"]
         ≡ₚ ["Geography"; "Balance"; "HasCrCard"].
Proof.
  destruct (trained_pipeline_reads_every_feature
              demo_str_other demo_train_test_split demo_fit demo_predict
              demo_predict_proba1 demo_score demo_score demo_score demo_score
              demo_roc_auc_score demo_confusion_matrix
              None demo_fresh _ ltac:(vm_compute; reflexivity))
    as (p & Hp & _ & Hcols & Hperm & _).
  exists p. split; [exact Hp|]. split; [exact Hcols | exact Hperm].
Defined.

Lemma model_info_after_training_witness :
  (get_model_info (demo_train_model None demo_fresh).1).2
  = inr (Info (Some "Exited") (Some ["Geography"; "Balance"; "HasCrCard"])
              (Some ["Geography"; "HasCrCard"]) (Some ["Balance"])
              "LogisticRegression").
Proof.
  exact (f_equal snd
           (model_info_after_training
              demo_str_other demo_train_test_split demo_fit demo_predict
              demo_predict_proba1 demo_score demo_score demo_score demo_score
              demo_roc_auc_score demo_confusion_matrix
              None demo_fresh _ ltac:(vm_compute; reflexivity))).
Defined.

Lemma categorical_values_after_training_witness :
  ∃ cv, categorical_values (globals (demo_train_model None demo_fresh).1) = Some cv ∧
        is_Some (cv !! "Geography") ∧
        ∀ texts, cv !! "Geography" = Some texts →
                 Sorted (λ a b : string, String.leb a b) texts ∧
                 texts ≡ₚ ["France"; "Spain"; "Germany"].
Proof.
  destruct (categorical_values_after_training
              demo_str_other demo_train_test_split demo_fit demo_predict
              demo_predict_proba1 demo_score demo_score demo_score demo_score
              demo_roc_auc_score demo_confusion_matrix
              None demo_fresh _ ltac:(vm_compute; reflexivity))
    as (df & cv & Hdata & Hcv & Hkeys & Hvalues).
  exists cv. split; [exact Hcv|]. split.
  - apply Hkeys. apply (bool_decide_unpack _). exact I.
  - intros texts Htexts.
    destruct (Hvalues _ _ Htexts) as (Hsorted & s & distinct & Hs & Hnodup & Hmem & Hperm).
    split; [exact Hsorted|]. rewrite Hperm.
    change ["France"; "Spain"; "Germany"]
      with (str_cell demo_str_other <$> [CStr "France"; CStr "Spain"; CStr "Germany"])
      at 1.
    apply fmap_Permutation, NoDup_Permutation; [exact Hnodup | |].
    + apply (bool_decide_unpack _). exact I.
    + vm_compute in Hdata. injection Hdata as <-.
      vm_compute in Hs. injection Hs as <-.
      intros v. rewrite Hmem. simpl. rewrite !elem_of_cons, !elem_of_nil.
      naive_solver.
Defined.

Lemma get_schema_fields_witness :
  ∃ resp, (get_schema demo_trained).2 = inr resp ∧
          schema_target resp = Some "Exited" ∧
          Some ["Age"; "Geography"] = Some (field_name <$> schema_fields resp).
Proof.
  eexists. split; [vm_compute; reflexivity|].
  destruct (get_schema_fields demo_trained _ ltac:(vm_compute; reflexivity))
    as (Htarget & Hnames & _).
  split; [exact Htarget | exact Hnames].
Defined.

Lemma get_schema_failures_witness :
  ∃ e, (get_schema demo_fresh).2 = inl e ∧
       feature_columns (globals demo_fresh) = None.
Proof.
  eexists. split; [vm_compute; reflexivity|].
  exact (proj1 (get_schema_failures demo_fresh _ ltac:(vm_compute; reflexivity))).
Defined.

Lemma schema_after_training_witness :
  ∃ fields,
    (get_schema (demo_train_model None demo_fresh).1).2
    = inr (mkSchemaResponse (Some "Exited") fields) ∧
    field_name <$> fields = ["Geography"; "Balance"; "HasCrCard"] ∧
    NumberField "Balance" ∈ fields.
Proof.
  destruct (schema_after_training
              demo_str_other demo_train_test_split demo_fit demo_predict
              demo_predict_proba1 demo_score demo_score demo_score demo_score
              demo_roc_auc_score demo_confusion_matrix
              None demo_fresh _ ltac:(vm_compute; reflexivity))
    as (fields & cv & Hschema & _ & Hnames & Hnum & _).
  exists fields. split; [exact (f_equal snd Hschema)|].
  split; [exact Hnames|]. apply Hnum. apply (bool_decide_unpack _). exact I.
Defined.

Lemma schema_load_keeps_service_untrained_witness :
  feature_columns (globals (get_schema demo_restarted).1)
    = Some ["Age"; "Geography"] ∧
  (health_check (get_schema demo_restarted).1).2
    = inr (mkHealth "healthy" false).
Proof.
  split; [reflexivity|].
  exact (proj1 (schema_load_keeps_service_untrained
                  demo_convert demo_int_of_float demo_int_of_str
                  demo_predict demo_predict_proba1 demo_restarted eq_refl)).
Defined.

Lemma startup_event_outcome_witness :
  globals (startup_event demo_restarted).1
    = mkGlobals None (Some demo_pipeline)
        (Some ["Age"; "Geography"]) (Some "Exited")
        (Some ["Geography"]) (Some ["Age"])
        (Some {[ "Geography" := ["France"; "Spain"] ]}) ∧
  globals (startup_event demo_corrupt).1 = globals demo_corrupt.
Proof.
  split.
  - exact (proj1 (proj2 (proj2 (startup_event_outcome demo_restarted)))
             demo_model_data eq_refl).
  - apply (proj2 (proj2 (proj2 (startup_event_outcome demo_corrupt)))).
    intros md Hmd. vm_compute in Hmd. discriminate.
Defined.

Lemma restart_restores_service_witness :
  let w' := (demo_train_model None demo_fresh).1 in
  globals (startup_event (restarted w')).1 = with_model None (globals w').
Proof.
  exact (proj1 (restart_restores_service
                  demo_convert demo_str_other demo_int_of_float
                  demo_int_of_str demo_train_test_split demo_fit demo_predict
                  demo_predict_proba1 demo_score demo_score demo_score demo_score
                  demo_roc_auc_score demo_confusion_matrix
                  None demo_fresh _ ltac:(vm_compute; reflexivity))).
Defined.

Lemma failed_training_writes_nothing_witness :
  disk (demo_train_model (Some "Target") demo_fresh).1 = disk demo_fresh ∧
  model (globals (demo_train_model (Some "Target") demo_fresh).1) = None.
Proof.
  destruct (failed_training_writes_nothing
              demo_str_other demo_train_test_split demo_fit demo_predict
              demo_predict_proba1 demo_score demo_score demo_score demo_score
              demo_roc_auc_score demo_confusion_matrix
              (Some "Target") demo_fresh _ ltac:(vm_compute; reflexivity))
    as (Hdisk & _ & Hmodel).
  split; [exact Hdisk | exact Hmodel].
Defined.

Lemma train_model_early_failures_witness :
  (demo_train_model None demo_trained).2
    = inl (HTTPException 404
             [Text "Data file not found. Please ensure data/Churn_Modelling.csv exists."]) ∧
  ∃ msg, (demo_train_model (Some "Target") demo_fresh).2
         = inl (HTTPException 500 (Text "Training error: " :: msg)).
Proof.
  split.
  - exact (f_equal snd
             (proj1 (train_model_early_failures
                       demo_str_other demo_train_test_split demo_fit demo_predict
                       demo_predict_proba1 demo_score demo_score demo_score
                       demo_score demo_roc_auc_score demo_confusion_matrix
                       None demo_trained) eq_refl)).
  - destruct (proj2 (train_model_early_failures
                       demo_str_other demo_train_test_split demo_fit demo_predict
                       demo_predict_proba1 demo_score demo_score demo_score
                       demo_score demo_roc_auc_score demo_confusion_matrix
                       (Some "Target") demo_fresh)
                demo_dataset _ eq_refl ltac:(vm_compute; reflexivity))
      as (msg & _ & Hrun).
    exists msg. exact (f_equal snd Hrun).
Defined.

Lemma failed_fit_leaves_unfitted_pipeline_witness :
  ∃ p0, pipeline (globals (demo_failing_train_model None demo_fresh).1) = Some p0 ∧
        fitted_on p0 = None ∧
        (health_check (demo_failing_train_model None demo_fresh).1).2
          = inr (mkHealth "healthy" true) ∧
        (demo_failing_train_model None demo_fresh).2
          = inl (HTTPException 500
                   [Text "Training error: "; Text "Input contains NaN"]).
Proof.
  destruct (failed_fit_leaves_unfitted_pipeline
              demo_str_other demo_train_test_split demo_failing_fit demo_predict
              demo_predict_proba1 demo_score demo_score demo_score demo_score
              demo_roc_auc_score demo_confusion_matrix
              None demo_fresh demo_dataset _ "Exited" _ _ _ _ _ _ _
              eq_refl eq_refl
              ltac:(vm_compute; reflexivity) ltac:(vm_compute; reflexivity)
              ltac:(vm_compute; reflexivity) ltac:(vm_compute; reflexivity)
              ltac:(vm_compute; reflexivity))
    as (Hrun & Hpipeline & Hfitted & _ & _ & _ & Hhealth).
  eexists. split; [exact Hpipeline|]. split; [exact Hfitted|].
  split; [exact Hhealth | exact Hrun].
Defined.

Lemma train_model_needs_a_feature_witness :
  (demo_train_model None demo_no_features).2
  = inl (HTTPException 500
           [Text "Training error: "; Text "No features found for preprocessing"]).
Proof.
  assert (Hids : ∀ c, c ∈ columns demo_ids_only →
                      c = "Exited" ∨ endswith (lower c) "id" = true).
  { intros c Hc. apply list_elem_of_In in Hc. simpl in Hc.
    destruct Hc as [<-|[<-|[]]]; [right | left]; reflexivity. }
  exact (proj2 (proj2 (train_model_needs_a_feature
                         demo_str_other demo_train_test_split demo_fit demo_predict
                         demo_predict_proba1 demo_score demo_score demo_score
                         demo_score demo_roc_auc_score demo_confusion_matrix
                         None demo_no_features demo_ids_only "Exited"
                         eq_refl eq_refl Hids))
           _ _ eq_refl eq_refl).
Defined.

Lemma predict_single_reads_feature_values_witness :
  demo_predict_single
    [("Geography", JStr "France"); ("Name", JStr "Ada"); ("Age", JInt 41)]
    demo_trained
  = demo_predict_single [("Age", JInt 41); ("Geography", JStr "France")]
      demo_trained.
Proof.
  apply (predict_single_reads_feature_values
           demo_convert demo_int_of_float demo_int_of_str
           demo_predict demo_predict_proba1
           [("Age", JInt 41); ("Geography", JStr "France")]
           [("Geography", JStr "France"); ("Name", JStr "Ada"); ("Age", JInt 41)]
           demo_trained ["Age"; "Geography"] eq_refl).
  - intros c Hc. apply list_elem_of_In in Hc. simpl in Hc.
    destruct Hc as [<-|[<-|[]]]; apply (bool_decide_unpack _); exact I.
  - intros c Hc. apply list_elem_of_In in Hc. simpl in Hc.
    destruct Hc as [<-|[<-|[]]]; reflexivity.
Defined.

Lemma pipeline_input_frame_witness :
  ∃ df', columns df' = ["Age"; "Geography"] ∧
         nrows df' = 1%nat ∧
         getitem df' "Geography" = Some (series_of_json (JStr "France")).
Proof.
  destruct (proj1 (pipeline_input_frame
                     demo_convert demo_int_of_float demo_int_of_str
                     demo_predict demo_predict_proba1)
              [("Geography", JStr "France"); ("Age", JInt 41)] demo_trained
              _ ltac:(vm_compute; reflexivity))
    as (p & fc & df' & preds & pred & _ & Hfc & Hcols & Hrows & Hget & _).
  simpl in Hfc. injection Hfc as <-.
  exists df'. split; [exact Hcols|]. split; [exact Hrows|].
  apply (Hget "Geography"); apply (bool_decide_unpack _); exact I.
Defined.

Lemma batch_agrees_with_single_witness :
  ∃ resp_b,
    (demo_predict_batch
       (mkUpload "one.csv"
          (inr (frame_of_record [("Age", JInt 41); ("Geography", JStr "France")])))
       demo_trained).2 = inr resp_b ∧
    (demo_predict_single [("Age", JInt 41); ("Geography", JStr "France")]
       demo_trained).2 = inr (mkPredictionResponse 0 0) ∧
    getitem (body resp_b) "Probability"
      = Some (mkSeries float64 [CFloat 0]).
Proof.
  eexists. split; [vm_compute; reflexivity|].
  split; [vm_compute; reflexivity|].
  exact (proj2 (batch_agrees_with_single
                  demo_convert demo_int_of_float demo_int_of_str
                  demo_predict demo_predict_proba1
                  [("Age", JInt 41); ("Geography", JStr "France")]
                  (mkUpload "one.csv"
                     (inr (frame_of_record
                             [("Age", JInt 41); ("Geography", JStr "France")])))
                  demo_trained (mkPredictionResponse 0 0) _
                  eq_refl ltac:(vm_compute; reflexivity)
                  ltac:(vm_compute; reflexivity))).
Defined.

Lemma train_model_reads_only_the_data_file_witness :
  (demo_train_model None demo_fresh).2 = (demo_train_model None demo_retrain).2 ∧
  ∃ resp, (demo_train_model None demo_fresh).2 = inr resp ∧
          globals (demo_train_model None demo_fresh).1
          = globals (demo_train_model None demo_retrain).1.
Proof.
  destruct (train_model_reads_only_the_data_file
              demo_str_other demo_train_test_split demo_fit demo_predict
              demo_predict_proba1 demo_score demo_score demo_score demo_score
              demo_roc_auc_score demo_confusion_matrix
              None demo_fresh demo_retrain eq_refl eq_refl)
    as [Hsame Hstate].
  split; [exact Hsame|].
  eexists. split; [vm_compute; reflexivity|].
  exact (proj1 (Hstate _ ltac:(vm_compute; reflexivity))).
Defined.

Lemma retraining_is_idempotent_witness :
  let w' := (demo_train_model None demo_fresh).1 in
  (demo_train_model None w').2 = (demo_train_model None demo_fresh).2 ∧
  disk (demo_train_model None w').1 = disk w'.
Proof.
  destruct (retraining_is_idempotent
              demo_str_other demo_train_test_split demo_fit demo_predict
              demo_predict_proba1 demo_score demo_score demo_score demo_score
              demo_roc_auc_score demo_confusion_matrix
              None demo_fresh _ ltac:(vm_compute; reflexivity))
    as (Hsame & _ & Hdisk).
  split; [|exact Hdisk].
  etransitivity; [exact Hsame | vm_compute; reflexivity].
Defined.
